(** * bcbio.pipeline.lane: lane preparation, trimming and alignment dispatch

    A shallow embedding of [bcbio/pipeline/lane.py].  Python objects live in
    an explicit store: dictionaries and lists are heap objects addressed by
    reference, so that [copy.deepcopy] and the in-place assignments
    [config["algorithm"][key] = val] keep their meaning.  Exceptions are a
    result type.

    - Values are [None], booleans, integers, strings and references; a
      dictionary is the list of its entries in insertion order, which is also
      the order [iteritems] follows.
    - The tools the module calls (FASTQ discovery, barcode demultiplexing,
      read splitting, trimming, alignment, Picard sort), the file system and
      the printed form of containers are section variables.  A tool reads the
      store and returns a value or raises; it does not write to the store.
    - [logger.info] is left out, but the message formatting that can raise
      ([", ".join(to_trim)]) is kept. *)

From Stdlib Require Import ZArith List Bool Lia Ascii.
From stdpp Require Import base tactics option list strings pretty.

Local Open Scope Z_scope.
Local Open Scope string_scope.
Local Open Scope list_scope.

(** ** Python values and the object store *)

Notation loc := nat (only parsing).

Inductive val : Type :=
| VNone
| VBool (b : bool)
| VInt (z : Z)
| VStr (s : string)
| VRef (l : loc).

Inductive obj : Type :=
| ODict (d : list (val * val))
| OList (xs : list val).

Notation heap := (list obj) (only parsing).

Global Instance val_eq_dec : EqDecision val.
Proof. solve_decision. Defined.

Global Instance obj_eq_dec : EqDecision obj.
Proof. solve_decision. Defined.

(** Exceptions.  [Stuck] is not a Python exception: it marks a reference
    that points outside the store, which no operation below creates. *)
Inductive exn : Type :=
| KeyError
| IndexError
| TypeError
| AttributeError
| ToolError (msg : string)
| Stuck.

Inductive res (A : Type) : Type :=
| Ok (a : A)
| Raise (e : exn).
Arguments Ok {A} a.
Arguments Raise {A} e.

Definition bind {A B : Type} (m : res A) (k : A -> res B) : res B :=
  match m with
  | Ok a => k a
  | Raise e => Raise e
  end.

Notation "'let*' x ':=' m 'in' k" := (bind m (fun x => k))
  (at level 10, x name, m at level 100, k at level 200).
Notation "'let*' ' pat ':=' m 'in' k" :=
  (bind m (fun x => match x with pat => k end))
  (at level 10, pat pattern, m at level 100, k at level 200).

(** ** Dictionaries *)

(** Python compares [True] with [1] and [False] with [0] as equal keys. *)
Definition key_norm (k : val) : val :=
  match k with
  | VBool b => VInt (Z.b2z b)
  | _ => k
  end.

Definition key_eqb (a b : val) : bool :=
  bool_decide (key_norm a = key_norm b).

(** Dictionaries and lists are unhashable. *)
Definition hashable (k : val) : bool :=
  match k with
  | VRef _ => false
  | _ => true
  end.

Fixpoint assoc_get (d : list (val * val)) (k : val) : option val :=
  match d with
  | [] => None
  | (k', v) :: d' => if key_eqb k' k then Some v else assoc_get d' k
  end.

(** [d[k] = v]: an existing entry keeps its key and its place. *)
Fixpoint assoc_set (d : list (val * val)) (k v : val) : list (val * val) :=
  match d with
  | [] => [(k, v)]
  | (k', v') :: d' =>
      if key_eqb k' k then (k', v) :: d' else (k', v') :: assoc_set d' k v
  end.

(** The entries of the dictionary [v] denotes; [e] is what Python raises
    when [v] is no dictionary ([TypeError] for a subscript, [AttributeError]
    for a method). *)
Definition as_dict (h : heap) (v : val) (e : exn) : res (list (val * val)) :=
  match v with
  | VRef l =>
      match h !! l with
      | Some (ODict d) => Ok d
      | Some (OList _) => Raise e
      | None => Raise Stuck
      end
  | _ => Raise e
  end.

(** [v[k]] on a dictionary.  The module subscripts what it reads with
    string keys only, which a list rejects with TypeError as well. *)
Definition py_getitem (h : heap) (v k : val) : res val :=
  let* d := as_dict h v TypeError in
  if hashable k then
    match assoc_get d k with
    | Some x => Ok x
    | None => Raise KeyError
    end
  else Raise TypeError.

(** [v.get(k, dflt)] *)
Definition py_get (h : heap) (v k dflt : val) : res val :=
  let* d := as_dict h v AttributeError in
  if hashable k then
    match assoc_get d k with
    | Some x => Ok x
    | None => Ok dflt
    end
  else Raise TypeError.

(** The position a list of length [n] gives to the index [k]: integers (and
    the booleans, which are integers) count from the start, negative ones
    from the end; anything else is no index. *)
Definition list_slot (n : nat) (k : val) : res nat :=
  match key_norm k with
  | VInt z =>
      let i := (if z <? 0 then z + Z.of_nat n else z)%Z in
      if ((0 <=? i) && (i <? Z.of_nat n))%Z then Ok (Z.to_nat i)
      else Raise IndexError
  | _ => Raise TypeError
  end.

(** [v[k] = x]: an entry of a dictionary, or an existing position of a
    list. *)
Definition py_setitem (h : heap) (v k x : val) : res heap :=
  match v with
  | VRef l =>
      match h !! l with
      | Some (ODict d) =>
          if hashable k then Ok (<[l := ODict (assoc_set d k x)]> h)
          else Raise TypeError
      | Some (OList xs) =>
          let* i := list_slot (length xs) k in
          Ok (<[l := OList (<[i := x]> xs)]> h)
      | None => Raise Stuck
      end
  | _ => Raise TypeError
  end.

(** [v.iteritems()], as the list of entries at the time of the call. *)
Definition py_iteritems (h : heap) (v : val) : res (list (val * val)) :=
  as_dict h v AttributeError.

(** Truth value of an object in a condition. *)
Definition truthy (h : heap) (v : val) : bool :=
  match v with
  | VNone => false
  | VBool b => b
  | VInt z => negb (z =? 0)%Z
  | VStr s => negb (bool_decide (s = ""))
  | VRef l =>
      match h !! l with
      | Some (ODict d) => negb (bool_decide (d = []))
      | Some (OList xs) => negb (bool_decide (xs = []))
      | None => true
      end
  end.

(** ** copy.deepcopy *)

Notation memo := (list (nat * nat)) (only parsing).

Fixpoint memo_get (m : memo) (l : loc) : option loc :=
  match m with
  | [] => None
  | (a, b) :: m' => if Nat.eqb a l then Some b else memo_get m' l
  end.

(** [y.append(x)] on the list object at [l]. *)
Definition py_append (h : heap) (l : loc) (x : val) : res heap :=
  match h !! l with
  | Some (OList xs) => Ok (<[l := OList (xs ++ [x])]> h)
  | Some (ODict _) => Raise AttributeError
  | None => Raise Stuck
  end.

Section copy_children.
Variable rec : heap -> memo -> val -> res (heap * memo * val).

(** [for key, value in x.iteritems(): y[deepcopy(key, memo)] = deepcopy(value, memo)] *)
Fixpoint copy_items (y : loc) (items : list (val * val)) (h : heap) (m : memo)
  : res (heap * memo) :=
  match items with
  | [] => Ok (h, m)
  | (k, v) :: rest =>
      let* '(h1, m1, v') := rec h m v in
      let* '(h2, m2, k') := rec h1 m1 k in
      let* h3 := py_setitem h2 (VRef y) k' v' in
      copy_items y rest h3 m2
  end.

(** [for a in x: y.append(deepcopy(a, memo))] *)
Fixpoint copy_elems (y : loc) (xs : list val) (h : heap) (m : memo)
  : res (heap * memo) :=
  match xs with
  | [] => Ok (h, m)
  | a :: rest =>
      let* '(h1, m1, a') := rec h m a in
      let* h2 := py_append h1 y a' in
      copy_elems y rest h2 m1
  end.
End copy_children.

(** [deepcopy(x, memo)]: atoms are returned as they are; a dictionary or a
    list already in the memo yields its copy; otherwise an empty copy is
    allocated, entered in the memo and filled.  The recursion depth is
    bounded by [fuel]. *)
Fixpoint deepcopy_fuel (fuel : nat) (h : heap) (m : memo) (x : val)
  : res (heap * memo * val) :=
  match x with
  | VRef l =>
      match memo_get m l with
      | Some y => Ok (h, m, VRef y)
      | None =>
          match fuel with
          | O => Raise Stuck
          | S fuel' =>
              let y := length h in
              match h !! l with
              | Some (ODict d) =>
                  let* '(h', m') := copy_items (deepcopy_fuel fuel') y d
                                 (h ++ [ODict []]) ((l, y) :: m) in
                  Ok (h', m', VRef y)
              | Some (OList xs) =>
                  let* '(h', m') := copy_elems (deepcopy_fuel fuel') y xs
                                 (h ++ [OList []]) ((l, y) :: m) in
                  Ok (h', m', VRef y)
              | None => Raise Stuck
              end
          end
      end
  | _ => Ok (h, m, x)
  end.

(** [copy.deepcopy(x)].  Every object is copied at most once, so the depth
    never exceeds the number of objects in the store. *)
Definition deepcopy (h : heap) (x : val) : res (heap * val) :=
  let* '(h', _, y) := deepcopy_fuel (S (length h)) h [] x in
  Ok (h', y).

(** ** _update_config_w_custom *)

(** [name_remaps.get(base_name, [base_name])] *)
Definition name_remaps_get (base_name : val) : res (list val) :=
  if hashable base_name then
    if key_eqb (VStr "variant") base_name then Ok [VStr "SNP calling"; VStr "variant"]
    else if key_eqb (VStr "SNP calling") base_name then Ok [VStr "SNP calling"; VStr "variant"]
    else Ok [base_name]
  else Raise TypeError.

(** [for key, val in items: config["algorithm"][key] = val] *)
Fixpoint overlay_items (config : val) (items : list (val * val)) (h : heap)
  : res heap :=
  match items with
  | [] => Ok h
  | (key, v) :: rest =>
      let* alg := py_getitem h config (VStr "algorithm") in
      let* h1 := py_setitem h alg key v in
      overlay_items config rest h1
  end.

(** The loop over the resolved analysis types. *)
Fixpoint overlay_custom (config : val) (types : list val) (h : heap)
  : res heap :=
  match types with
  | [] => Ok h
  | analysis_type :: rest =>
      let* ca := py_getitem h config (VStr "custom_algorithms") in
      let* custom := py_get h ca analysis_type VNone in
      let* h1 := (if truthy h custom then
                    let* items := py_iteritems h custom in
                    overlay_items config items h
                  else Ok h) in
      overlay_custom config rest h1
  end.

(** [lane_info.get("algorithm", {}).iteritems()]; the fresh [{}] default has
    no entries and is dropped at once. *)
Definition lane_algorithm_items (h : heap) (lane_info : val)
  : res (list (val * val)) :=
  let* d := as_dict h lane_info AttributeError in
  match assoc_get d (VStr "algorithm") with
  | Some a => py_iteritems h a
  | None => Ok []
  end.

Definition _update_config_w_custom (h : heap) (config lane_info : val)
  : res (heap * val) :=
  let* '(h1, config') := deepcopy h config in
  let* base_name := py_get h1 lane_info (VStr "analysis") VNone in
  let* types := name_remaps_get base_name in
  let* h2 := overlay_custom config' types h1 in
  let* items := lane_algorithm_items h2 lane_info in
  let* h3 := overlay_items config' items h2 in
  Ok (h3, config').

(** ** Strings: [str()], [str.join], [str.endswith] and [os.path] *)

Definition str_endswith (s suffix : string) : bool :=
  String.prefix (String.rev suffix) (String.rev s).

Fixpoint str_contains (c : ascii) (s : string) : bool :=
  match s with
  | EmptyString => false
  | String a s' => Ascii.eqb a c || str_contains c s'
  end.

Fixpoint rfind_go (c : ascii) (s : string) (i last : Z) : Z :=
  match s with
  | EmptyString => last
  | String a s' => rfind_go c s' (i + 1) (if Ascii.eqb a c then i else last)
  end.

(** [s.rfind(c)]: the index of the last [c], or -1. *)
Definition str_rfind (c : ascii) (s : string) : Z := rfind_go c s 0 (-1).

(** [os.path.basename(p)]: [p[p.rfind('/') + 1:]] *)
Definition os_path_basename (p : string) : string :=
  let i := Z.to_nat (str_rfind "/"%char p + 1) in
  String.substring i (String.length p - i) p.

(** [os.path.splitext(p)[0]]: the extension starts at the last dot, unless
    that dot belongs to the directory part or only dots precede it in the
    file name. *)
Definition os_path_splitext_root (p : string) : string :=
  let sepIndex := str_rfind "/"%char p in
  let dotIndex := str_rfind "."%char p in
  if (sepIndex <? dotIndex)%Z then
    let filenameIndex := Z.to_nat (sepIndex + 1) in
    let before := String.substring filenameIndex (Z.to_nat dotIndex - filenameIndex) p in
    if existsb (fun ch => negb (Ascii.eqb ch "."%char)) (String.list_ascii_of_string before)
    then String.substring 0 (Z.to_nat dotIndex) p
    else p
  else p.

Definition join_step (path b : string) : string :=
  if String.prefix "/" b then b
  else if bool_decide (path = "") || str_endswith path "/" then path +:+ b
  else path +:+ "/" +:+ b.

(** The arguments of [os.path.join] as strings; anything else has no
    [startswith]. *)
Fixpoint as_strings (vs : list val) : res (list string) :=
  match vs with
  | [] => Ok []
  | VStr s :: rest => let* ss := as_strings rest in Ok (s :: ss)
  | _ :: _ => Raise AttributeError
  end.

(** [os.path.join(a, *p)] *)
Definition os_path_join (a : val) (p : list val) : res string :=
  let* ss := as_strings (a :: p) in
  match ss with
  | [] => Raise Stuck
  | a' :: p' => Ok (fold_left join_step p' a')
  end.

(** [sep.join(xs)]: every element has to be a string. *)
Fixpoint py_join (sep : string) (xs : list val) : res string :=
  match xs with
  | [] => Ok ""
  | [VStr s] => Ok s
  | VStr s :: rest => let* r := py_join sep rest in Ok (s +:+ sep +:+ r)
  | _ :: _ => Raise TypeError
  end.

(** [os.path.exists] wants a path. *)
Definition os_path_exists (fs_exists : string -> bool) (p : val) : res bool :=
  match p with
  | VStr s => Ok (fs_exists s)
  | _ => Raise TypeError
  end.

(** ** Records handed between the stages *)

(** The tuple [(fastq1, fastq2, item, lane_name, lane_desc, dirs, config)]. *)
Record dispatch : Type := MkDispatch {
  d_fastq1 : val;
  d_fastq2 : val;
  d_info : val;
  d_lane_name : val;
  d_lane_desc : val;
  d_dirs : val;
  d_config : val
}.

(** The dictionary [{"fastq": [fastq1, fastq2], "out_bam": .., "info": ..,
    "config": ..}] that [process_alignment] builds. *)
Record align_result : Type := MkAlignResult {
  a_fastq : val * val;
  a_out_bam : val;
  a_info : val;
  a_config : val
}.

(** What [split_by_barcode] returns: barcode id to the pair of read files. *)
Definition bc_map := list (val * (val * val)).

Fixpoint bc_lookup (bc : bc_map) (k : val) : option (val * val) :=
  match bc with
  | [] => None
  | (k', fs) :: bc' => if key_eqb k' k then Some fs else bc_lookup bc' k
  end.

(** [bc_files.has_key(k)] *)
Definition bc_has_key (bc : bc_map) (k : val) : res bool :=
  if hashable k then Ok (bool_decide (is_Some (bc_lookup bc k)))
  else Raise TypeError.

(** [bc_files[k]] *)
Definition bc_getitem (bc : bc_map) (k : val) : res (val * val) :=
  if hashable k then
    match bc_lookup bc k with
    | Some fs => Ok fs
    | None => Raise KeyError
    end
  else Raise TypeError.

(** [fastq1, fastq2, lane_ext] *)
Definition split_unit : Type := val * val * val.

(** A call to one of the trimming tools, with the files it is given. *)
Inductive tool_call : Type :=
| CallBrunTrim (files : list val) (dirs config : val)
| CallCutadapt (files : list val) (dirs config : val).

Definition call_files (c : tool_call) : list val :=
  match c with
  | CallBrunTrim fs _ _ => fs
  | CallCutadapt fs _ _ => fs
  end.

(** [x is not None] *)
Definition is_not_none (v : val) : bool :=
  match v with
  | VNone => false
  | _ => true
  end.

(** [xs[i]] on a list a tool returned. *)
Definition list_index (xs : list val) (i : nat) : res val :=
  match xs !! i with
  | Some x => Ok x
  | None => Raise IndexError
  end.

(** [v == s] for a string literal [s] *)
Definition val_is_str (v : val) (s : string) : bool :=
  bool_decide (v = VStr s).

(** [v.endswith(suffix)] *)
Definition py_endswith (v : val) (suffix : string) : res bool :=
  match v with
  | VStr s => Ok (str_endswith s suffix)
  | _ => Raise AttributeError
  end.

(** Tool calls are recorded next to the result. *)
Definition traced (A : Type) : Type := list tool_call * res A.

Definition tret {A : Type} (a : A) : traced A := ([], Ok a).

Definition lift {A : Type} (m : res A) : traced A := ([], m).

Definition tbind {A B : Type} (m : traced A) (k : A -> traced B) : traced B :=
  match m with
  | (calls, Ok a) => let '(calls', r) := k a in (calls ++ calls', r)
  | (calls, Raise e) => (calls, Raise e)
  end.

Definition tool {A : Type} (c : tool_call) (r : res A) : traced A := ([c], r).

Notation "'let+' x ':=' m 'in' k" := (tbind m (fun x => k))
  (at level 10, x name, m at level 100, k at level 200).

Section lane.
(** *** The world outside the module *)

(** [str()] of a dictionary or a list. *)
Variable repr_obj : heap -> loc -> string.
(** The file system, as [os.path.exists] sees it. *)
Variable fs_exists : string -> bool.
(** [get_fastq_files(fastq_dir, work_dir, item, fc_name, dirs, config)] *)
Variable get_fastq_files :
  heap -> val -> val -> val -> val -> val -> val -> res (val * val).
(** [split_by_barcode(fastq1, fastq2, lane_items, lane_name, dirs, config)] *)
Variable split_by_barcode :
  heap -> val -> val -> list val -> string -> val -> val -> res bc_map.
(** [utils.safe_makedir(dname)] *)
Variable safe_makedir : string -> res string.
(** [split_read_files(fastq1, fastq2, item, split_size, split_dir, dirs, config)] *)
Variable split_read_files :
  heap -> val -> val -> val -> val -> string -> val -> val -> res (list split_unit).
(** [brun_trim_fastq(files, dirs, config)] and [cutadapt_trim(files, dirs, config)] *)
Variable brun_trim_fastq : heap -> list val -> val -> val -> res (list val).
Variable cutadapt_trim : heap -> list val -> val -> val -> res (list val).
(** [align_to_sort_bam(fastq1, fastq2, genome_build, aligner, lane_name,
    lane_desc, dirs, config)] *)
Variable align_to_sort_bam :
  heap -> val -> val -> val -> val -> val -> val -> val -> val -> res val.
(** [broad.runner_from_config(config)] and
    [runner.run_fn("picard_sort", fastq1, sort_method, out_file)] *)
Variable runner : Type.
Variable runner_from_config : heap -> val -> res runner.
Variable run_picard_sort : runner -> val -> val -> string -> res val.

(** [str(v)], what [%s] and [{0}] print. *)
Definition py_str (h : heap) (v : val) : string :=
  match v with
  | VNone => "None"
  | VBool true => "True"
  | VBool false => "False"
  | VInt z => pretty z
  | VStr s => s
  | VRef l => repr_obj h l
  end.

(** *** _prep_fastq_files *)

(** [config.get("distributed", {}).get("align_split_size",
      config["algorithm"].get("align_split_size", None))] *)
Definition resolve_split_size (h : heap) (config : val) : res val :=
  let* cd := as_dict h config AttributeError in
  let* dist := match assoc_get cd (VStr "distributed") with
               | Some d => let* dd := as_dict h d AttributeError in Ok dd
               | None => Ok []
               end in
  let* alg := py_getitem h config (VStr "algorithm") in
  let* dflt := py_get h alg (VStr "align_split_size") VNone in
  match assoc_get dist (VStr "align_split_size") with
  | Some x => Ok x
  | None => Ok dflt
  end.

Definition _prep_fastq_files (h : heap) (item : val) (bc_files : bc_map)
    (dirs config : val) : res (list split_unit) :=
  let* b := py_getitem h item (VStr "barcode_id") in
  let* '(fastq1, fastq2) := bc_getitem bc_files b in
  let* split_size := resolve_split_size h config in
  if truthy h split_size then
    let* work := py_getitem h dirs (VStr "work") in
    let* desc := py_getitem h item (VStr "description") in
    let* p := os_path_join work [VStr "align_splitprep"; desc] in
    let* split_dir := safe_makedir p in
    split_read_files h fastq1 fastq2 item split_size split_dir dirs config
  else Ok [(fastq1, fastq2, VNone)].

(** *** process_lane *)

(** The body of the loop over the split units: one tuple per unit. *)
Definition lane_record (h : heap) (item : val) (lane_name : string)
    (dirs config : val) (u : split_unit) : res dispatch :=
  let '(fastq1, fastq2, lane_ext) := u in
  let* desc := py_getitem h item (VStr "description") in
  let* name := py_get h item (VStr "name") (VStr "") in
  let* short :=
    (if truthy h name then
       let* alg := py_getitem h config (VStr "algorithm") in
       let* inc := py_get h alg (VStr "include_short_name") (VBool true) in
       Ok (truthy h inc)
     else Ok false) in
  let* cur_lane_desc :=
    (if short then
       let* nm := py_getitem h item (VStr "name") in
       Ok (VStr (py_str h nm +:+ " : " +:+ py_str h desc))
     else Ok desc) in
  let* b := py_getitem h item (VStr "barcode_id") in
  let with_bc :=
    if is_not_none b then lane_name +:+ "_" +:+ py_str h b else lane_name in
  let cur_lane_name :=
    if is_not_none lane_ext then with_bc +:+ "_s" +:+ py_str h lane_ext
    else with_bc in
  Ok (MkDispatch fastq1 fastq2 item (VStr cur_lane_name) cur_lane_desc dirs config).

Fixpoint lane_units (h : heap) (item : val) (lane_name : string)
    (dirs config : val) (units : list split_unit) (out : list dispatch)
  : res (list dispatch) :=
  match units with
  | [] => Ok out
  | u :: rest =>
      let* r := lane_record h item lane_name dirs config u in
      lane_units h item lane_name dirs config rest (out ++ [r])
  end.

(** [for item in lane_items: config = _update_config_w_custom(config, item); ...]
    The loop rebinds [config]: the next round starts from this round's copy. *)
Fixpoint lane_loop (bc_files : bc_map) (lane_name : string) (dirs : val)
    (items : list val) (h : heap) (config : val) (out : list dispatch)
  : res (heap * list dispatch) :=
  match items with
  | [] => Ok (h, out)
  | item :: rest =>
      let* '(h1, config1) := _update_config_w_custom h config item in
      let* b := py_getitem h1 item (VStr "barcode_id") in
      let* present := bc_has_key bc_files b in
      let* out1 :=
        (if present then
           let* units := _prep_fastq_files h1 item bc_files dirs config1 in
           lane_units h1 item lane_name dirs config1 units out
         else Ok out) in
      lane_loop bc_files lane_name dirs rest h1 config1 out1
  end.

Definition process_lane (h : heap) (lane_items : list val)
    (fc_name fc_date dirs config : val) : res (heap * list dispatch) :=
  let* item0 := list_index lane_items 0 in
  let* lane := py_getitem h item0 (VStr "lane") in
  let lane_name :=
    py_str h lane +:+ "_" +:+ py_str h fc_date +:+ "_" +:+ py_str h fc_name in
  let* fastq_dir := py_getitem h dirs (VStr "fastq") in
  let* work_dir := py_getitem h dirs (VStr "work") in
  let* '(h1, config0) := _update_config_w_custom h config item0 in
  let* '(full_fastq1, full_fastq2) :=
    get_fastq_files h1 fastq_dir work_dir item0 fc_name dirs config0 in
  let* bc_files :=
    split_by_barcode h1 full_fastq1 full_fastq2 lane_items lane_name dirs config in
  lane_loop bc_files lane_name dirs lane_items h1 config [].

(** *** trim_lane *)

Definition trim_lane (h : heap)
    (fastq1 fastq2 info lane_name lane_desc dirs config : val)
  : traced (list dispatch) :=
  let+ alg := lift (py_getitem h config (VStr "algorithm")) in
  let+ trim_reads := lift (py_get h alg (VStr "trim_reads") (VBool false)) in
  if negb (truthy h trim_reads) then
    tret [MkDispatch fastq1 fastq2 info lane_name lane_desc dirs config]
  else
    let+ alg' := lift (py_getitem h config (VStr "algorithm")) in
    let+ trimmer := lift (py_get h alg' (VStr "trimmer") (VStr "low_quality")) in
    let to_trim := List.filter is_not_none [fastq1; fastq2] in
    let+ out_files :=
      (if val_is_str trimmer "low_quality" then
         let+ _ := lift (py_join ", " to_trim) in
         tool (CallBrunTrim to_trim dirs config)
              (brun_trim_fastq h to_trim dirs config)
       else if val_is_str trimmer "adapter" then
         let+ _ := lift (py_join ", " to_trim) in
         tool (CallCutadapt to_trim dirs config)
              (cutadapt_trim h to_trim dirs config)
       else
         let+ _ := lift (py_join ", " to_trim) in
         tret [fastq1; fastq2]) in
    let+ fastq1' := lift (list_index out_files 0) in
    let+ fastq2' :=
      (if is_not_none fastq2 then lift (list_index out_files 1)
       else tret fastq2) in
    tret [MkDispatch fastq1' fastq2' info lane_name lane_desc dirs config].

(** *** process_alignment *)

Definition process_alignment (h : heap)
    (fastq1 fastq2 info lane_name lane_desc dirs config : val)
  : res (list align_result) :=
  let* alg := py_getitem h config (VStr "algorithm") in
  let* aligner := py_get h alg (VStr "aligner") VNone in
  let* ex := os_path_exists fs_exists fastq1 in
  let* out_bam :=
    (if ex && truthy h aligner then
       let* genome_build := py_getitem h info (VStr "genome_build") in
       align_to_sort_bam h fastq1 fastq2 genome_build aligner
                         lane_name lane_desc dirs config
     else
       let* ex' := os_path_exists fs_exists fastq1 in
       let* is_bam := (if ex' then py_endswith fastq1 ".bam" else Ok false) in
       if is_bam then
         let* alg' := py_getitem h config (VStr "algorithm") in
         let* sort_method := py_get h alg' (VStr "bam_sort") VNone in
         if truthy h sort_method then
           let* r := runner_from_config h config in
           let* work := py_getitem h dirs (VStr "work") in
           let* base := (match fastq1 with
                         | VStr s => Ok (os_path_splitext_root (os_path_basename s))
                         | _ => Raise AttributeError
                         end) in
           let* out_file := os_path_join work [VStr (base +:+ "-sort.bam")] in
           run_picard_sort r fastq1 sort_method out_file
         else Ok fastq1
       else Ok (VStr "")) in
  Ok [MkAlignResult (fastq1, fastq2) out_bam info config].

End lane.

(** ** The split-size rule as the specification words it *)

(** "check, in order, [distributed.align_split_size], then
    [algorithm.align_split_size]; the first present (non-null) value wins";
    [VNone] when neither is set. *)
Definition spec_split_size (h : heap) (config : val) : res val :=
  let* cd := as_dict h config AttributeError in
  let* dist := match assoc_get cd (VStr "distributed") with
               | Some d => as_dict h d AttributeError
               | None => Ok []
               end in
  let* alg := py_getitem h config (VStr "algorithm") in
  let* from_alg := py_get h alg (VStr "align_split_size") VNone in
  match assoc_get dist (VStr "align_split_size") with
  | Some x => if is_not_none x then Ok x else Ok from_alg
  | None => Ok from_alg
  end.

(** The value [dict.get] semantics give: [distributed.align_split_size] when
    the key is there, whatever it holds; else [algorithm.align_split_size];
    else [None]. *)
Definition first_present (dist alg : list (val * val)) : val :=
  match assoc_get dist (VStr "align_split_size") with
  | Some x => x
  | None =>
      match assoc_get alg (VStr "align_split_size") with
      | Some y => y
      | None => VNone
      end
  end.

(** ** Well-formed stores and the shape of a deep copy *)

(** A reference is in range when it points into the first [n] objects. *)
Definition val_inb (n : nat) (v : val) : bool :=
  match v with
  | VRef l => Nat.ltb l n
  | _ => true
  end.

(** The entries of a Python dictionary: hashable keys, no key twice, values
    in range. *)
Fixpoint dict_okb (n : nat) (d : list (val * val)) : bool :=
  match d with
  | [] => true
  | (k, v) :: d' =>
      hashable k && val_inb n v
      && bool_decide (assoc_get d' k = None) && dict_okb n d'
  end.

Definition obj_okb (n : nat) (o : obj) : bool :=
  match o with
  | ODict d => dict_okb n d
  | OList xs => forallb (val_inb n) xs
  end.

(** The store invariant of the interpreter: every object is well formed and
    no reference dangles. *)
Definition wf_heap (h : heap) : bool := forallb (obj_okb (length h)) h.

(** Renaming along a memo: a copied reference becomes its copy. *)
Definition ren (m : memo) (v : val) : val :=
  match v with
  | VRef l =>
      match memo_get m l with
      | Some y => VRef y
      | None => v
      end
  | _ => v
  end.

Definition ren_entries (m : memo) (d : list (val * val)) : list (val * val) :=
  map (fun kv => (fst kv, ren m (snd kv))) d.

Definition ren_obj (m : memo) (o : obj) : obj :=
  match o with
  | ODict d => ODict (ren_entries m d)
  | OList xs => OList (map (ren m) xs)
  end.

(** A value is covered when the memo knows the object it refers to. *)
Definition covered (m : memo) (v : val) : Prop :=
  match v with
  | VRef l => is_Some (memo_get m l)
  | _ => True
  end.

Definition obj_covered (m : memo) (o : obj) : Prop :=
  match o with
  | ODict d => Forall (fun kv => covered m (snd kv)) d
  | OList xs => Forall (covered m) xs
  end.

Definition memo_le (m m' : memo) : Prop :=
  forall a b, memo_get m a = Some b -> memo_get m' a = Some b.

Definition memo_free (m : memo) (l : loc) : bool :=
  match memo_get m l with
  | None => true
  | Some _ => false
  end.

(** The number of objects among the first [n] that the memo has not seen:
    the depth a copy can still reach. *)
Definition unmemo (n : nat) (m : memo) : nat :=
  length (List.filter (memo_free m) (seq 0 n)).

(** The state of a running [deepcopy] over the store [h0]: the objects of
    [h0] are as they were, the memo maps them one-to-one onto the objects
    allocated since, and every copy that is not still being filled (its
    source is not in [S]) is the renamed image of its source. *)
Record copy_inv (h0 : heap) (S : loc -> Prop) (h : heap) (m : memo) : Prop := {
  ci_old : forall l, (l < length h0)%nat -> h !! l = h0 !! l;
  ci_len : (length h0 <= length h)%nat;
  ci_range : forall a b, memo_get m a = Some b ->
               (a < length h0)%nat /\ (length h0 <= b < length h)%nat;
  ci_inj : forall a a' b, memo_get m a = Some b -> memo_get m a' = Some b -> a = a';
  ci_surj : forall b, (length h0 <= b < length h)%nat ->
              exists a, memo_get m a = Some b;
  ci_done : forall a b, memo_get m a = Some b -> ~ S a ->
              exists o, h0 !! a = Some o /\ h !! b = Some (ren_obj m o)
                        /\ obj_covered m o
}.

(** What one call [deepcopy(x, memo)] in state [(h, m)] achieves: it returns
    the renamed [x], keeps the invariant, only extends the memo and leaves
    every object that existed before the call as it was. *)
Definition copy_post (h0 : heap) (S : loc -> Prop) (h : heap) (m : memo)
    (x : val) (r : res (heap * memo * val)) : Prop :=
  exists h' m',
    r = Ok (h', m', ren m' x) /\ copy_inv h0 S h' m' /\ memo_le m m' /\
    covered m' x /\ (length h <= length h')%nat /\
    forall l, (l < length h)%nat -> h' !! l = h !! l.

(** [rec] copies correctly whenever fewer than [B] objects are left. *)
Definition rec_ok (h0 : heap) (B : nat)
    (rec : heap -> memo -> val -> res (heap * memo * val)) : Prop :=
  forall S h m x,
    copy_inv h0 S h m -> val_inb (length h0) x = true ->
    (unmemo (length h0) m < B)%nat ->
    copy_post h0 S h m x (rec h m x).

(** ** Lane names *)

(** [str(v)] for a value that is no container. *)
Definition atom_str (v : val) : string :=
  match v with
  | VNone => "None"
  | VBool true => "True"
  | VBool false => "False"
  | VInt z => pretty z
  | VStr s => s
  | VRef _ => ""
  end.

(** What a barcode id and a split index add to the lane name. *)
Definition bc_suffix (b : val) : string :=
  if is_not_none b then "_" +:+ atom_str b else "".

Definition ext_suffix (lane_ext : val) : string :=
  if is_not_none lane_ext then "_s" +:+ atom_str lane_ext else "".



Definition unit_ext (u : split_unit) : val := snd u.



(** ** Inputs on which the merge runs to its end *)

Definition get_dict (h : heap) (v : val) : option (list (val * val)) :=
  match v with
  | VRef l =>
      match h !! l with
      | Some (ODict d) => Some d
      | _ => None
      end
  | _ => None
  end.

(** One assignment [d[key] = val]. *)
Definition set_entry (d : list (val * val)) (kv : val * val) : list (val * val) :=
  assoc_set d (fst kv) (snd kv).

(** A bundle under [custom_algorithms] can be used: it is missing, false in
    a condition, or a dictionary. *)
Definition bundle_okb (h : heap) (ov : option val) : bool :=
  match ov with
  | None => true
  | Some (VRef l) =>
      match h !! l with
      | Some (ODict _) => true
      | Some (OList xs) => bool_decide (xs = [])
      | None => false
      end
  | Some v => negb (truthy h v)
  end.

(** The analysis types [_update_config_w_custom] loops over for a sample. *)
Definition sample_types (h : heap) (lane_info : val) : list val :=
  match py_get h lane_info (VStr "analysis") VNone with
  | Ok base_name =>
      match name_remaps_get base_name with
      | Ok types => types
      | Raise _ => []
      end
  | Raise _ => []
  end.

(** A configuration as the data model has it: a dictionary whose
    [algorithm] and [custom_algorithms] entries are dictionaries of their
    own, distinct from it and from each other, with usable bundles under the
    names in [types]. *)
Definition config_okb (h : heap) (config : val) (types : list val) : bool :=
  match config with
  | VRef c =>
      match get_dict h config with
      | Some cd =>
          match assoc_get cd (VStr "algorithm"),
                assoc_get cd (VStr "custom_algorithms") with
          | Some (VRef a), Some (VRef ca) =>
              negb (Nat.eqb a c) && negb (Nat.eqb ca a)
              && bool_decide (is_Some (get_dict h (VRef a)))
              && match get_dict h (VRef ca) with
                 | Some cad => forallb (fun t => bundle_okb h (assoc_get cad t)) types
                 | None => false
                 end
          | _, _ => false
          end
      | None => false
      end
  | _ => false
  end.

(** A sample descriptor: a dictionary whose [analysis], when given, is
    hashable and whose [algorithm], when given, is a dictionary. *)
Definition sample_okb (h : heap) (lane_info : val) : bool :=
  match get_dict h lane_info with
  | Some ld =>
      match assoc_get ld (VStr "analysis") with
      | Some v => hashable v
      | None => true
      end
      && match assoc_get ld (VStr "algorithm") with
         | Some v => bool_decide (is_Some (get_dict h v))
         | None => true
         end
  | None => false
  end.

Definition merge_okb (h : heap) (config lane_info : val) : bool :=
  wf_heap h && config_okb h config (sample_types h lane_info)
  && sample_okb h lane_info.

(** An object after an update in place: a dictionary is still one, a list
    has as many elements as before. *)
Definition same_kind (o o' : obj) : Prop :=
  match o, o' with
  | ODict _, ODict _ => True
  | OList xs, OList xs' => length xs' = length xs
  | _, _ => False
  end.

(** The only change [overlay_items] and [overlay_custom] make: the object
    that the configuration [cd] names as [algorithm] gets new entries. *)
Definition alg_update (cd : list (val * val)) (h h' : heap) : Prop :=
  h' = h \/
  exists a o o',
    assoc_get cd (VStr "algorithm") = Some (VRef a) /\
    h !! a = Some o /\ h' = <[a := o']> h /\ same_kind o o' /\
    (obj_okb (length h) o = true -> obj_okb (length h) o' = true).

(** The [algorithm] entry of a configuration is not the configuration
    itself. *)
Definition algorithm_not_self (h : heap) (config : val) : Prop :=
  forall c cd, config = VRef c -> h !! c = Some (ODict cd) ->
    assoc_get cd (VStr "algorithm") <> Some (VRef c).

Definition algorithm_not_selfb (h : heap) (config : val) : bool :=
  match config with
  | VRef c =>
      match h !! c with
      | Some (ODict cd) =>
          negb (bool_decide (assoc_get cd (VStr "algorithm") = Some (VRef c)))
      | _ => true
      end
  | _ => true
  end.

(** What the loop of [process_lane] keeps true of the store and of the
    configuration it carries from one sample to the next. *)
Definition loop_inv (h : heap) (config : val) : Prop :=
  wf_heap h = true /\ val_inb (length h) config = true /\
  algorithm_not_self h config.

(** ** Further notions *)

(** The record [trim_lane] builds from the output files of a tool: the first
    output, and the second when there is a mate. *)
Definition trimmed_record (outs : list val)
    (fastq2 info lane_name lane_desc dirs config : val) : res (list dispatch) :=
  if Nat.leb (if is_not_none fastq2 then 2 else 1) (length outs) then
    Ok [MkDispatch (nth 0 outs VNone)
                   (if is_not_none fastq2 then nth 1 outs VNone else fastq2)
                   info lane_name lane_desc dirs config]
  else Raise IndexError.

(** The merges of the loop of [process_lane], one after the other: each
    starts from the configuration the one before returned. *)
Fixpoint merge_chain (h : heap) (config : val) (items : list val)
  : res (heap * list val) :=
  match items with
  | [] => Ok (h, [])
  | item :: rest =>
      let* '(h1, config1) := _update_config_w_custom h config item in
      let* '(h', configs) := merge_chain h1 config1 rest in
      Ok (h', config1 :: configs)
  end.

(** One round of the loop: the sample, the configuration of the round, and
    the split units it is dispatched in (none when no reads were found). *)
Definition round : Type := val * val * list split_unit.

Definition round_item (r : round) : val := fst (fst r).
Definition round_config (r : round) : val := snd (fst r).
Definition round_units (r : round) : list split_unit := snd r.

(** The work a record stands for: sample, configuration and split unit. *)
Definition round_work (r : round) : list (val * val * split_unit) :=
  map (fun u => (round_item r, round_config r, u)) (round_units r).

(** A record for the work [(item, config, (fastq1, fastq2, lane_ext))] under
    the base lane name [base]. *)
Definition record_of (base : string) (dirs : val)
    (w : val * val * split_unit) (r : dispatch) : Prop :=
  d_info r = fst (fst w) /\ d_config r = snd (fst w) /\
  d_fastq1 r = fst (fst (snd w)) /\ d_fastq2 r = snd (fst (snd w)) /\
  d_dirs r = dirs /\
  exists suffix, d_lane_name r = VStr (base +:+ suffix).

(** The loop of [process_lane], sample by sample. *)
Section rounds.
Variable repr_obj : heap -> loc -> string.
Variable safe_makedir : string -> res string.
Variable split_read_files :
  heap -> val -> val -> val -> val -> string -> val -> val -> res (list split_unit).

(** The records of one sample under the configuration of its round: those
    of its split plan when its barcode id is a key of the barcode map, none
    otherwise. *)
Definition sample_records (bc_files : bc_map) (lane_name : string) (dirs : val)
    (h : heap) (item config : val) : res (list dispatch) :=
  let* b := py_getitem h item (VStr "barcode_id") in
  let* present := bc_has_key bc_files b in
  if present then
    let* units := _prep_fastq_files safe_makedir split_read_files h item bc_files
                    dirs config in
    lane_units repr_obj h item lane_name dirs config units []
  else Ok [].

(** One list of records per sample, in the order of the samples; the
    configuration goes from one round to the next. *)
Fixpoint lane_rounds (bc_files : bc_map) (lane_name : string) (dirs : val)
    (items : list val) (h : heap) (config : val)
  : res (heap * list (list dispatch)) :=
  match items with
  | [] => Ok (h, [])
  | item :: rest =>
      let* '(h1, config1) := _update_config_w_custom h config item in
      let* rs := sample_records bc_files lane_name dirs h1 item config1 in
      let* '(h', rss) := lane_rounds bc_files lane_name dirs rest h1 config1 in
      Ok (h', rs :: rss)
  end.

(** [rounds] are the rounds of the loop started in store [h] with
    configuration [config] and ended in store [h']: each round merges its
    sample into the configuration of the round before, and its split units
    are the plan [_prep_fastq_files] makes in the store after the merge, or
    none when the barcode id of the sample is no key of the barcode map. *)
Fixpoint rounds_from (bc_files : bc_map) (dirs : val) (h : heap) (config : val)
    (rounds : list round) (h' : heap) : Prop :=
  match rounds with
  | [] => h' = h
  | r :: rest =>
      exists h1,
        _update_config_w_custom h config (round_item r) = Ok (h1, round_config r) /\
        (exists b,
           py_getitem h1 (round_item r) (VStr "barcode_id") = Ok b /\
           if bool_decide (is_Some (bc_lookup bc_files b))
           then _prep_fastq_files safe_makedir split_read_files h1 (round_item r)
                  bc_files dirs (round_config r) = Ok (round_units r)
           else round_units r = []) /\
        rounds_from bc_files dirs h1 (round_config r) rest h'
  end.

End rounds.

(** ** Sample stores *)

Module Sample.

(** A run configuration with a custom bundle for variant calling, one
    sample that overrides [x], one that overrides nothing, and the
    directories. *)
Definition store : heap :=
  [ ODict [(VStr "algorithm", VRef 1%nat); (VStr "custom_algorithms", VRef 2%nat)];
    ODict [(VStr "x", VInt 1); (VStr "aligner", VStr "bwa")];
    ODict [(VStr "variant", VRef 3%nat)];
    ODict [(VStr "x", VInt 2); (VStr "y", VInt 5)];
    ODict [(VStr "lane", VStr "1"); (VStr "barcode_id", VStr "A");
           (VStr "description", VStr "sampleA"); (VStr "genome_build", VStr "hg19");
           (VStr "analysis", VStr "variant"); (VStr "algorithm", VRef 5%nat)];
    ODict [(VStr "x", VInt 3)];
    ODict [(VStr "lane", VStr "1"); (VStr "barcode_id", VStr "B");
           (VStr "description", VStr "sampleB"); (VStr "genome_build", VStr "hg19")];
    ODict [(VStr "fastq", VStr "/fq"); (VStr "work", VStr "/work")] ].

Definition config : val := VRef 0%nat.
Definition sampleA : val := VRef 4%nat.
Definition sampleB : val := VRef 6%nat.
Definition dirs : val := VRef 7%nat.

(** Tools that answer at once. *)
Definition repr_obj (_ : heap) (_ : loc) : string := "<object>".

Definition get_fastq_files (_ : heap) (_ _ _ _ _ _ : val) : res (val * val) :=
  Ok (VStr "r1.fq", VStr "r2.fq").

Definition split_by_barcode (_ : heap) (_ _ : val) (_ : list val) (_ : string)
    (_ _ : val) : res bc_map :=
  Ok [(VStr "A", (VStr "a1.fq", VStr "a2.fq")); (VStr "B", (VStr "b1.fq", VNone))].

Definition safe_makedir (d : string) : res string := Ok d.

Definition split_read_files (_ : heap) (f1 f2 : val) (_ _ : val) (_ : string)
    (_ _ : val) : res (list split_unit) :=
  Ok [(f1, f2, VInt 0); (f1, f2, VInt 1)].

(** A trimmer that returns one output per input, as the tools do. *)
Definition trimmed (v : val) : val :=
  match v with
  | VStr s => VStr (s +:+ ".trimmed")
  | _ => v
  end.

Definition trim_tool (_ : heap) (files : list val) (_ _ : val) : res (list val) :=
  Ok (map trimmed files).

Definition align_tool (_ : heap) (_ _ _ _ _ _ _ _ : val) : res val :=
  Ok (VStr "/work/out.bam").

Definition runner_from_config (_ : heap) (_ : val) : res unit := Ok tt.

Definition run_picard_sort (_ : unit) (_ _ : val) (out_file : string) : res val :=
  Ok (VStr out_file).

(** A configuration whose [distributed.align_split_size] is present but
    null while [algorithm.align_split_size] is set. *)
Definition split_store : heap :=
  [ ODict [(VStr "algorithm", VRef 1%nat); (VStr "distributed", VRef 2%nat)];
    ODict [(VStr "align_split_size", VInt 1000)];
    ODict [(VStr "align_split_size", VNone)];
    ODict [(VStr "barcode_id", VStr "A"); (VStr "description", VStr "sampleA")];
    ODict [(VStr "work", VStr "/work")] ].

(** A configuration that switches trimming on. *)
Definition trim_store : heap :=
  [ ODict [(VStr "algorithm", VRef 1%nat)];
    ODict [(VStr "trim_reads", VBool true)];
    ODict [(VStr "work", VStr "/work")];
    ODict [(VStr "genome_build", VStr "hg19")] ].

(** A demultiplexer that found reads for barcode [A] only. *)
Definition split_by_barcode_A (_ : heap) (_ _ : val) (_ : list val) (_ : string)
    (_ _ : val) : res bc_map :=
  Ok [(VStr "A", (VStr "a1.fq", VStr "a2.fq"))].

(** A file system where every path exists. *)
Definition fs_all (_ : string) : bool := true.

(** Two sample descriptors that carry the same barcode id. *)
Definition dup_store : heap :=
  store ++
  [ ODict [(VStr "lane", VStr "1"); (VStr "barcode_id", VStr "A");
           (VStr "description", VStr "sampleA again")] ].

Definition sampleA2 : val := VRef 8%nat.

End Sample.

(** ** Further sample stores *)

Module Cases.

(** A configuration that switches trimming on and names the trimmer [t]. *)
Definition trimmer_store (t : string) : heap :=
  [ ODict [(VStr "algorithm", VRef 1%nat)];
    ODict [(VStr "trim_reads", VBool true); (VStr "trimmer", VStr t)];
    ODict [(VStr "work", VStr "/work")];
    ODict [(VStr "genome_build", VStr "hg19")] ].

(** A configuration without aligner that asks for sorted BAM files. *)
Definition sort_store : heap :=
  [ ODict [(VStr "algorithm", VRef 1%nat)];
    ODict [(VStr "bam_sort", VStr "coordinate")];
    ODict [(VStr "work", VStr "/work")];
    ODict [(VStr "genome_build", VStr "hg19")] ].

(** The store of [Sample] with a sample that names its analysis by the
    synonym [SNP calling] and shares the overrides of sample A, and a sample
    that has a short name. *)
Definition more_store : heap :=
  Sample.store ++
  [ ODict [(VStr "lane", VStr "1"); (VStr "barcode_id", VStr "A");
           (VStr "description", VStr "sampleS");
           (VStr "analysis", VStr "SNP calling"); (VStr "algorithm", VRef 5%nat)];
    ODict [(VStr "lane", VStr "1"); (VStr "barcode_id", VStr "C");
           (VStr "description", VStr "sampleC"); (VStr "name", VStr "C1")] ].

Definition sampleS : val := VRef 8%nat.
Definition sampleC : val := VRef 9%nat.

End Cases.

(** * Properties of the stages *)

Section stage_properties.
Variable repr_obj : heap -> loc -> string.
Variable fs_exists : string -> bool.
Variable get_fastq_files :
  heap -> val -> val -> val -> val -> val -> val -> res (val * val).
Variable split_by_barcode :
  heap -> val -> val -> list val -> string -> val -> val -> res bc_map.
Variable safe_makedir : string -> res string.
Variable split_read_files :
  heap -> val -> val -> val -> val -> string -> val -> val -> res (list split_unit).
Variable brun_trim_fastq : heap -> list val -> val -> val -> res (list val).
Variable cutadapt_trim : heap -> list val -> val -> val -> res (list val).
Variable align_to_sort_bam :
  heap -> val -> val -> val -> val -> val -> val -> val -> val -> res val.
Variable runner : Type.
Variable runner_from_config : heap -> val -> res runner.
Variable run_picard_sort : runner -> val -> val -> string -> res val.

Local Notation prep := (_prep_fastq_files safe_makedir split_read_files).
Local Notation lane :=
  (process_lane repr_obj get_fastq_files split_by_barcode safe_makedir split_read_files).
Local Notation trim := (trim_lane brun_trim_fastq cutadapt_trim).
Local Notation align :=
  (process_alignment fs_exists align_to_sort_bam runner runner_from_config
                     run_picard_sort).

(** ** process_lane on no samples *)

(** C10: with an empty list of sample descriptors [process_lane] raises
    IndexError at [lane_items[0]], before any tool runs; with at least one
    descriptor that first indexing succeeds. *)
Theorem process_lane_empty_fails :
  forall (h : heap) (fc_name fc_date dirs config : val),
    lane h [] fc_name fc_date dirs config = Raise IndexError /\
    forall (item : val) (rest : list val), list_index (item :: rest) 0 = Ok item.
Proof.
  intros. split; [reflexivity | intros; reflexivity].
Qed.

(** ** trim_lane *)

Lemma trim_lane_falsy :
  forall (h : heap) (fastq1 fastq2 info lane_name lane_desc dirs config alg tr : val),
    py_getitem h config (VStr "algorithm") = Ok alg ->
    py_get h alg (VStr "trim_reads") (VBool false) = Ok tr ->
    truthy h tr = false ->
    trim h fastq1 fastq2 info lane_name lane_desc dirs config
    = ([], Ok [MkDispatch fastq1 fastq2 info lane_name lane_desc dirs config]).
Proof.
  intros * Halg Htr Hf. unfold trim_lane.
  rewrite Halg; simpl. rewrite Htr; simpl. rewrite Hf; reflexivity.
Qed.

(** C7: when [algorithm.trim_reads] is absent or [False], [trim_lane] returns
    the one record made of its seven arguments as they came in (the same
    references), and no trimming tool is called. *)
Theorem trim_lane_passthrough :
  forall (h : heap) (fastq1 fastq2 info lane_name lane_desc dirs config alg : val)
         (d : list (val * val)),
    py_getitem h config (VStr "algorithm") = Ok alg ->
    as_dict h alg AttributeError = Ok d ->
    assoc_get d (VStr "trim_reads") = None \/
    assoc_get d (VStr "trim_reads") = Some (VBool false) ->
    trim h fastq1 fastq2 info lane_name lane_desc dirs config
    = ([], Ok [MkDispatch fastq1 fastq2 info lane_name lane_desc dirs config]).
Proof.
  intros * Halg Hd Hk.
  apply trim_lane_falsy with (alg := alg) (tr := VBool false); auto.
  unfold py_get. rewrite Hd; simpl. destruct Hk as [-> | ->]; reflexivity.
Qed.

(** Closes the parts of a statement about [trim_lane] once the run is
    known. *)
Ltac trim_finish :=
  repeat split;
  first
    [ simpl; lia
    | solve [repeat constructor]
    | solve [auto]
    | match goal with
      | E : val_is_str ?t _ = false |- _ =>
          intros; apply bool_decide_eq_false in E; congruence
      end
    | intros; discriminate
    | solve [intros; simplify_eq; eauto]
    | intros; simplify_eq; do 2 eexists;
      (split; [reflexivity | intros; first [reflexivity | discriminate]]) ].

(** What the tools are called with, whatever the files. *)
Lemma trim_lane_calls :
  forall (h : heap) (fastq1 fastq2 info lane_name lane_desc dirs config alg tr : val),
    py_getitem h config (VStr "algorithm") = Ok alg ->
    py_get h alg (VStr "trim_reads") (VBool false) = Ok tr ->
    truthy h tr = true ->
    let to_trim := List.filter is_not_none [fastq1; fastq2] in
    let out := trim h fastq1 fastq2 info lane_name lane_desc dirs config in
    (length (fst out) <= 1)%nat /\
    Forall (fun c => call_files c = to_trim) (fst out) /\
    (forall msg, py_get h alg (VStr "trimmer") (VStr "low_quality") = Ok (VStr "low_quality") ->
       py_join ", " to_trim = Ok msg ->
       fst out = [CallBrunTrim to_trim dirs config]) /\
    (forall recs, snd out = Ok recs ->
       exists f1 f2,
         recs = [MkDispatch f1 f2 info lane_name lane_desc dirs config] /\
         (fastq2 = VNone -> f2 = VNone)).
Proof.
  intros * Halg Htr Ht to_trim out.
  subst out. unfold trim_lane.
  change (List.filter is_not_none [fastq1; fastq2]) with to_trim.
  clearbody to_trim.
  rewrite Halg; simpl. rewrite Htr; simpl. rewrite Ht; simpl.
  destruct (py_get h alg (VStr "trimmer") (VStr "low_quality")) as [trimmer|e];
    simpl; [| trim_finish].
  destruct (val_is_str trimmer "low_quality") eqn:E1;
    [| destruct (val_is_str trimmer "adapter") eqn:E2];
    (destruct (py_join ", " to_trim) as [msg|e]; simpl; [| trim_finish]).
  - destruct (brun_trim_fastq h to_trim dirs config) as [out_files|e]; simpl;
      [| trim_finish].
    destruct (list_index out_files 0) as [f1|e]; simpl; [| trim_finish].
    destruct fastq2; simpl; try destruct (list_index out_files 1); simpl;
      trim_finish.
  - destruct (cutadapt_trim h to_trim dirs config) as [out_files|e]; simpl;
      [| trim_finish].
    destruct (list_index out_files 0) as [f1|e]; simpl; [| trim_finish].
    destruct fastq2; simpl; try destruct (list_index out_files 1); simpl;
      trim_finish.
  - destruct fastq2; simpl; trim_finish.
Qed.

(** C8: with trimming on and a first read file (the data model has
    [fastq1] a path, only the mate can be null), a trimming tool is called at
    most once and with exactly the non-null files among [fastq1], [fastq2]:
    [fastq1], and [fastq2] when there is a mate; the default trimmer does
    call it; a record returned has a null [fastq2] whenever [fastq2] came in
    null.  In particular, with [fastq2] null the tool receives the one file
    [fastq1], and when it returns its output the call returns the record
    with that output and a null [fastq2]. *)
Theorem trim_lane_files :
  forall (h : heap) (fastq1 fastq2 info lane_name lane_desc dirs config alg tr : val),
    py_getitem h config (VStr "algorithm") = Ok alg ->
    py_get h alg (VStr "trim_reads") (VBool false) = Ok tr ->
    truthy h tr = true ->
    fastq1 <> VNone ->
    let to_trim := List.filter is_not_none [fastq1; fastq2] in
    let out := trim h fastq1 fastq2 info lane_name lane_desc dirs config in
    to_trim = fastq1 :: (if is_not_none fastq2 then [fastq2] else []) /\
    (length (fst out) <= 1)%nat /\
    Forall (fun c => call_files c = to_trim) (fst out) /\
    (forall msg, py_get h alg (VStr "trimmer") (VStr "low_quality") = Ok (VStr "low_quality") ->
       py_join ", " to_trim = Ok msg ->
       fst out = [CallBrunTrim to_trim dirs config]) /\
    (forall recs, snd out = Ok recs ->
       exists f1 f2,
         recs = [MkDispatch f1 f2 info lane_name lane_desc dirs config] /\
         (fastq2 = VNone -> f2 = VNone)) /\
    (fastq2 = VNone ->
     to_trim = [fastq1] /\
     forall (trimmer : val) (msg : string) (o : val) (outs : list val)
            (call : tool_call),
       py_get h alg (VStr "trimmer") (VStr "low_quality") = Ok trimmer ->
       py_join ", " [fastq1] = Ok msg ->
       (trimmer = VStr "low_quality" /\
        brun_trim_fastq h [fastq1] dirs config = Ok (o :: outs) /\
        call = CallBrunTrim [fastq1] dirs config) \/
       (trimmer = VStr "adapter" /\
        cutadapt_trim h [fastq1] dirs config = Ok (o :: outs) /\
        call = CallCutadapt [fastq1] dirs config) ->
       out = ([call], Ok [MkDispatch o VNone info lane_name lane_desc dirs config])).
Proof.
  intros * Halg Htr Ht Hn1 to_trim out.
  assert (Hshape : to_trim = fastq1 :: (if is_not_none fastq2 then [fastq2] else [])).
  { subst to_trim. destruct fastq1; try congruence; destruct fastq2; reflexivity. }
  destruct (trim_lane_calls h fastq1 fastq2 info lane_name lane_desc dirs config
              alg tr Halg Htr Ht) as (Hlen & Hcalls & Hdflt & Hrecs).
  repeat match goal with |- _ /\ _ => split end; auto.
  intros ->. split; [exact Hshape |].
  intros trimmer msg o outs call Htrim Hjoin Htool.
  subst out. unfold trim_lane.
  change (List.filter is_not_none [fastq1; VNone]) with to_trim.
  rewrite Hshape. simpl is_not_none. cbv iota.
  rewrite Halg; simpl. rewrite Htr; simpl. rewrite Ht; simpl. rewrite Htrim; simpl.
  simpl in Hjoin.
  destruct Htool as [(-> & Hout & ->) | (-> & Hout & ->)]; simpl;
    rewrite Hjoin; simpl; rewrite Hout; reflexivity.
Qed.

(** ** Split-size resolution *)

Lemma resolve_split_size_first_present :
  forall (h : heap) (config alg : val) (cd dist ad : list (val * val)),
    as_dict h config AttributeError = Ok cd ->
    match assoc_get cd (VStr "distributed") with
    | Some d => as_dict h d AttributeError
    | None => Ok []
    end = Ok dist ->
    py_getitem h config (VStr "algorithm") = Ok alg ->
    as_dict h alg AttributeError = Ok ad ->
    resolve_split_size h config = Ok (first_present dist ad).
Proof.
  intros * Hcd Hdist Halg Had. unfold resolve_split_size, first_present.
  rewrite Hcd; simpl.
  destruct (assoc_get cd (VStr "distributed")) as [d|].
  - rewrite Hdist; simpl. rewrite Halg; simpl.
    unfold py_get. rewrite Had; simpl.
    destruct (assoc_get ad (VStr "align_split_size"));
      destruct (assoc_get dist (VStr "align_split_size")); reflexivity.
  - injection Hdist as <-. simpl. rewrite Halg; simpl.
    unfold py_get. rewrite Had; simpl.
    destruct (assoc_get ad (VStr "align_split_size")); reflexivity.
Qed.

(** C3, as the code has it: the split size is [distributed.align_split_size]
    whenever that key is present, even when it holds null, and
    [algorithm.align_split_size] (or null) only when the key is missing;
    when the value so resolved is false in a condition, exactly the one unit
    [(fastq1, fastq2, None)] is planned, and otherwise the splitting tool is
    asked with that value. *)
Theorem prep_fastq_files_split_rule :
  forall (h : heap) (item dirs config alg b fastq1 fastq2 : val) (bc_files : bc_map)
         (cd dist ad : list (val * val)),
    as_dict h config AttributeError = Ok cd ->
    match assoc_get cd (VStr "distributed") with
    | Some d => as_dict h d AttributeError
    | None => Ok []
    end = Ok dist ->
    py_getitem h config (VStr "algorithm") = Ok alg ->
    as_dict h alg AttributeError = Ok ad ->
    py_getitem h item (VStr "barcode_id") = Ok b ->
    bc_getitem bc_files b = Ok (fastq1, fastq2) ->
    let split_size := first_present dist ad in
    resolve_split_size h config = Ok split_size /\
    (truthy h split_size = false ->
       prep h item bc_files dirs config = Ok [(fastq1, fastq2, VNone)]) /\
    (truthy h split_size = true ->
       prep h item bc_files dirs config =
       let* work := py_getitem h dirs (VStr "work") in
       let* desc := py_getitem h item (VStr "description") in
       let* p := os_path_join work [VStr "align_splitprep"; desc] in
       let* split_dir := safe_makedir p in
       split_read_files h fastq1 fastq2 item split_size split_dir dirs config).
Proof.
  intros * Hcd Hdist Halg Had Hb Hbc split_size.
  assert (Hres : resolve_split_size h config = Ok split_size)
    by (eapply resolve_split_size_first_present; eauto).
  split; [exact Hres |].
  unfold _prep_fastq_files. rewrite Hb; simpl. rewrite Hbc; simpl.
  rewrite Hres; simpl.
  split; intros ->; reflexivity.
Qed.

(** ** process_alignment *)

(** C4: the decision order of [process_alignment], for a path [fastq1] and a
    configuration with its [algorithm] mapping.  (1) [fastq1] missing: the
    output is the empty string.  (2) Else an aligner that is set (true in a
    condition): the output is what the alignment tool returns, also for a
    [.bam] input.  (3) Else a [.bam] input: what the sort tool returns when
    [bam_sort] is set, [fastq1] itself when it is not.  (4) Else the empty
    string. *)
Theorem process_alignment_decision_order :
  forall (h : heap) (s : string)
         (fastq2 info lane_name lane_desc dirs config alg aligner : val),
    py_getitem h config (VStr "algorithm") = Ok alg ->
    py_get h alg (VStr "aligner") VNone = Ok aligner ->
    let result out := Ok [MkAlignResult (VStr s, fastq2) out info config] in
    let run := align h (VStr s) fastq2 info lane_name lane_desc dirs config in
    (fs_exists s = false -> run = result (VStr "")) /\
    (fs_exists s = true -> truthy h aligner = true ->
       run = let* genome_build := py_getitem h info (VStr "genome_build") in
             let* out := align_to_sort_bam h (VStr s) fastq2 genome_build aligner
                           lane_name lane_desc dirs config in
             result out) /\
    (fs_exists s = true -> truthy h aligner = false ->
     str_endswith s ".bam" = true ->
     forall sort_method, py_get h alg (VStr "bam_sort") VNone = Ok sort_method ->
       (truthy h sort_method = true ->
          run = let* r := runner_from_config h config in
                let* work := py_getitem h dirs (VStr "work") in
                let* out_file :=
                  os_path_join work
                    [VStr (os_path_splitext_root (os_path_basename s) +:+ "-sort.bam")] in
                let* out := run_picard_sort r (VStr s) sort_method out_file in
                result out) /\
       (truthy h sort_method = false -> run = result (VStr s))) /\
    (fs_exists s = true -> truthy h aligner = false ->
     str_endswith s ".bam" = false -> run = result (VStr "")).
Proof.
  intros * Halg Hal result run. subst run result. unfold process_alignment.
  rewrite Halg; simpl. rewrite Hal; simpl.
  split; [| split; [| split]].
  - intros ->. reflexivity.
  - intros -> ->. simpl.
    destruct (py_getitem h info (VStr "genome_build")); simpl; [| reflexivity].
    destruct (align_to_sort_bam _ _ _ _ _ _ _ _ _); reflexivity.
  - intros -> -> Hbam sort_method Hsort. simpl. rewrite Hbam; simpl.
    rewrite Hsort; simpl.
    split; intros ->; [| reflexivity].
    destruct (runner_from_config h config); simpl; [| reflexivity].
    destruct (py_getitem h dirs (VStr "work")); simpl; [| reflexivity].
    destruct (os_path_join _ _); simpl; [| reflexivity].
    destruct (run_picard_sort _ _ _ _); reflexivity.
  - intros -> -> Hbam. simpl. rewrite Hbam; reflexivity.
Qed.

End stage_properties.

(** * The object store *)

(** ** Keys and entries *)

Lemma key_eqb_eq (a b : val) : key_eqb a b = true <-> key_norm a = key_norm b.
Proof. unfold key_eqb. apply bool_decide_eq_true. Qed.

Lemma key_eqb_refl (a : val) : key_eqb a a = true.
Proof. apply key_eqb_eq. reflexivity. Qed.

Lemma key_eqb_sym (a b : val) : key_eqb a b = key_eqb b a.
Proof.
  unfold key_eqb. destruct (decide (key_norm a = key_norm b)) as [E|E].
  - rewrite !bool_decide_eq_true_2; auto.
  - rewrite !bool_decide_eq_false_2; auto.
Qed.

Lemma key_eqb_trans_l (a b c : val) :
  key_eqb a b = true -> key_eqb a c = key_eqb b c.
Proof.
  intros E%key_eqb_eq. unfold key_eqb. rewrite E. reflexivity.
Qed.

Lemma assoc_get_set (d : list (val * val)) (k v x : val) :
  assoc_get (assoc_set d k v) x
  = if key_eqb k x then Some v else assoc_get d x.
Proof.
  induction d as [|[k' v'] d IH]; simpl; [reflexivity |].
  destruct (key_eqb k' k) eqn:E; simpl.
  - rewrite (key_eqb_trans_l _ _ x E). destruct (key_eqb k x); reflexivity.
  - rewrite IH. destruct (key_eqb k' x) eqn:E'; [| reflexivity].
    destruct (key_eqb k x) eqn:E''; [| reflexivity].
    apply key_eqb_eq in E', E''. apply not_true_iff_false in E.
    destruct E. apply key_eqb_eq. congruence.
Qed.

Lemma assoc_set_fresh (d : list (val * val)) (k v : val) :
  assoc_get d k = None -> assoc_set d k v = d ++ [(k, v)].
Proof.
  induction d as [|[k' v'] d IH]; simpl; [reflexivity |].
  destruct (key_eqb k' k); [discriminate |]. intros H. rewrite IH; auto.
Qed.

Lemma assoc_get_ren_entries (m : memo) (d : list (val * val)) (k : val) :
  assoc_get (ren_entries m d) k = option_map (ren m) (assoc_get d k).
Proof.
  induction d as [|[k' v'] d IH]; simpl; [reflexivity |].
  destruct (key_eqb k' k); simpl; auto.
Qed.

Lemma assoc_get_app_none (d1 d2 : list (val * val)) (k : val) :
  assoc_get (d1 ++ d2) k = None <-> assoc_get d1 k = None /\ assoc_get d2 k = None.
Proof.
  induction d1 as [|[k' v'] d1 IH]; simpl.
  - split; [auto | intros [_ H]; exact H].
  - destruct (key_eqb k' k); [| exact IH].
    split; [discriminate | intros [H _]; discriminate].
Qed.

(** ** Well-formed entries *)

Lemma val_inb_mono (n n' : nat) (v : val) :
  (n <= n')%nat -> val_inb n v = true -> val_inb n' v = true.
Proof.
  destruct v; simpl; auto. intros Hle H%Nat.ltb_lt. apply Nat.ltb_lt. lia.
Qed.

Lemma dict_okb_cons (n : nat) (k v : val) (d : list (val * val)) :
  dict_okb n ((k, v) :: d) = true <->
  hashable k = true /\ val_inb n v = true /\ assoc_get d k = None
  /\ dict_okb n d = true.
Proof.
  simpl. rewrite !andb_true_iff, bool_decide_eq_true. tauto.
Qed.

Lemma dict_okb_mono (n n' : nat) (d : list (val * val)) :
  (n <= n')%nat -> dict_okb n d = true -> dict_okb n' d = true.
Proof.
  intros Hle. induction d as [|[k v] d IH]; [reflexivity |].
  rewrite !dict_okb_cons. intros (Hk & Hv & Hf & Hd).
  repeat split; eauto using val_inb_mono.
Qed.

Lemma obj_okb_mono (n n' : nat) (o : obj) :
  (n <= n')%nat -> obj_okb n o = true -> obj_okb n' o = true.
Proof.
  intros Hle. destruct o as [d|xs]; simpl; [apply dict_okb_mono; auto |].
  rewrite !forallb_forall. eauto using val_inb_mono.
Qed.

(** In a well-formed dictionary a later key differs from every earlier one. *)
Lemma dict_okb_app_fresh (n : nat) (pre rest : list (val * val)) (k v : val) :
  dict_okb n (pre ++ (k, v) :: rest) = true -> assoc_get pre k = None.
Proof.
  induction pre as [|[k' v'] pre IH]; simpl; [reflexivity |].
  rewrite !andb_true_iff, bool_decide_eq_true.
  intros [[[_ _] Hf] Hd].
  apply assoc_get_app_none in Hf as [_ Hf]. simpl in Hf.
  destruct (key_eqb k k') eqn:E; [discriminate |].
  rewrite key_eqb_sym, E. auto.
Qed.

Lemma dict_okb_app_r (n : nat) (pre rest : list (val * val)) :
  dict_okb n (pre ++ rest) = true -> dict_okb n rest = true.
Proof.
  induction pre as [|[k' v'] pre IH]; simpl; [auto |].
  rewrite !andb_true_iff. intros [_ Hd]. auto.
Qed.

Lemma dict_okb_set (n : nat) (d : list (val * val)) (k v : val) :
  dict_okb n d = true -> hashable k = true -> val_inb n v = true ->
  dict_okb n (assoc_set d k v) = true.
Proof.
  intros Hd Hk Hv. induction d as [|[k' v'] d IH].
  - simpl. rewrite Hk, Hv. reflexivity.
  - apply dict_okb_cons in Hd as (Hk' & Hv' & Hf & Hd). simpl.
    destruct (key_eqb k' k) eqn:E.
    + apply dict_okb_cons. auto.
    + apply dict_okb_cons. repeat split; auto.
      destruct (assoc_get (assoc_set d k v) k') eqn:G; [| reflexivity].
      rewrite assoc_get_set in G. rewrite key_eqb_sym, E in G. congruence.
Qed.

Lemma wf_heap_lookup (h : heap) (l : loc) (o : obj) :
  wf_heap h = true -> h !! l = Some o -> obj_okb (length h) o = true.
Proof.
  unfold wf_heap. rewrite forallb_forall. intros Hwf Hl.
  apply Hwf. apply list_elem_of_In. eapply list_elem_of_lookup_2; eauto.
Qed.

Lemma wf_heap_intro (h : heap) :
  (forall l o, h !! l = Some o -> obj_okb (length h) o = true) ->
  wf_heap h = true.
Proof.
  intros H. unfold wf_heap. apply forallb_forall. intros o Ho.
  apply list_elem_of_In, list_elem_of_lookup_1 in Ho as [l Hl]. eauto.
Qed.

(** ** Memos *)

Lemma memo_le_refl (m : memo) : memo_le m m.
Proof. intros a b H. exact H. Qed.

Lemma memo_le_trans (m1 m2 m3 : memo) :
  memo_le m1 m2 -> memo_le m2 m3 -> memo_le m1 m3.
Proof. intros H1 H2 a b H. auto. Qed.

Lemma memo_le_cons (m : memo) (l y : loc) :
  memo_get m l = None -> memo_le m ((l, y) :: m).
Proof.
  intros Hn a b H. simpl. destruct (Nat.eqb l a) eqn:E; [| exact H].
  apply Nat.eqb_eq in E. congruence.
Qed.

Lemma covered_le (m m' : memo) (v : val) :
  memo_le m m' -> covered m v -> covered m' v.
Proof.
  intros Hle. destruct v; simpl; auto. intros [b Hb]. exists b. auto.
Qed.

Lemma ren_le (m m' : memo) (v : val) :
  memo_le m m' -> covered m v -> ren m' v = ren m v.
Proof.
  intros Hle. destruct v; simpl; auto. intros [b Hb].
  rewrite Hb, (Hle _ _ Hb). reflexivity.
Qed.

Lemma ren_entries_le (m m' : memo) (d : list (val * val)) :
  memo_le m m' -> Forall (fun kv => covered m (snd kv)) d ->
  ren_entries m' d = ren_entries m d.
Proof.
  intros Hle Hc. induction Hc as [|[k v] d Hv Hd IH]; simpl; [reflexivity |].
  rewrite (ren_le m m' v), IH; auto.
Qed.

Lemma ren_entries_app (m : memo) (d1 d2 : list (val * val)) :
  ren_entries m (d1 ++ d2) = ren_entries m d1 ++ ren_entries m d2.
Proof. unfold ren_entries. apply map_app. Qed.

Lemma ren_obj_le (m m' : memo) (o : obj) :
  memo_le m m' -> obj_covered m o -> ren_obj m' o = ren_obj m o.
Proof.
  intros Hle. destruct o as [d|xs]; simpl; intros Hc.
  - rewrite (ren_entries_le m m'); auto.
  - f_equal. induction Hc as [|v xs Hv Hxs IH]; simpl; [reflexivity |].
    rewrite (ren_le m m' v), IH; auto.
Qed.

Lemma obj_covered_le (m m' : memo) (o : obj) :
  memo_le m m' -> obj_covered m o -> obj_covered m' o.
Proof.
  intros Hle. destruct o as [d|xs]; simpl; intros Hc;
    (eapply Forall_impl; [exact Hc |]); simpl; eauto using covered_le.
Qed.

Lemma ren_hashable (m : memo) (k : val) : hashable k = true -> ren m k = k.
Proof. destruct k; simpl; auto; discriminate. Qed.

(** ** Counting what is left to copy *)

Lemma filter_length_le (P Q : nat -> bool) (L : list nat) :
  (forall x, Q x = true -> P x = true) ->
  (length (List.filter Q L) <= length (List.filter P L))%nat.
Proof.
  intros HQP. induction L as [|a L IH]; simpl; [lia |].
  destruct (Q a) eqn:Ea.
  - rewrite (HQP _ Ea). simpl. lia.
  - destruct (P a); simpl; lia.
Qed.

Lemma filter_length_lt (P Q : nat -> bool) (L : list nat) (x : nat) :
  (forall x, Q x = true -> P x = true) ->
  In x L -> P x = true -> Q x = false ->
  (length (List.filter Q L) < length (List.filter P L))%nat.
Proof.
  intros HQP Hin HP HQ. induction L as [|a L IH]; simpl; [destruct Hin |].
  destruct Hin as [-> | Hin].
  - rewrite HP, HQ. simpl.
    pose proof (filter_length_le P Q L HQP). lia.
  - specialize (IH Hin). destruct (Q a) eqn:Ea.
    + rewrite (HQP _ Ea). simpl. lia.
    + destruct (P a); simpl; lia.
Qed.

Lemma unmemo_le (n : nat) (m m' : memo) :
  memo_le m m' -> (unmemo n m' <= unmemo n m)%nat.
Proof.
  intros Hle. unfold unmemo. apply filter_length_le.
  intros x. unfold memo_free.
  destruct (memo_get m x) as [b|] eqn:E; [| reflexivity].
  rewrite (Hle _ _ E). discriminate.
Qed.

Lemma unmemo_cons_lt (n : nat) (m : memo) (l y : loc) :
  memo_get m l = None -> (l < n)%nat ->
  (unmemo n ((l, y) :: m) < unmemo n m)%nat.
Proof.
  intros Hn Hl. unfold unmemo. apply filter_length_lt with (x := l).
  - intros x. unfold memo_free. simpl.
    destruct (Nat.eqb l x); [discriminate |]. auto.
  - apply in_seq. lia.
  - unfold memo_free. rewrite Hn. reflexivity.
  - unfold memo_free. simpl. rewrite Nat.eqb_refl. reflexivity.
Qed.

(** Splits conjunctions only, leaving records whole. *)
Ltac splits := repeat match goal with |- _ /\ _ => split end.

(** ** copy.deepcopy is total and builds an isomorphic copy *)

Section deepcopy_correct.
Variable h0 : heap.
Hypothesis Hwf : wf_heap h0 = true.

Lemma copy_inv_insert (S : loc -> Prop) (h : heap) (m : memo) (l y : loc) (o : obj) :
  copy_inv h0 S h m -> memo_get m l = Some y -> S l ->
  copy_inv h0 S (<[y := o]> h) m.
Proof.
  intros [Hold Hlen Hrange Hinj Hsurj Hdone] Hy HS.
  destruct (Hrange _ _ Hy) as [_ [Hy0 _]].
  constructor; try rewrite length_insert.
  - intros a Ha. rewrite list_lookup_insert_ne by lia. auto.
  - exact Hlen.
  - exact Hrange.
  - exact Hinj.
  - exact Hsurj.
  - intros a b Hab Hna.
    destruct (Hdone a b Hab Hna) as (o' & H1 & H2 & H3).
    exists o'. splits; auto.
    rewrite list_lookup_insert_ne; auto.
    intros ->. apply Hna. rewrite (Hinj _ _ _ Hab Hy). exact HS.
Qed.

Lemma copy_inv_alloc (S : loc -> Prop) (h : heap) (m : memo) (l : loc) (o : obj) :
  copy_inv h0 S h m -> memo_get m l = None -> (l < length h0)%nat ->
  copy_inv h0 (fun a => S a \/ a = l) (h ++ [o]) ((l, length h) :: m).
Proof.
  intros [Hold Hlen Hrange Hinj Hsurj Hdone] Hn Hl.
  assert (Hle : memo_le m ((l, length h) :: m)) by (apply memo_le_cons; auto).
  constructor; try rewrite length_app; simpl.
  - intros a Ha. rewrite lookup_app_l by lia. auto.
  - lia.
  - intros a b. destruct (Nat.eqb l a) eqn:E.
    + apply Nat.eqb_eq in E. intros [= <-]. subst. lia.
    + intros Hab. destruct (Hrange _ _ Hab). lia.
  - intros a a' b.
    destruct (Nat.eqb l a) eqn:E; destruct (Nat.eqb l a') eqn:E';
      try apply Nat.eqb_eq in E; try apply Nat.eqb_eq in E'.
    + congruence.
    + intros [= <-] Hab. destruct (Hrange _ _ Hab). lia.
    + intros Hab [= <-]. destruct (Hrange _ _ Hab). lia.
    + apply Hinj.
  - intros b Hb. destruct (decide (b = length h)) as [-> | Hne].
    + exists l. rewrite Nat.eqb_refl. reflexivity.
    + destruct (Hsurj b) as [a Ha]; [lia |]. exists a. apply Hle. exact Ha.
  - intros a b. destruct (Nat.eqb l a) eqn:E.
    + apply Nat.eqb_eq in E. intros _ Hna. destruct Hna. auto.
    + intros Hab Hna.
      destruct (Hdone a b Hab) as (o' & H1 & H2 & H3); [tauto |].
      exists o'. splits; auto.
      * destruct (Hrange _ _ Hab). rewrite lookup_app_l by lia.
        rewrite (ren_obj_le m); auto.
      * eapply obj_covered_le; eauto.
Qed.

Section loops.
Variable B : nat.
Variable rec : heap -> memo -> val -> res (heap * memo * val).
Hypothesis Hrec : rec_ok h0 B rec.

Lemma copy_items_correct :
  forall (items pre : list (val * val)) (S : loc -> Prop) (l y : loc)
         (h : heap) (m : memo),
    copy_inv h0 (fun a => S a \/ a = l) h m ->
    memo_get m l = Some y ->
    dict_okb (length h0) (pre ++ items) = true ->
    h !! y = Some (ODict (ren_entries m pre)) ->
    Forall (fun kv => covered m (snd kv)) pre ->
    (unmemo (length h0) m < B)%nat ->
    exists h' m',
      copy_items rec y items h m = Ok (h', m') /\
      copy_inv h0 (fun a => S a \/ a = l) h' m' /\ memo_le m m' /\
      h' !! y = Some (ODict (ren_entries m' (pre ++ items))) /\
      Forall (fun kv => covered m' (snd kv)) (pre ++ items) /\
      (length h <= length h')%nat /\
      forall l', (l' < length h)%nat -> l' <> y -> h' !! l' = h !! l'.
Proof.
  induction items as [|[k v] rest IH]; intros pre S l y h m Hinv Hy Hok Hhy Hcov Hfuel.
  - exists h, m. rewrite app_nil_r. simpl.
    splits; auto using memo_le_refl.
  - simpl.
    pose proof (dict_okb_app_fresh _ _ _ _ _ Hok) as Hfresh.
    pose proof (dict_okb_app_r _ _ _ Hok) as Hkv.
    apply dict_okb_cons in Hkv as (Hk & Hv & _ & _).
    assert (Hylt : (y < length h)%nat) by (eapply lookup_lt_Some; eauto).
    destruct (Hrec _ h m v Hinv Hv Hfuel)
      as (h1 & m1 & E1 & Hinv1 & Hle1 & Hcov1 & Hlen1 & Hpres1).
    rewrite E1; simpl.
    assert (Hk' : val_inb (length h0) k = true) by (destruct k; auto; discriminate).
    assert (Hfuel1 : (unmemo (length h0) m1 < B)%nat).
    { pose proof (unmemo_le (length h0) _ _ Hle1). lia. }
    destruct (Hrec _ h1 m1 k Hinv1 Hk' Hfuel1)
      as (h2 & m2 & E2 & Hinv2 & Hle2 & _ & Hlen2 & Hpres2).
    rewrite E2; simpl. rewrite (ren_hashable _ _ Hk).
    assert (Hle : memo_le m m2) by eauto using memo_le_trans.
    assert (Hhy2 : h2 !! y = Some (ODict (ren_entries m pre))).
    { rewrite Hpres2 by lia. rewrite Hpres1 by lia. exact Hhy. }
    unfold py_setitem. rewrite Hhy2, Hk.
    rewrite assoc_set_fresh
      by (rewrite assoc_get_ren_entries, Hfresh; reflexivity).
    remember (<[y := ODict (ren_entries m pre ++ [(k, ren m1 v)])]> h2) as h3 eqn:Hh3.
    assert (Hy2 : memo_get m2 l = Some y) by auto.
    assert (Hcov2 : Forall (fun kv => covered m2 (snd kv)) (pre ++ [(k, v)])).
    { apply Forall_app. split.
      - eapply Forall_impl; [exact Hcov |]. simpl. eauto using covered_le.
      - constructor; [| constructor]. simpl. eauto using covered_le. }
    destruct (IH (pre ++ [(k, v)]) S l y h3 m2)
      as (h' & m' & E' & Hinv' & Hle' & Hhy' & Hcov' & Hlen' & Hpres').
    + subst h3. eapply copy_inv_insert; eauto.
    + exact Hy2.
    + rewrite <- app_assoc. exact Hok.
    + subst h3. rewrite list_lookup_insert_eq by lia.
      do 2 f_equal. rewrite ren_entries_app. simpl.
      rewrite (ren_entries_le m m2), (ren_le m1 m2); auto.
    + exact Hcov2.
    + pose proof (unmemo_le (length h0) _ _ Hle2). lia.
    + exists h', m'. rewrite <- app_assoc in Hhy', Hcov'. simpl in Hhy', Hcov'.
      assert (Hl3 : length h3 = length h2) by (subst h3; apply length_insert).
      splits; eauto using memo_le_trans; [lia |].
      intros l' Hl' Hne. rewrite Hpres'; [| lia | auto].
      subst h3. rewrite list_lookup_insert_ne by auto.
      rewrite Hpres2 by lia. apply Hpres1. lia.
Qed.

Lemma copy_elems_correct :
  forall (xs pre : list val) (S : loc -> Prop) (l y : loc) (h : heap) (m : memo),
    copy_inv h0 (fun a => S a \/ a = l) h m ->
    memo_get m l = Some y ->
    forallb (val_inb (length h0)) xs = true ->
    h !! y = Some (OList (map (ren m) pre)) ->
    Forall (covered m) pre ->
    (unmemo (length h0) m < B)%nat ->
    exists h' m',
      copy_elems rec y xs h m = Ok (h', m') /\
      copy_inv h0 (fun a => S a \/ a = l) h' m' /\ memo_le m m' /\
      h' !! y = Some (OList (map (ren m') (pre ++ xs))) /\
      Forall (covered m') (pre ++ xs) /\
      (length h <= length h')%nat /\
      forall l', (l' < length h)%nat -> l' <> y -> h' !! l' = h !! l'.
Proof.
  induction xs as [|v rest IH]; intros pre S l y h m Hinv Hy Hok Hhy Hcov Hfuel.
  - exists h, m. rewrite app_nil_r. simpl.
    splits; auto using memo_le_refl.
  - simpl. simpl in Hok. apply andb_true_iff in Hok as [Hv Hrest].
    assert (Hylt : (y < length h)%nat) by (eapply lookup_lt_Some; eauto).
    destruct (Hrec _ h m v Hinv Hv Hfuel)
      as (h1 & m1 & E1 & Hinv1 & Hle1 & Hcov1 & Hlen1 & Hpres1).
    rewrite E1; simpl.
    assert (Hhy1 : h1 !! y = Some (OList (map (ren m) pre))).
    { rewrite Hpres1 by lia. exact Hhy. }
    unfold py_append. rewrite Hhy1.
    remember (<[y := OList (map (ren m) pre ++ [ren m1 v])]> h1) as h2 eqn:Hh2.
    assert (Hy1 : memo_get m1 l = Some y) by auto.
    assert (Hcov2 : Forall (covered m1) (pre ++ [v])).
    { apply Forall_app. split.
      - eapply Forall_impl; [exact Hcov |]. eauto using covered_le.
      - constructor; [| constructor]. auto. }
    destruct (IH (pre ++ [v]) S l y h2 m1)
      as (h' & m' & E' & Hinv' & Hle' & Hhy' & Hcov' & Hlen' & Hpres').
    + subst h2. eapply copy_inv_insert; eauto.
    + exact Hy1.
    + exact Hrest.
    + subst h2. rewrite list_lookup_insert_eq by lia.
      do 2 f_equal. rewrite map_app. simpl. f_equal.
      clear -Hcov Hle1. induction Hcov as [|a pre Ha Hpre IHc]; simpl; [reflexivity |].
      rewrite (ren_le m m1 a), IHc; auto.
    + exact Hcov2.
    + pose proof (unmemo_le (length h0) _ _ Hle1). lia.
    + exists h', m'. rewrite <- app_assoc in Hhy', Hcov'. simpl in Hhy', Hcov'.
      assert (Hl2 : length h2 = length h1) by (subst h2; apply length_insert).
      splits; eauto using memo_le_trans; [lia |].
      intros l' Hl' Hne. rewrite Hpres'; [| lia | auto].
      subst h2. rewrite list_lookup_insert_ne by auto.
      apply Hpres1. lia.
Qed.

End loops.

Lemma copy_inv_close (S : loc -> Prop) (h : heap) (m : memo) (l y : loc) (o : obj) :
  copy_inv h0 (fun a => S a \/ a = l) h m ->
  memo_get m l = Some y -> h0 !! l = Some o ->
  h !! y = Some (ren_obj m o) -> obj_covered m o ->
  copy_inv h0 S h m.
Proof.
  intros [Hold Hlen Hrange Hinj Hsurj Hdone] Hy Ho Hhy Hcov.
  constructor; auto.
  intros a b Hab Hna. destruct (decide (a = l)) as [-> | Hne].
  - assert (b = y) by congruence. subst b. eauto.
  - apply Hdone; auto. tauto.
Qed.

Lemma deepcopy_fuel_correct (fuel : nat) : rec_ok h0 fuel (deepcopy_fuel fuel).
Proof.
  induction fuel as [|f IH]; intros S h m x Hinv Hx Hfuel; [lia |].
  assert (Hatom : forall v, ren m v = v -> covered m v ->
            copy_post h0 S h m v (Ok (h, m, v))).
  { intros v Hv Hc. exists h, m. rewrite Hv. splits; auto using memo_le_refl. }
  destruct x as [| b | z | s | l]; try (apply Hatom; simpl; auto; fail).
  simpl. destruct (memo_get m l) as [y|] eqn:Em.
  { exists h, m. simpl. rewrite Em.
    splits; auto using memo_le_refl; simpl; rewrite ?Em; eauto. }
  simpl in Hx. apply Nat.ltb_lt in Hx.
  pose proof (ci_old _ _ _ _ Hinv l Hx) as Hl.
  destruct (lookup_lt_is_Some_2 h0 l Hx) as [o Ho].
  rewrite Hl, Ho.
  pose proof (wf_heap_lookup _ _ _ Hwf Ho) as Hobj.
  pose proof (copy_inv_alloc S h m l
                (match o with ODict _ => ODict [] | OList _ => OList [] end)
                Hinv Em Hx) as Hinv1.
  assert (Hle1 : memo_le m ((l, length h) :: m)) by (apply memo_le_cons; auto).
  assert (Hy1 : memo_get ((l, length h) :: m) l = Some (length h))
    by (simpl; rewrite Nat.eqb_refl; reflexivity).
  assert (Hfuel1 : (unmemo (length h0) ((l, length h) :: m) < f)%nat).
  { pose proof (unmemo_cons_lt (length h0) m l (length h) Em Hx). lia. }
  destruct o as [d | xs]; simpl in Hobj.
  - destruct (copy_items_correct f _ IH d [] S l (length h)
                (h ++ [ODict []]) ((l, length h) :: m))
      as (h' & m' & E & Hinv' & Hle' & Hhy' & Hcov' & Hlen' & Hpres'); auto.
    { apply list_lookup_middle. reflexivity. }
    rewrite E; simpl. simpl in Hhy', Hcov'.
    assert (Hy' : memo_get m' l = Some (length h)) by auto.
    exists h', m'. simpl. rewrite Hy'. rewrite length_app in Hlen'. simpl in Hlen'.
    splits; eauto using memo_le_trans; [| lia |].
    + eapply copy_inv_close; eauto.
    + intros l' Hl'. rewrite Hpres'; [| rewrite length_app; simpl; lia | lia].
      apply lookup_app_l. exact Hl'.
  - destruct (copy_elems_correct f _ IH xs [] S l (length h)
                (h ++ [OList []]) ((l, length h) :: m))
      as (h' & m' & E & Hinv' & Hle' & Hhy' & Hcov' & Hlen' & Hpres'); auto.
    { apply list_lookup_middle. reflexivity. }
    rewrite E; simpl. simpl in Hhy', Hcov'.
    assert (Hy' : memo_get m' l = Some (length h)) by auto.
    exists h', m'. simpl. rewrite Hy'. rewrite length_app in Hlen'. simpl in Hlen'.
    splits; eauto using memo_le_trans; [| lia |].
    + eapply copy_inv_close; eauto.
    + intros l' Hl'. rewrite Hpres'; [| rewrite length_app; simpl; lia | lia].
      apply lookup_app_l. exact Hl'.
Qed.

(** The empty memo over the untouched store. *)
Lemma copy_inv_start : copy_inv h0 (fun _ => False) h0 [].
Proof.
  constructor; simpl; auto; try discriminate.
  intros b Hb. lia.
Qed.

(** [copy.deepcopy] returns on every well-formed store; the result is the
    renamed argument, the old objects are untouched and each new object is
    the renamed image of the one it copies. *)
Lemma deepcopy_correct (x : val) :
  val_inb (length h0) x = true ->
  exists h' m,
    deepcopy h0 x = Ok (h', ren m x) /\
    copy_inv h0 (fun _ => False) h' m /\ covered m x.
Proof.
  intros Hx. unfold deepcopy.
  destruct (deepcopy_fuel_correct (S (length h0)) (fun _ => False) h0 [] x)
    as (h' & m & E & Hinv & _ & Hcov & _ & _); auto using copy_inv_start.
  { unfold unmemo.
    pose proof (filter_length_le (fun _ => true) (memo_free []) (seq 0 (length h0))
                  (fun _ _ => eq_refl)) as H.
    assert (Hall : List.filter (fun _ : nat => true) (seq 0 (length h0))
                   = seq 0 (length h0)).
    { generalize (seq 0 (length h0)). intros L.
      induction L as [|a L IHL]; simpl; congruence. }
    rewrite Hall, length_seq in H. lia. }
  rewrite E. simpl. eauto.
Qed.

End deepcopy_correct.

(** A finished copy leaves a well-formed store. *)
Lemma obj_okb_ren (n n' : nat) (m : memo) (o : obj) :
  obj_okb n o = true -> obj_covered m o ->
  (forall a b, memo_get m a = Some b -> (b < n')%nat) ->
  obj_okb n' (ren_obj m o) = true.
Proof.
  intros Hok Hcov Hm.
  assert (Hv : forall v, covered m v -> val_inb n' (ren m v) = true).
  { intros [| | | | l]; simpl; auto. intros [b Hb]. rewrite Hb. simpl.
    apply Nat.ltb_lt. eauto. }
  destruct o as [d | xs]; simpl in *.
  - induction d as [|[k v] d IH]; [reflexivity |].
    apply dict_okb_cons in Hok as (Hk & _ & Hf & Hd).
    inversion Hcov as [|? ? Hcv Hcd]; subst. simpl in Hcv.
    change (ren_entries m ((k, v) :: d)) with ((k, ren m v) :: ren_entries m d).
    apply dict_okb_cons. splits; auto.
    rewrite assoc_get_ren_entries, Hf. reflexivity.
  - apply forallb_forall. intros v' Hin. apply in_map_iff in Hin as (v & <- & Hin).
    apply Hv. rewrite Forall_forall in Hcov. apply Hcov.
    apply list_elem_of_In. exact Hin.
Qed.

Lemma copy_inv_wf (h0 h' : heap) (m : memo) :
  wf_heap h0 = true -> copy_inv h0 (fun _ => False) h' m -> wf_heap h' = true.
Proof.
  intros Hwf [Hold Hlen Hrange Hinj Hsurj Hdone].
  apply wf_heap_intro. intros l o Hl.
  pose proof (lookup_lt_Some _ _ _ Hl) as Hlt.
  destruct (decide (l < length h0)%nat) as [Hin | Hout].
  - rewrite Hold in Hl by exact Hin.
    eapply obj_okb_mono; [exact Hlen |]. eapply wf_heap_lookup; eauto.
  - destruct (Hsurj l) as [a Ha]; [lia |].
    destruct (Hdone a l Ha) as (o' & Ho' & Hl' & Hcov); [tauto |].
    rewrite Hl' in Hl. injection Hl as <-.
    eapply obj_okb_ren; eauto.
    + eapply wf_heap_lookup; eauto.
    + intros a' b Hb. destruct (Hrange _ _ Hb). lia.
Qed.

(** ** Overlaying entries on [config["algorithm"]] *)

Lemma fold_set_entry_keep (items d : list (val * val)) (x : val) :
  assoc_get items x = None ->
  assoc_get (fold_left set_entry items d) x = assoc_get d x.
Proof.
  revert d. induction items as [|[k v] items IH]; intros d; simpl; [reflexivity |].
  destruct (key_eqb k x) eqn:E; [discriminate |]. intros Hn.
  rewrite IH by exact Hn. unfold set_entry. simpl.
  rewrite assoc_get_set, E. reflexivity.
Qed.

(** With distinct keys the entry of [items] under [x] is the last one
    written under [x]. *)
Lemma fold_set_entry_get (n : nat) (items d : list (val * val)) (x v : val) :
  dict_okb n items = true -> assoc_get items x = Some v ->
  assoc_get (fold_left set_entry items d) x = Some v.
Proof.
  revert d. induction items as [|[k v'] items IH]; intros d Hok; simpl;
    [discriminate |].
  apply dict_okb_cons in Hok as (_ & _ & Hf & Hok).
  destruct (key_eqb k x) eqn:E.
  - intros [= <-]. rewrite fold_set_entry_keep.
    + unfold set_entry. simpl. rewrite assoc_get_set, E. reflexivity.
    + destruct (assoc_get items x) eqn:G; [| reflexivity].
      assert (Hkx : forall it, assoc_get it x = assoc_get it k).
      { intros it. induction it as [|[k0 v0] it IHit]; simpl; [reflexivity |].
        rewrite !(key_eqb_sym k0). rewrite (key_eqb_trans_l _ _ k0 E).
        rewrite IHit. reflexivity. }
      rewrite Hkx in G. congruence.
  - intros Hx. apply IH; auto.
Qed.

Lemma fold_set_entry_okb (n : nat) (items d : list (val * val)) :
  dict_okb n d = true ->
  Forall (fun kv => hashable (fst kv) = true /\ val_inb n (snd kv) = true) items ->
  dict_okb n (fold_left set_entry items d) = true.
Proof.
  intros Hd Hit. revert d Hd.
  induction Hit as [|[k v] items [Hk Hv] _ IH]; intros d Hd; simpl; [exact Hd |].
  apply IH. unfold set_entry. simpl. apply dict_okb_set; auto.
Qed.

Lemma dict_okb_entries (n : nat) (d : list (val * val)) :
  dict_okb n d = true ->
  Forall (fun kv => hashable (fst kv) = true /\ val_inb n (snd kv) = true) d.
Proof.
  induction d as [|[k v] d IH]; [constructor |].
  intros (Hk & Hv & _ & Hd)%dict_okb_cons. constructor; auto.
Qed.

(** The closed form of [overlay_items]: every entry goes into the one
    dictionary at [a]. *)
Lemma overlay_items_run (h : heap) (c a : loc) (cd ad items : list (val * val)) :
  h !! c = Some (ODict cd) ->
  assoc_get cd (VStr "algorithm") = Some (VRef a) -> a <> c ->
  h !! a = Some (ODict ad) ->
  Forall (fun kv => hashable (fst kv) = true) items ->
  overlay_items (VRef c) items h
  = Ok (<[a := ODict (fold_left set_entry items ad)]> h).
Proof.
  intros Hc Halg Hne Ha Hit. revert h ad Hc Ha.
  induction Hit as [|[k v] items Hk _ IH]; intros h ad Hc Ha; simpl.
  - rewrite list_insert_id; auto.
  - unfold py_getitem, as_dict. rewrite Hc; simpl. rewrite Halg; simpl.
    unfold py_setitem. rewrite Ha. simpl in Hk. rewrite Hk.
    pose proof (lookup_lt_Some _ _ _ Ha) as Hlt. simpl.
    rewrite (IH _ (assoc_set ad k v)).
    + rewrite list_insert_insert_eq. reflexivity.
    + rewrite list_lookup_insert_ne; auto.
    + rewrite list_lookup_insert_eq; auto.
Qed.

(** ** What the overlays change *)

Lemma alg_update_refl (cd : list (val * val)) (h : heap) : alg_update cd h h.
Proof. left. reflexivity. Qed.

Lemma alg_update_length (cd : list (val * val)) (h h' : heap) :
  alg_update cd h h' -> length h' = length h.
Proof.
  intros [-> | (a & o & o' & _ & _ & -> & _)]; [reflexivity |].
  apply length_insert.
Qed.

Lemma alg_update_other (cd : list (val * val)) (h h' : heap) (l : loc) :
  alg_update cd h h' ->
  (forall a, assoc_get cd (VStr "algorithm") = Some (VRef a) -> a <> l) ->
  h' !! l = h !! l.
Proof.
  intros [-> | (a & o & o' & Ha & _ & -> & _)] Hne; [reflexivity |].
  apply list_lookup_insert_ne. auto.
Qed.

Lemma same_kind_trans (o1 o2 o3 : obj) :
  same_kind o1 o2 -> same_kind o2 o3 -> same_kind o1 o3.
Proof.
  destruct o1, o2, o3; simpl; try tauto. congruence.
Qed.

Lemma alg_update_trans (cd : list (val * val)) (h1 h2 h3 : heap) :
  alg_update cd h1 h2 -> alg_update cd h2 h3 -> alg_update cd h1 h3.
Proof.
  intros [-> | (a & o & o' & Ha & Hl & -> & Hk & Hok)]; [auto |].
  intros [-> | (a2 & o2 & o2' & Ha2 & Hl2 & -> & Hk2 & Hok2)].
  - right. exists a, o, o'. auto.
  - assert (a2 = a) by congruence. subst a2.
    pose proof (lookup_lt_Some _ _ _ Hl) as Hlt.
    rewrite list_lookup_insert_eq in Hl2 by exact Hlt. injection Hl2 as <-.
    rewrite length_insert in Hok2.
    right. exists a, o, o2'. splits; auto.
    + apply list_insert_insert_eq.
    + eapply same_kind_trans; eauto.
Qed.

Lemma alg_update_wf (cd : list (val * val)) (h h' : heap) :
  alg_update cd h h' -> wf_heap h = true -> wf_heap h' = true.
Proof.
  intros [-> | (a & o0 & o' & Ha & Hl & -> & Hk & Hok)] Hwf; [exact Hwf |].
  apply wf_heap_intro. intros l o. rewrite length_insert.
  destruct (decide (a = l)) as [<- | Hne].
  - rewrite list_lookup_insert_eq by (eapply lookup_lt_Some; eauto).
    intros [= <-]. apply Hok.
    apply (wf_heap_lookup _ _ _ Hwf Hl).
  - rewrite list_lookup_insert_ne by exact Hne. apply wf_heap_lookup. exact Hwf.
Qed.

(** An object keeps its kind; a list keeps its length. *)
Lemma alg_update_kind (cd : list (val * val)) (h h' : heap) (l : loc) :
  alg_update cd h h' ->
  match h !! l with
  | Some (ODict _) => exists d', h' !! l = Some (ODict d')
  | Some (OList xs) =>
      exists xs', h' !! l = Some (OList xs') /\ length xs' = length xs
  | None => h' !! l = None
  end.
Proof.
  intros [-> | (a & o & o' & Ha & Hl & -> & Hk & Hok)].
  - destruct (h !! l) as [[d | xs] |]; eauto.
  - destruct (decide (a = l)) as [<- | Hne].
    + rewrite Hl. rewrite list_lookup_insert_eq by (eapply lookup_lt_Some; eauto).
      destruct o as [d | xs], o' as [d' | xs']; simpl in Hk; try tauto; eauto.
    + rewrite list_lookup_insert_ne by exact Hne.
      destruct (h !! l) as [[d | xs] |]; eauto.
Qed.

Lemma forallb_insert {A : Type} (P : A -> bool) (xs : list A) (i : nat) (x : A) :
  forallb P xs = true -> P x = true -> forallb P (<[i := x]> xs) = true.
Proof.
  revert i. induction xs as [|a xs IH]; intros i; simpl; [auto |].
  intros [Ha Hxs]%andb_true_iff Hx. destruct i; simpl.
  - rewrite Hx, Hxs. reflexivity.
  - rewrite Ha, IH; auto.
Qed.

Lemma overlay_items_update (c : loc) (cd items : list (val * val)) (h h' : heap) :
  h !! c = Some (ODict cd) ->
  (forall a, assoc_get cd (VStr "algorithm") = Some (VRef a) -> a <> c) ->
  Forall (fun kv => val_inb (length h) (snd kv) = true) items ->
  overlay_items (VRef c) items h = Ok h' ->
  alg_update cd h h'.
Proof.
  intros Hc Hne Hit. revert h Hc Hit.
  induction items as [|[k v] items IH]; intros h Hc Hit; simpl.
  - intros [= <-]. apply alg_update_refl.
  - inversion Hit as [|? ? Hv Hrest]; subst. simpl in Hv.
    unfold py_getitem at 1. unfold as_dict. rewrite Hc; simpl.
    destruct (assoc_get cd (VStr "algorithm")) as [alg|] eqn:Ealg; simpl;
      [| discriminate].
    unfold py_setitem.
    destruct alg as [| | | | a]; simpl; try discriminate.
    destruct (h !! a) as [[ad | xs] |] eqn:Ea; simpl; try discriminate.
    + destruct (hashable k) eqn:Hk; simpl; [| discriminate].
      intros Hrun.
      assert (Hstep : alg_update cd h (<[a := ODict (assoc_set ad k v)]> h)).
      { right. exists a, (ODict ad), (ODict (assoc_set ad k v)). splits; simpl; auto.
        intros Hd. apply dict_okb_set; auto. }
      eapply alg_update_trans; [exact Hstep |].
      apply IH; auto.
      * rewrite list_lookup_insert_ne; auto.
      * rewrite length_insert. exact Hrest.
    + destruct (list_slot (length xs) k) as [i|] eqn:Ei; simpl; [| discriminate].
      intros Hrun.
      assert (Hstep : alg_update cd h (<[a := OList (<[i := v]> xs)]> h)).
      { right. exists a, (OList xs), (OList (<[i := v]> xs)). splits; simpl; auto.
        - apply length_insert.
        - intros Hxs. apply forallb_insert; auto. }
      eapply alg_update_trans; [exact Hstep |].
      apply IH; auto.
      * rewrite list_lookup_insert_ne; auto.
      * rewrite length_insert. exact Hrest.
Qed.

Lemma snapshot_in_range (h : heap) (v : val) (items : list (val * val)) :
  wf_heap h = true -> py_iteritems h v = Ok items ->
  Forall (fun kv => hashable (fst kv) = true /\ val_inb (length h) (snd kv) = true)
         items.
Proof.
  intros Hwf. unfold py_iteritems, as_dict.
  destruct v as [| | | | l]; try discriminate.
  destruct (h !! l) as [[d | xs] |] eqn:El; try discriminate.
  intros [= <-]. apply dict_okb_entries.
  apply (wf_heap_lookup _ _ _ Hwf El).
Qed.

Lemma overlay_custom_update (c : loc) (cd : list (val * val)) (types : list val)
    (h h' : heap) :
  wf_heap h = true ->
  h !! c = Some (ODict cd) ->
  (forall a, assoc_get cd (VStr "algorithm") = Some (VRef a) -> a <> c) ->
  overlay_custom (VRef c) types h = Ok h' ->
  alg_update cd h h'.
Proof.
  intros Hwf Hc Hne. revert h Hwf Hc.
  induction types as [|t types IH]; intros h Hwf Hc; simpl.
  - intros [= <-]. apply alg_update_refl.
  - destruct (py_getitem h (VRef c) (VStr "custom_algorithms")) as [ca|]; simpl;
      [| discriminate].
    destruct (py_get h ca t VNone) as [custom|]; simpl; [| discriminate].
    destruct (truthy h custom).
    + destruct (py_iteritems h custom) as [items|] eqn:Eit; simpl; [| discriminate].
      destruct (overlay_items (VRef c) items h) as [h1|] eqn:Eov; simpl;
        [| discriminate].
      intros Hrun.
      assert (Hstep : alg_update cd h h1).
      { apply (overlay_items_update c cd items h h1 Hc Hne); [| exact Eov].
        eapply Forall_impl; [eapply snapshot_in_range; eauto |].
        simpl. tauto. }
      eapply alg_update_trans; [exact Hstep |].
      apply IH; eauto using alg_update_wf.
      rewrite (alg_update_other _ _ _ c Hstep); auto.
    + simpl. apply IH; auto.
Qed.

Lemma algorithm_not_selfb_sound (h : heap) (config : val) :
  algorithm_not_selfb h config = true -> algorithm_not_self h config.
Proof.
  unfold algorithm_not_selfb. intros H c cd -> Hc. rewrite Hc in H.
  apply negb_true_iff, bool_decide_eq_false in H. exact H.
Qed.

(** ** The merge as a whole *)

Lemma name_remaps_get_nonempty (base_name : val) (types : list val) :
  name_remaps_get base_name = Ok types -> types <> [].
Proof.
  unfold name_remaps_get. destruct (hashable base_name); [| discriminate].
  destruct (key_eqb _ _); [intros [= <-]; discriminate |].
  destruct (key_eqb _ _); intros [= <-]; discriminate.
Qed.

Lemma assoc_get_In (d : list (val * val)) (k v : val) :
  assoc_get d k = Some v -> exists k', In (k', v) d.
Proof.
  induction d as [|[k0 v0] d IH]; simpl; [discriminate |].
  destruct (key_eqb k0 k).
  - intros [= <-]. eauto.
  - intros H. destruct (IH H) as [k' Hk']. eauto.
Qed.

Lemma lane_algorithm_items_in_range (h : heap) (lane_info : val)
    (items : list (val * val)) :
  wf_heap h = true -> lane_algorithm_items h lane_info = Ok items ->
  Forall (fun kv => hashable (fst kv) = true /\ val_inb (length h) (snd kv) = true)
         items.
Proof.
  intros Hwf. unfold lane_algorithm_items.
  destruct (as_dict h lane_info AttributeError) as [d|]; simpl; [| discriminate].
  destruct (assoc_get d (VStr "algorithm")) as [a|].
  - apply snapshot_in_range. exact Hwf.
  - intros [= <-]. constructor.
Qed.

(** Where the copy of a configuration keeps its [algorithm]: in a fresh
    object other than the copy itself. *)
Lemma copied_algorithm_fresh (h h1 : heap) (m : memo) (c c' : loc)
    (cd : list (val * val)) :
  copy_inv h (fun _ => False) h1 m ->
  memo_get m c = Some c' -> h !! c = Some (ODict cd) ->
  obj_covered m (ODict cd) ->
  assoc_get cd (VStr "algorithm") <> Some (VRef c) ->
  forall a', assoc_get (ren_entries m cd) (VStr "algorithm") = Some (VRef a') ->
    (length h <= a')%nat /\ a' <> c'.
Proof.
  intros Hinv Hc Hcd Hcov Hns a'. rewrite assoc_get_ren_entries.
  destruct (assoc_get cd (VStr "algorithm")) as [v|] eqn:Ev; simpl; [| discriminate].
  destruct (assoc_get_In _ _ _ Ev) as [k' Hin].
  simpl in Hcov. rewrite Forall_forall in Hcov.
  specialize (Hcov (k', v) (proj2 (list_elem_of_In _ _) Hin)). simpl in Hcov.
  destruct v as [| | | | a]; simpl; try discriminate.
  destruct Hcov as [b Hb]. rewrite Hb. intros [= <-].
  destruct (ci_range _ _ _ _ Hinv _ _ Hb) as [_ [Hge _]].
  split; [exact Hge |].
  intros ->. apply Hns. f_equal. f_equal.
  eapply (ci_inj _ _ _ _ Hinv); eauto.
Qed.

(** What a merge that returns has done to the store: the objects that were
    there are untouched, the store is still well formed, and the
    configuration returned is again one whose [algorithm] is not itself. *)
Lemma merge_effect (h h' : heap) (config lane_info cfg' : val) :
  wf_heap h = true -> val_inb (length h) config = true ->
  algorithm_not_self h config ->
  _update_config_w_custom h config lane_info = Ok (h', cfg') ->
  (forall l, (l < length h)%nat -> h' !! l = h !! l) /\
  (length h <= length h')%nat /\ wf_heap h' = true /\
  val_inb (length h') cfg' = true /\ algorithm_not_self h' cfg' /\
  (forall l, cfg' = VRef l -> (length h <= l)%nat).
Proof.
  intros Hwf Hin Hns. unfold _update_config_w_custom.
  destruct (deepcopy_correct h Hwf config Hin) as (h1 & m & E & Hinv & Hcov).
  rewrite E; simpl.
  destruct (py_get h1 lane_info (VStr "analysis") VNone) as [base|]; simpl;
    [| discriminate].
  destruct (name_remaps_get base) as [types|] eqn:Et; simpl; [| discriminate].
  destruct (overlay_custom (ren m config) types h1) as [h2|] eqn:E2; simpl;
    [| discriminate].
  destruct (lane_algorithm_items h2 lane_info) as [items|] eqn:Ei; simpl;
    [| discriminate].
  destruct (overlay_items (ren m config) items h2) as [h3|] eqn:E3; simpl;
    [| discriminate].
  intros [= <- <-].
  apply name_remaps_get_nonempty in Et.
  destruct types as [|t types]; [congruence |].
  destruct config as [| | | | c]; try (simpl in E2; discriminate).
  destruct Hcov as [c' Hc']. unfold ren in E2, E3 |- *.
  rewrite Hc' in E2, E3 |- *.
  destruct (ci_done _ _ _ _ Hinv c c' Hc') as (o & Ho & H1c & Hoc); [tauto |].
  destruct o as [cd | xs].
  2:{ simpl in E2. unfold py_getitem, as_dict in E2. rewrite H1c in E2.
      discriminate. }
  simpl in H1c.
  pose proof (copied_algorithm_fresh _ _ _ _ _ _ Hinv Hc' Ho Hoc
                (Hns c cd eq_refl Ho)) as Hfresh.
  assert (Hne : forall a, assoc_get (ren_entries m cd) (VStr "algorithm")
                          = Some (VRef a) -> a <> c')
    by (intros a Ha; apply (Hfresh a Ha)).
  pose proof (copy_inv_wf _ _ _ Hwf Hinv) as Hwf1.
  pose proof (overlay_custom_update _ _ _ _ _ Hwf1 H1c Hne E2) as U2.
  pose proof (alg_update_wf _ _ _ U2 Hwf1) as Hwf2.
  assert (H2c : h2 !! c' = Some (ODict (ren_entries m cd)))
    by (rewrite (alg_update_other _ _ _ c' U2); auto).
  assert (U3 : alg_update (ren_entries m cd) h2 h3).
  { apply (overlay_items_update c' _ items h2 h3 H2c Hne); [| exact E3].
    eapply Forall_impl; [eapply lane_algorithm_items_in_range; eauto |].
    simpl. tauto. }
  pose proof (alg_update_trans _ _ _ _ U2 U3) as U.
  pose proof (alg_update_length _ _ _ U) as Hlen.
  destruct (ci_range _ _ _ _ Hinv _ _ Hc') as [_ [_ Hc'lt]].
  splits.
  - intros l Hl. rewrite (alg_update_other _ _ _ l U).
    + apply (ci_old _ _ _ _ Hinv). exact Hl.
    + intros a Ha. destruct (Hfresh a Ha). lia.
  - rewrite Hlen. apply (ci_len _ _ _ _ Hinv).
  - eauto using alg_update_wf.
  - apply Nat.ltb_lt. lia.
  - intros c0 cd0 [= <-]. rewrite (alg_update_other _ _ _ c' U) by auto.
    rewrite H1c. intros [= <-] Hself. exact (Hne _ Hself eq_refl).
  - intros l [= <-]. destruct (ci_range _ _ _ _ Hinv _ _ Hc'). lia.
Qed.

(** ** The merge returns *)

Lemma get_dict_Some (h : heap) (v : val) (d : list (val * val)) :
  get_dict h v = Some d <-> exists l, v = VRef l /\ h !! l = Some (ODict d).
Proof.
  unfold get_dict. split.
  - destruct v as [| | | | l]; try discriminate.
    destruct (h !! l) as [[d' | xs] |] eqn:E; try discriminate.
    intros [= <-]. eauto.
  - intros (l & -> & ->). reflexivity.
Qed.

Lemma config_okb_inv (h : heap) (config : val) (types : list val) :
  config_okb h config types = true ->
  exists c cd a ca ad cad,
    config = VRef c /\ h !! c = Some (ODict cd) /\
    assoc_get cd (VStr "algorithm") = Some (VRef a) /\
    assoc_get cd (VStr "custom_algorithms") = Some (VRef ca) /\
    a <> c /\ ca <> a /\
    h !! a = Some (ODict ad) /\ h !! ca = Some (ODict cad) /\
    Forall (fun t => bundle_okb h (assoc_get cad t) = true) types.
Proof.
  unfold config_okb. destruct config as [| | | | c]; try discriminate.
  destruct (get_dict h (VRef c)) as [cd|] eqn:Ec; [| discriminate].
  apply get_dict_Some in Ec as (c0 & [= <-] & Hc).
  destruct (assoc_get cd (VStr "algorithm")) as [[| | | | a]|] eqn:Ealg;
    try discriminate.
  destruct (assoc_get cd (VStr "custom_algorithms")) as [[| | | | ca]|] eqn:Ecus;
    try discriminate.
  rewrite !andb_true_iff, !negb_true_iff, !Nat.eqb_neq, bool_decide_eq_true.
  intros [[[Hac Hca] [ad Had]] Hb].
  apply get_dict_Some in Had as (a0 & [= <-] & Ha).
  destruct (get_dict h (VRef ca)) as [cad|] eqn:Eca; [| discriminate].
  apply get_dict_Some in Eca as (ca0 & [= <-] & Hcad).
  exists c, cd, a, ca, ad, cad. splits; auto.
  apply Forall_forall. intros t Ht. rewrite forallb_forall in Hb.
  apply Hb. apply list_elem_of_In. exact Ht.
Qed.

Lemma bundle_okb_update (cd : list (val * val)) (h h' : heap) (ov : option val) :
  alg_update cd h h' -> bundle_okb h ov = true -> bundle_okb h' ov = true.
Proof.
  intros U. destruct ov as [[| | | | l]|]; simpl; auto.
  pose proof (alg_update_kind _ _ _ l U) as K.
  destruct (h !! l) as [[d | xs] |]; [| | discriminate].
  - destruct K as [d' ->]. auto.
  - destruct K as (xs' & -> & Hlen). intros ->%bool_decide_eq_true.
    apply bool_decide_eq_true. destruct xs'; [reflexivity | discriminate].
Qed.

Lemma overlay_custom_total (c a ca : loc) (cd cad : list (val * val))
    (types : list val) :
  assoc_get cd (VStr "algorithm") = Some (VRef a) -> a <> c ->
  assoc_get cd (VStr "custom_algorithms") = Some (VRef ca) -> ca <> a ->
  forall h ad,
    wf_heap h = true ->
    h !! c = Some (ODict cd) -> h !! ca = Some (ODict cad) ->
    h !! a = Some (ODict ad) ->
    Forall (fun t => hashable t = true /\ bundle_okb h (assoc_get cad t) = true)
           types ->
    exists h', overlay_custom (VRef c) types h = Ok h'.
Proof.
  intros Halg Hac Hcus Hca.
  assert (Hne : forall a0, assoc_get cd (VStr "algorithm") = Some (VRef a0) -> a0 <> c)
    by (intros a0 Ha0; congruence).
  induction types as [|t types IH]; intros h ad Hwf Hc Hcad Ha Hty; simpl; [eauto |].
  inversion Hty as [|? ? [Ht Hb] Hrest]; subst.
  unfold py_getitem at 1. unfold as_dict. rewrite Hc; simpl. rewrite Hcus; simpl.
  unfold py_get, as_dict. rewrite Hcad; simpl. rewrite Ht.
  assert (Hnext : forall h1, alg_update cd h h1 ->
            exists h', overlay_custom (VRef c) types h1 = Ok h').
  { intros h1 U.
    pose proof (alg_update_kind _ _ _ a U) as K. rewrite Ha in K.
    destruct K as [ad1 Ha1].
    apply (IH h1 ad1); eauto using alg_update_wf.
    - rewrite (alg_update_other _ _ _ c U); auto.
    - rewrite (alg_update_other _ _ _ ca U); auto. intros a0 Ha0. congruence.
    - eapply Forall_impl; [exact Hrest |]. simpl.
      intros t' [Ht' Hb']. split; eauto using bundle_okb_update. }
  destruct (assoc_get cad t) as [custom|] eqn:Et; simpl.
  2:{ apply Hnext. apply alg_update_refl. }
  destruct (truthy h custom) eqn:Etr; simpl.
  2:{ apply Hnext. apply alg_update_refl. }
  simpl in Hb. destruct custom as [| | | | l]; simpl in Hb, Etr;
    try (rewrite Etr in Hb; discriminate); try discriminate.
  destruct (h !! l) as [[d | xs] |] eqn:El; try discriminate.
  2:{ apply bool_decide_eq_true in Hb. subst xs. discriminate. }
  unfold py_iteritems, as_dict. rewrite El; simpl.
  pose proof (wf_heap_lookup _ _ _ Hwf El) as Hd. simpl in Hd.
  rewrite (overlay_items_run h c a cd ad d Hc Halg Hac Ha).
  2:{ eapply Forall_impl; [apply (dict_okb_entries _ _ Hd) |]. simpl. tauto. }
  simpl. apply Hnext.
  right. exists a, (ODict ad), (ODict (fold_left set_entry d ad)).
  splits; simpl; auto.
  intros Hok. apply fold_set_entry_okb; auto. apply dict_okb_entries. exact Hd.
Qed.

Lemma name_remaps_get_hashable (base_name : val) (types : list val) :
  name_remaps_get base_name = Ok types ->
  Forall (fun t => hashable t = true) types.
Proof.
  unfold name_remaps_get. destruct (hashable base_name) eqn:Hb; [| discriminate].
  destruct (key_eqb _ _); [intros [= <-]; repeat constructor |].
  destruct (key_eqb _ _); intros [= <-]; repeat constructor. exact Hb.
Qed.

Lemma bundle_okb_ren (h h1 : heap) (m : memo) (ov : option val) :
  copy_inv h (fun _ => False) h1 m ->
  match ov with Some v => covered m v | None => True end ->
  bundle_okb h ov = true -> bundle_okb h1 (option_map (ren m) ov) = true.
Proof.
  intros Hinv Hcov. destruct ov as [[| | | | l]|]; simpl; auto.
  destruct Hcov as [l' Hl']. rewrite Hl'.
  destruct (ci_done _ _ _ _ Hinv l l' Hl') as (o & Ho & Hl1 & _); [tauto |].
  rewrite Ho, Hl1. destruct o as [d | xs]; simpl; auto.
  intros ->%bool_decide_eq_true. reflexivity.
Qed.

(** On the inputs of the data model the merge returns, and its result is the
    store after the bundle overlays with the sample's own entries written,
    in order, into the copy's [algorithm] dictionary. *)
Lemma merge_run (h : heap) (config lane_info : val) :
  merge_okb h config lane_info = true ->
  exists c c' a' cd' ad2 items h1 h2 m,
    config = VRef c /\ copy_inv h (fun _ => False) h1 m /\
    memo_get m c = Some c' /\
    overlay_custom (VRef c') (sample_types h lane_info) h1 = Ok h2 /\
    _update_config_w_custom h config lane_info
    = Ok (<[a' := ODict (fold_left set_entry items ad2)]> h2, VRef c') /\
    h2 !! c' = Some (ODict cd') /\
    assoc_get cd' (VStr "algorithm") = Some (VRef a') /\ a' <> c' /\
    h2 !! a' = Some (ODict ad2) /\
    lane_algorithm_items h lane_info = Ok items /\
    dict_okb (length h) items = true.
Proof.
  unfold merge_okb. rewrite !andb_true_iff. intros [[Hwf Hcfg] Hs].
  apply config_okb_inv in Hcfg
    as (c & cd & a & ca & ad & cad & -> & Hc & Halg & Hcus & Hac & Hca & Ha & Hcad & Hb).
  assert (Hin : val_inb (length h) (VRef c) = true).
  { simpl. apply Nat.ltb_lt. eapply lookup_lt_Some; eauto. }
  destruct (deepcopy_correct h Hwf (VRef c) Hin) as (h1 & m & E & Hinv & [c' Hc']).
  simpl in E. rewrite Hc' in E.
  (* the copy of the configuration and of its two sub-mappings *)
  destruct (ci_done _ _ _ _ Hinv c c' Hc') as (o & Ho & H1c & Hoc); [tauto |].
  rewrite Hc in Ho. injection Ho as <-. simpl in H1c, Hoc.
  rewrite Forall_forall in Hoc.
  assert (Hval : forall k v, assoc_get cd k = Some v -> covered m v).
  { intros k v Hk. destruct (assoc_get_In _ _ _ Hk) as [k' Hin'].
    apply (Hoc (k', v)). apply list_elem_of_In. exact Hin'. }
  destruct (Hval _ _ Halg) as [a' Ha'].
  destruct (Hval _ _ Hcus) as [ca' Hca'].
  destruct (ci_done _ _ _ _ Hinv a a' Ha') as (o & Ho & H1a & _); [tauto |].
  rewrite Ha in Ho. injection Ho as <-. simpl in H1a.
  destruct (ci_done _ _ _ _ Hinv ca ca' Hca') as (o & Ho & H1ca & Hcadc); [tauto |].
  rewrite Hcad in Ho. injection Ho as <-. simpl in H1ca, Hcadc.
  rewrite Forall_forall in Hcadc.
  assert (Hac' : a' <> c').
  { intros ->. apply Hac. eapply (ci_inj _ _ _ _ Hinv); eauto. }
  assert (Hca'a' : ca' <> a').
  { intros ->. apply Hca. eapply (ci_inj _ _ _ _ Hinv); eauto. }
  assert (Halg' : assoc_get (ren_entries m cd) (VStr "algorithm") = Some (VRef a')).
  { rewrite assoc_get_ren_entries, Halg. simpl. rewrite Ha'. reflexivity. }
  assert (Hcus' : assoc_get (ren_entries m cd) (VStr "custom_algorithms")
                  = Some (VRef ca')).
  { rewrite assoc_get_ren_entries, Hcus. simpl. rewrite Hca'. reflexivity. }
  destruct (ci_range _ _ _ _ Hinv _ _ Ha') as [_ [Ha'ge _]].
  pose proof (copy_inv_wf _ _ _ Hwf Hinv) as Hwf1.
  (* the sample descriptor is read as it was *)
  unfold sample_okb in Hs.
  destruct (get_dict h lane_info) as [ld|] eqn:Eld; [| discriminate].
  apply get_dict_Some in Eld as (li & -> & Hli).
  pose proof (lookup_lt_Some _ _ _ Hli) as Hlilt.
  apply andb_true_iff in Hs as [Hana Hlalg].
  assert (H1li : h1 !! li = Some (ODict ld))
    by (rewrite (ci_old _ _ _ _ Hinv) by exact Hlilt; exact Hli).
  unfold sample_types, py_get, as_dict in Hb. rewrite Hli in Hb. simpl in Hb.
  unfold _update_config_w_custom. rewrite E; simpl.
  unfold py_get, as_dict. rewrite H1li; simpl.
  set (base := match assoc_get ld (VStr "analysis") with Some x => x | None => VNone end).
  assert (Hbase : (match assoc_get ld (VStr "analysis") with
                   | Some x => Ok x | None => Ok VNone end) = @Ok val base).
  { subst base. destruct (assoc_get ld (VStr "analysis")); reflexivity. }
  rewrite Hbase in Hb |- *. simpl.
  assert (Hhb : hashable base = true).
  { subst base. destruct (assoc_get ld (VStr "analysis")); auto. }
  destruct (name_remaps_get base) as [types|] eqn:Et.
  2:{ unfold name_remaps_get in Et. rewrite Hhb in Et.
      repeat destruct (key_eqb _ _); discriminate. }
  simpl.
  assert (Hst : sample_types h (VRef li) = types).
  { unfold sample_types, py_get, as_dict. rewrite Hli. simpl.
    rewrite Hbase, Et. reflexivity. }
  (* the bundle overlays *)
  destruct (overlay_custom_total c' a' ca' (ren_entries m cd) (ren_entries m cad)
              types Halg' Hac' Hcus' Hca'a' h1 (ren_entries m ad))
    as [h2 E2]; auto.
  { pose proof (name_remaps_get_hashable _ _ Et) as Hty.
    rewrite Forall_forall in Hb, Hty. apply Forall_forall. intros t Ht.
    split; [auto |]. rewrite assoc_get_ren_entries.
    apply (bundle_okb_ren h h1 m); auto.
    destruct (assoc_get cad t) as [v|] eqn:Ev; [| exact I].
    destruct (assoc_get_In _ _ _ Ev) as [k' Hin'].
    apply (Hcadc (k', v)). apply list_elem_of_In. exact Hin'. }
  rewrite E2; simpl.
  assert (Hne : forall a0, assoc_get (ren_entries m cd) (VStr "algorithm")
                           = Some (VRef a0) -> a0 <> c')
    by (intros a0 Ha0; congruence).
  pose proof (overlay_custom_update _ _ _ _ _ Hwf1 H1c Hne E2) as U.
  assert (Hold2 : forall l, (l < length h)%nat -> h2 !! l = h !! l).
  { intros l Hl. rewrite (alg_update_other _ _ _ l U).
    - apply (ci_old _ _ _ _ Hinv). exact Hl.
    - intros a0 Ha0. assert (a0 = a') by congruence. lia. }
  assert (H2c : h2 !! c' = Some (ODict (ren_entries m cd)))
    by (rewrite (alg_update_other _ _ _ c' U); auto).
  pose proof (alg_update_kind _ _ _ a' U) as K. rewrite H1a in K.
  destruct K as [ad2 H2a].
  (* the sample's own entries *)
  assert (Hitems : exists items,
            lane_algorithm_items h (VRef li) = Ok items /\
            lane_algorithm_items h2 (VRef li) = Ok items /\
            dict_okb (length h) items = true).
  { unfold lane_algorithm_items, as_dict. rewrite Hli, (Hold2 li Hlilt), Hli. simpl.
    destruct (assoc_get ld (VStr "algorithm")) as [v|]; [| exists []; auto].
    apply bool_decide_eq_true in Hlalg as [lad Hlad].
    apply get_dict_Some in Hlad as (la & -> & Hla).
    pose proof (lookup_lt_Some _ _ _ Hla) as Hlalt.
    exists lad. unfold py_iteritems, as_dict. rewrite (Hold2 la Hlalt), Hla.
    splits; auto. apply (wf_heap_lookup _ _ _ Hwf Hla). }
  destruct Hitems as (items & Hit & Hit2 & Hok).
  rewrite Hit2; simpl.
  rewrite (overlay_items_run h2 c' a' _ ad2 items H2c Halg' Hac' H2a).
  2:{ eapply Forall_impl; [apply (dict_okb_entries _ _ Hok) |]. simpl. tauto. }
  simpl. exists c, c', a', (ren_entries m cd), ad2, items, h1, h2, m.
  rewrite Hst. splits; auto.
Qed.

Lemma as_dict_exn (h : heap) (v : val) (e e' : exn) (d : list (val * val)) :
  as_dict h v e = Ok d -> as_dict h v e' = Ok d.
Proof.
  unfold as_dict. destruct v as [| | | | l]; try discriminate.
  destruct (h !! l) as [[d' | xs] |]; try discriminate. auto.
Qed.

(** ** Properties of _update_config_w_custom *)

(** C9: a merge that returns has mutated none of its inputs.  Every object
    of the store it was called on (the global configuration, its
    [algorithm] and [custom_algorithms] mappings, the sample descriptor and
    whatever they refer to) is afterwards what it was, and the configuration
    returned is an object that did not exist before.  The store is a Python
    store (hashable distinct keys, no dangling reference) and the
    configuration's [algorithm] is not the configuration itself. *)
Theorem update_config_keeps_inputs :
  forall (h h' : heap) (config lane_info cfg' : val),
    wf_heap h = true -> val_inb (length h) config = true ->
    algorithm_not_selfb h config = true ->
    _update_config_w_custom h config lane_info = Ok (h', cfg') ->
    (forall l o, h !! l = Some o -> h' !! l = Some o) /\
    (forall l, cfg' = VRef l -> h !! l = None /\ is_Some (h' !! l)).
Proof.
  intros * Hwf Hin Hns%algorithm_not_selfb_sound Hrun.
  destruct (merge_effect _ _ _ _ _ Hwf Hin Hns Hrun)
    as (Hold & Hlen & Hwf' & Hin' & _ & Hnew).
  split.
  - intros l o Hl. rewrite Hold; [exact Hl |]. eapply lookup_lt_Some; eauto.
  - intros l ->. split.
    + apply lookup_ge_None. apply Hnew. reflexivity.
    + apply lookup_lt_is_Some. simpl in Hin'. apply Nat.ltb_lt. exact Hin'.
Qed.

Lemma py_getitem_dict (h : heap) (v k x : val) :
  py_getitem h v k = Ok x ->
  exists l d, v = VRef l /\ h !! l = Some (ODict d) /\
              assoc_get d k = Some x /\ hashable k = true.
Proof.
  unfold py_getitem, as_dict. destruct v as [| | | | l]; try discriminate.
  destruct (h !! l) as [[d | xs] |] eqn:El; try discriminate. simpl.
  destruct (hashable k); [| discriminate].
  destruct (assoc_get d k) as [y|] eqn:Ey; [| discriminate].
  intros [= <-]. eauto 10.
Qed.

Lemma copy_entry (m : memo) (d : list (val * val)) (k : val) (l : loc) :
  obj_covered m (ODict d) -> assoc_get d k = Some (VRef l) ->
  exists l', memo_get m l = Some l' /\
             assoc_get (ren_entries m d) k = Some (VRef l').
Proof.
  simpl. rewrite Forall_forall. intros Hcov Hk.
  destruct (assoc_get_In _ _ _ Hk) as [k' Hin].
  destruct (Hcov (k', VRef l) (proj2 (list_elem_of_In _ _) Hin)) as [l' Hl'].
  exists l'. split; [exact Hl' |].
  rewrite assoc_get_ren_entries, Hk. simpl. rewrite Hl'. reflexivity.
Qed.

Lemma overlay_custom_app (config : val) (pre post : list val) (h : heap) :
  overlay_custom config (pre ++ post) h
  = let* h1 := overlay_custom config pre h in overlay_custom config post h1.
Proof.
  revert h. induction pre as [|t pre IH]; intros h; simpl; [reflexivity |].
  destruct (py_getitem h config (VStr "custom_algorithms")) as [ca|]; simpl;
    [| reflexivity].
  destruct (py_get h ca t VNone) as [custom|]; simpl; [| reflexivity].
  destruct (if truthy h custom then _ else _) as [h1|]; simpl; [| reflexivity].
  apply IH.
Qed.

(** The sample's own entries win. *)
Lemma update_config_sample_wins :
  forall (h : heap) (config lane_info la x v : val),
    merge_okb h config lane_info = true ->
    py_getitem h lane_info (VStr "algorithm") = Ok la ->
    py_getitem h la x = Ok v ->
    exists h' cfg' alg',
      _update_config_w_custom h config lane_info = Ok (h', cfg') /\
      py_getitem h' cfg' (VStr "algorithm") = Ok alg' /\
      py_getitem h' alg' x = Ok v.
Proof.
  intros * Hok Hla Hx.
  destruct (merge_run _ _ _ Hok)
    as (c & c' & a' & cd' & ad2 & items & h1 & h2 & m & _ & _ & _ & _
        & E & H2c & Halg & Hne & H2a & Hit & Hdok).
  (* the entries written last are those of [la] *)
  assert (Hget : assoc_get items x = Some v /\ hashable x = true).
  { unfold py_getitem, as_dict in Hla.
    unfold lane_algorithm_items, as_dict in Hit.
    destruct lane_info as [| | | | li]; try discriminate.
    destruct (h !! li) as [[ld | xs] |]; try discriminate. simpl in Hla, Hit.
    destruct (assoc_get ld (VStr "algorithm")) as [la0|]; [| discriminate].
    injection Hla as ->.
    unfold py_iteritems in Hit. unfold py_getitem in Hx.
    rewrite (as_dict_exn _ _ _ TypeError _ Hit) in Hx. simpl in Hx. destruct (hashable x); [| discriminate].
    destruct (assoc_get items x); [| discriminate]. injection Hx as ->. auto. }
  destruct Hget as [Hget Hhx].
  pose proof (lookup_lt_Some _ _ _ H2a) as Hlt.
  eexists _, _, (VRef a'). split; [exact E |]. split.
  - unfold py_getitem, as_dict. rewrite list_lookup_insert_ne by exact Hne.
    rewrite H2c; simpl. rewrite Halg. reflexivity.
  - unfold py_getitem, as_dict. rewrite list_lookup_insert_eq by exact Hlt.
    simpl. rewrite Hhx. rewrite (fold_set_entry_get _ _ _ _ _ Hdok Hget).
    reflexivity.
Qed.

(** Where the sample is silent, the bundle of the last analysis type wins
    over the global [algorithm]. *)
Lemma update_config_bundle_wins :
  forall (h : heap) (config lane_info cav bv t x v : val) (pre : list val)
         (items : list (val * val)),
    merge_okb h config lane_info = true ->
    sample_types h lane_info = pre ++ [t] ->
    py_getitem h config (VStr "custom_algorithms") = Ok cav ->
    py_getitem h cav t = Ok bv ->
    py_getitem h bv x = Ok v -> hashable v = true ->
    py_getitem h config (VStr "algorithm") <> Ok bv ->
    lane_algorithm_items h lane_info = Ok items ->
    assoc_get items x = None ->
    exists h' cfg' alg',
      _update_config_w_custom h config lane_info = Ok (h', cfg') /\
      py_getitem h' cfg' (VStr "algorithm") = Ok alg' /\
      py_getitem h' alg' x = Ok v.
Proof.
  intros * Hok Hty Hcav Hbv Hx Hv Hnalias Hitems Hsilent.
  destruct (merge_run _ _ _ Hok)
    as (c & c' & a' & cd' & ad2 & items0 & h1 & h2 & m & -> & Hinv & Hc' & E2
        & E & H2c & Halg' & Hne & H2a & Hit & Hdok).
  rewrite Hitems in Hit. injection Hit as <-.
  rewrite Hty, overlay_custom_app in E2.
  destruct (overlay_custom (VRef c') pre h1) as [hm|] eqn:Epre; [| discriminate].
  simpl in E2.
  (* the objects of the configuration and their copies *)
  apply py_getitem_dict in Hcav as (c0 & cd & [= <-] & Hc & Hcus & _).
  apply py_getitem_dict in Hbv as (ca & cad & -> & Hca & Hb & Ht).
  apply py_getitem_dict in Hx as (b & bd & -> & Hbd & Hbx & Hhx).
  destruct (ci_done _ _ _ _ Hinv c c' Hc') as (o & Ho & H1c & Hcdc); [tauto |].
  rewrite Hc in Ho. injection Ho as <-. simpl in H1c.
  destruct (copy_entry _ _ _ _ Hcdc Hcus) as (ca' & Hca' & Hcus').
  destruct (ci_done _ _ _ _ Hinv ca ca' Hca') as (o & Ho & H1ca & Hcadc); [tauto |].
  rewrite Hca in Ho. injection Ho as <-. simpl in H1ca.
  destruct (copy_entry _ _ _ _ Hcadc Hb) as (b' & Hb' & Hbt').
  destruct (ci_done _ _ _ _ Hinv b b' Hb') as (o & Ho & H1b & Hbdc); [tauto |].
  rewrite Hbd in Ho. injection Ho as <-. simpl in H1b.
  (* the configuration copy is the same dictionary in [h1] and [h2] *)
  unfold merge_okb in Hok. rewrite !andb_true_iff in Hok.
  destruct Hok as [[Hwf Hcfg] _].
  pose proof (copy_inv_wf _ _ _ Hwf Hinv) as Hwf1.
  apply config_okb_inv in Hcfg
    as (c0 & cd0 & a & ca0 & ad & cad0 & [= <-] & Hc0 & Halg & Hcus0 & Hac & Hcaa
        & Ha & _ & _).
  rewrite Hc in Hc0. injection Hc0 as <-.
  assert (ca0 = ca) by congruence. subst ca0.
  destruct (copy_entry _ _ _ _ Hcdc Halg) as (a0 & Ha0 & Halg0).
  assert (Hfresh : forall a1, assoc_get (ren_entries m cd) (VStr "algorithm")
                              = Some (VRef a1) -> a1 <> c').
  { intros a1 Ha1. assert (a1 = a0) by congruence. subst a1.
    intros ->. apply Hac. eapply (ci_inj _ _ _ _ Hinv); eauto. }
  pose proof (overlay_custom_update _ _ _ _ _ Hwf1 H1c Hfresh Epre) as U1.
  assert (Hmc : hm !! c' = Some (ODict (ren_entries m cd)))
    by (rewrite (alg_update_other _ _ _ c' U1); auto).
  assert (Hne0 : forall l l', memo_get m l = Some l' -> l <> a -> a0 <> l').
  { intros l l' Hl Hla ->. apply Hla. eapply (ci_inj _ _ _ _ Hinv); eauto. }
  assert (Hmca : hm !! ca' = Some (ODict (ren_entries m cad))).
  { rewrite (alg_update_other _ _ _ ca' U1); auto.
    intros a1 Ha1. assert (a1 = a0) by congruence. subst a1. eauto. }
  assert (Hba : b <> a).
  { intros ->. apply Hnalias. unfold py_getitem, as_dict. rewrite Hc. simpl.
    rewrite Halg. reflexivity. }
  assert (Hmb : hm !! b' = Some (ODict (ren_entries m bd))).
  { rewrite (alg_update_other _ _ _ b' U1); auto.
    intros a1 Ha1. assert (a1 = a0) by congruence. subst a1. eauto. }
  destruct (ci_done _ _ _ _ Hinv a a0 Ha0) as (o & Ho & H1a & _); [tauto |].
  rewrite Ha in Ho. injection Ho as <-. simpl in H1a.
  pose proof (alg_update_kind _ _ _ a0 U1) as K. rewrite H1a in K.
  destruct K as [adm Hma].
  (* the round for [t] writes the bundle into the copy's [algorithm] *)
  assert (Hbdok : dict_okb (length h1) (ren_entries m bd) = true)
    by (apply (wf_heap_lookup _ _ _ Hwf1 H1b)).
  simpl in E2. unfold py_getitem at 1 in E2. unfold as_dict in E2.
  rewrite Hmc in E2. simpl in E2. rewrite Hcus' in E2. simpl in E2.
  unfold py_get, as_dict in E2. rewrite Hmca in E2. simpl in E2.
  rewrite Ht, Hbt' in E2. simpl in E2. unfold py_iteritems, as_dict in E2.
  rewrite Hmb in E2.
  assert (Hnonempty : bool_decide (ren_entries m bd = []) = false).
  { apply bool_decide_eq_false. destruct bd; [discriminate | discriminate]. }
  rewrite Hnonempty in E2. simpl in E2.
  assert (Hac0 : a0 <> c') by (apply Hfresh; exact Halg0).
  rewrite (overlay_items_run hm c' a0 _ adm _ Hmc Halg0 Hac0 Hma) in E2.
  2:{ eapply Forall_impl; [apply (dict_okb_entries _ _ Hbdok) |]. simpl. tauto. }
  simpl in E2. injection E2 as <-.
  (* reading the result *)
  assert (a' = a0).
  { rewrite list_lookup_insert_ne in H2c by exact Hac0.
    rewrite Hmc in H2c. injection H2c as <-. congruence. }
  subst a'.
  pose proof (lookup_lt_Some _ _ _ Hma) as Hlt.
  rewrite list_lookup_insert_eq in H2a by exact Hlt. injection H2a as <-.
  eexists _, _, (VRef a0). split; [exact E |]. split.
  - unfold py_getitem, as_dict. rewrite list_lookup_insert_ne by exact Hne.
    rewrite list_lookup_insert_ne by exact Hac0. rewrite Hmc. simpl.
    rewrite Halg0. reflexivity.
  - unfold py_getitem, as_dict.
    rewrite list_lookup_insert_eq by (rewrite length_insert; exact Hlt).
    simpl. rewrite Hhx. rewrite fold_set_entry_keep by exact Hsilent.
    rewrite (fold_set_entry_get (length h1) _ _ x v Hbdok).
    + reflexivity.
    + rewrite assoc_get_ren_entries, Hbx. simpl.
      rewrite (ren_hashable _ _ Hv). reflexivity.
Qed.

(** C6: on a configuration of the data model the merge returns, and the
    configuration returned holds under [algorithm.x] the value of the
    sample's own [algorithm] mapping when that sets [x], whatever the global
    configuration and the bundles say about [x]; when the sample is silent
    about [x], it holds the value of the bundle of the last resolved analysis
    type when that sets [x], whatever the global configuration says.  Sample
    entries are written after the bundles, and both onto the copy of the
    global [algorithm]. *)
Theorem update_config_precedence :
  forall (h : heap) (config lane_info x : val),
    merge_okb h config lane_info = true ->
    (forall la v,
       py_getitem h lane_info (VStr "algorithm") = Ok la ->
       py_getitem h la x = Ok v ->
       exists h' cfg' alg',
         _update_config_w_custom h config lane_info = Ok (h', cfg') /\
         py_getitem h' cfg' (VStr "algorithm") = Ok alg' /\
         py_getitem h' alg' x = Ok v) /\
    (forall cav bv t v pre items,
       sample_types h lane_info = pre ++ [t] ->
       py_getitem h config (VStr "custom_algorithms") = Ok cav ->
       py_getitem h cav t = Ok bv ->
       py_getitem h bv x = Ok v -> hashable v = true ->
       py_getitem h config (VStr "algorithm") <> Ok bv ->
       lane_algorithm_items h lane_info = Ok items ->
       assoc_get items x = None ->
       exists h' cfg' alg',
         _update_config_w_custom h config lane_info = Ok (h', cfg') /\
         py_getitem h' cfg' (VStr "algorithm") = Ok alg' /\
         py_getitem h' alg' x = Ok v).
Proof.
  intros * Hok. split.
  - intros. eapply update_config_sample_wins; eauto.
  - intros. eapply update_config_bundle_wins; eauto.
Qed.

(** * Lane names *)

Lemma str_app_cons (a : ascii) (s t : string) :
  String a s +:+ t = String a (s +:+ t).
Proof. reflexivity. Qed.

Lemma str_app_nil_l (t : string) : "" +:+ t = t.
Proof. reflexivity. Qed.

Lemma str_app_nil_r (s : string) : s +:+ "" = s.
Proof.
  induction s as [|a s IH]; [reflexivity |]. rewrite str_app_cons, IH. reflexivity.
Qed.

Lemma str_app_assoc (s1 s2 s3 : string) :
  (s1 +:+ s2) +:+ s3 = s1 +:+ (s2 +:+ s3).
Proof.
  induction s1 as [|a s1 IH]; [reflexivity |].
  rewrite !str_app_cons, IH. reflexivity.
Qed.




(** * The loop of process_lane *)

Lemma as_dict_frame (n : nat) (h h1 : heap) (v : val) (e : exn) :
  (forall l, (l < n)%nat -> h1 !! l = h !! l) -> val_inb n v = true ->
  as_dict h1 v e = as_dict h v e.
Proof.
  intros Hold Hv. destruct v as [| | | | l]; try reflexivity.
  simpl in *. apply Nat.ltb_lt in Hv. rewrite (Hold l Hv). reflexivity.
Qed.

Lemma py_getitem_frame (n : nat) (h h1 : heap) (v k : val) :
  (forall l, (l < n)%nat -> h1 !! l = h !! l) -> val_inb n v = true ->
  py_getitem h1 v k = py_getitem h v k.
Proof.
  intros Hold Hv. unfold py_getitem. rewrite (as_dict_frame n h h1); auto.
Qed.


Lemma loop_inv_frame (h h1 : heap) (config : val) :
  loop_inv h config -> wf_heap h1 = true ->
  (forall l, (l < length h)%nat -> h1 !! l = h !! l) ->
  (length h <= length h1)%nat ->
  loop_inv h1 config.
Proof.
  intros (Hwf & Hin & Hns) Hwf1 Hold Hlen. unfold loop_inv. splits; auto.
  - eapply val_inb_mono; eauto.
  - intros c cd -> Hc. simpl in Hin. apply Nat.ltb_lt in Hin.
    rewrite Hold in Hc by exact Hin. eapply Hns; eauto.
Qed.

Lemma bc_has_key_hashable (bc : bc_map) (b : val) (present : bool) :
  bc_has_key bc b = Ok present -> hashable b = true.
Proof. unfold bc_has_key. destruct (hashable b); [auto | discriminate]. Qed.

Section lane_properties.
Variable repr_obj : heap -> loc -> string.
Variable get_fastq_files :
  heap -> val -> val -> val -> val -> val -> val -> res (val * val).
Variable split_by_barcode :
  heap -> val -> val -> list val -> string -> val -> val -> res bc_map.
Variable safe_makedir : string -> res string.
Variable split_read_files :
  heap -> val -> val -> val -> val -> string -> val -> val -> res (list split_unit).

Local Notation prep := (_prep_fastq_files safe_makedir split_read_files).
Local Notation record := (lane_record repr_obj).
Local Notation units_loop := (lane_units repr_obj).
Local Notation loop := (lane_loop repr_obj safe_makedir split_read_files).
Local Notation sample_recs :=
  (sample_records repr_obj safe_makedir split_read_files).
Local Notation rounds := (lane_rounds repr_obj safe_makedir split_read_files).
Local Notation lane :=
  (process_lane repr_obj get_fastq_files split_by_barcode safe_makedir split_read_files).

Lemma py_str_atom (h : heap) (v : val) :
  hashable v = true -> py_str repr_obj h v = atom_str v.
Proof. destruct v; simpl; auto. discriminate. Qed.

(** One record of the inner loop: the sample, the configuration of the
    round, and the lane name built from the barcode id and the split index. *)
Lemma lane_record_shape (h : heap) (item dirs config : val) (lane_name : string)
    (u : split_unit) (r : dispatch) :
  record h item lane_name dirs config u = Ok r ->
  d_info r = item /\ d_config r = config /\
  exists b, py_getitem h item (VStr "barcode_id") = Ok b /\
    (hashable b = true -> hashable (unit_ext u) = true ->
     d_lane_name r = VStr ((lane_name +:+ bc_suffix b) +:+ ext_suffix (unit_ext u))).
Proof.
  unfold lane_record. destruct u as [[fastq1 fastq2] lane_ext].
  destruct (py_getitem h item (VStr "description")) as [desc|]; simpl;
    [| discriminate].
  destruct (py_get h item (VStr "name") (VStr "")) as [name|]; simpl;
    [| discriminate].
  destruct (if truthy h name then _ else _) as [short|]; simpl; [| discriminate].
  destruct (if short then _ else _) as [cur_lane_desc|]; simpl; [| discriminate].
  destruct (py_getitem h item (VStr "barcode_id")) as [b|]; simpl; [| discriminate].
  intros [= <-]. simpl. splits; auto. exists b. split; [reflexivity |].
  intros Hb He. unfold unit_ext, bc_suffix, ext_suffix. simpl.
  rewrite !py_str_atom by assumption.
  destruct (is_not_none b); destruct (is_not_none lane_ext);
    rewrite ?str_app_nil_r; reflexivity.
Qed.

Lemma lane_units_shape (h : heap) (item dirs config b : val) (lane_name : string)
    (units : list split_unit) :
  py_getitem h item (VStr "barcode_id") = Ok b ->
  forall out out',
    units_loop h item lane_name dirs config units out = Ok out' ->
    exists rs, out' = out ++ rs /\
      Forall (fun r => d_info r = item /\ d_config r = config) rs /\
      (hashable b = true ->
       Forall (fun u => hashable (unit_ext u) = true) units ->
       map d_lane_name rs
       = map (fun u => VStr ((lane_name +:+ bc_suffix b)
                              +:+ ext_suffix (unit_ext u))) units).
Proof.
  intros Hb. induction units as [|u units IH]; intros out out'; simpl.
  - intros [= <-]. exists []. rewrite app_nil_r. splits; auto.
  - destruct (record h item lane_name dirs config u) as [r|] eqn:Er; simpl;
      [| discriminate].
    intros Hrun. destruct (IH _ _ Hrun) as (rs & -> & Hrs & Hnames).
    destruct (lane_record_shape _ _ _ _ _ _ _ Er) as (Hi & Hc & b' & Hb' & Hname).
    assert (b' = b) by congruence. subst b'.
    exists (r :: rs). rewrite <- app_assoc. splits; auto.
    intros Hhb Hu. inversion Hu; subst. simpl.
    rewrite Hname, Hnames; auto.
Qed.

(** One record per split unit, with the fields of its round. *)
Lemma lane_record_fields (h : heap) (item dirs config : val) (lane_name : string)
    (u : split_unit) (r : dispatch) :
  record h item lane_name dirs config u = Ok r ->
  record_of lane_name dirs (item, config, u) r.
Proof.
  unfold lane_record. destruct u as [[fastq1 fastq2] lane_ext].
  destruct (py_getitem h item (VStr "description")) as [desc|]; simpl;
    [| discriminate].
  destruct (py_get h item (VStr "name") (VStr "")) as [name|]; simpl;
    [| discriminate].
  destruct (if truthy h name then _ else _) as [short|]; simpl; [| discriminate].
  destruct (if short then _ else _) as [cur_lane_desc|]; simpl; [| discriminate].
  destruct (py_getitem h item (VStr "barcode_id")) as [b|]; simpl; [| discriminate].
  intros [= <-]. unfold record_of. simpl. splits; auto.
  destruct (is_not_none b); destruct (is_not_none lane_ext).
  - eexists. rewrite !str_app_assoc. reflexivity.
  - eexists. reflexivity.
  - eexists. reflexivity.
  - exists "". rewrite str_app_nil_r. reflexivity.
Qed.

Lemma lane_units_records (h : heap) (item dirs config : val) (lane_name : string)
    (units : list split_unit) :
  forall out out',
    units_loop h item lane_name dirs config units out = Ok out' ->
    exists rs, out' = out ++ rs /\
      Forall2 (record_of lane_name dirs) (map (fun u => (item, config, u)) units) rs.
Proof.
  induction units as [|u units IH]; intros out out'; simpl.
  - intros [= <-]. exists []. rewrite app_nil_r. split; [reflexivity | constructor].
  - destruct (record h item lane_name dirs config u) as [r|] eqn:Er; simpl;
      [| discriminate].
    intros Hrun. destruct (IH _ _ Hrun) as (rs & -> & Hrs).
    exists (r :: rs). rewrite <- app_assoc. split; [reflexivity |].
    constructor; [| exact Hrs]. eapply lane_record_fields; eauto.
Qed.

(** One round of the loop over the samples. *)
Lemma lane_loop_step (bc : bc_map) (lane_name : string) (dirs item : val)
    (rest : list val) (h h' : heap) (config : val) (out out' : list dispatch) :
  loop_inv h config -> val_inb (length h) item = true ->
  loop bc lane_name dirs (item :: rest) h config out = Ok (h', out') ->
  exists h1 config1 b out1,
    _update_config_w_custom h config item = Ok (h1, config1) /\
    loop_inv h1 config1 /\
    (forall l, (l < length h)%nat -> h1 !! l = h !! l) /\
    (length h <= length h1)%nat /\
    py_getitem h item (VStr "barcode_id") = Ok b /\
    py_getitem h1 item (VStr "barcode_id") = Ok b /\
    hashable b = true /\
    (if bool_decide (is_Some (bc_lookup bc b))
     then exists units,
            prep h1 item bc dirs config1 = Ok units /\
            units_loop h1 item lane_name dirs config1 units out = Ok out1
     else out1 = out) /\
    loop bc lane_name dirs rest h1 config1 out1 = Ok (h', out').
Proof.
  intros (Hwf & Hin & Hns) Hitem. simpl.
  destruct (_update_config_w_custom h config item) as [[h1 config1]|] eqn:Em;
    simpl; [| discriminate].
  destruct (merge_effect _ _ _ _ _ Hwf Hin Hns Em)
    as (Hold & Hlen & Hwf1 & Hin1 & Hns1 & _).
  destruct (py_getitem h1 item (VStr "barcode_id")) as [b|] eqn:Eb; simpl;
    [| discriminate].
  destruct (bc_has_key bc b) as [present|] eqn:Ep; simpl; [| discriminate].
  pose proof (bc_has_key_hashable _ _ _ Ep) as Hhb.
  unfold bc_has_key in Ep. rewrite Hhb in Ep. injection Ep as <-.
  intros Hrun. exists h1, config1, b.
  assert (Hb0 : py_getitem h item (VStr "barcode_id") = Ok b)
    by (rewrite <- (py_getitem_frame (length h) h h1); auto).
  destruct (bool_decide (is_Some (bc_lookup bc b))).
  - destruct (prep h1 item bc dirs config1) as [units|] eqn:Eu; simpl in Hrun;
      [| discriminate].
    destruct (units_loop h1 item lane_name dirs config1 units out) as [out1|] eqn:El;
      simpl in Hrun; [| discriminate].
    exists out1. unfold loop_inv. splits; eauto.
  - simpl in Hrun. exists out. unfold loop_inv. splits; auto.
Qed.

(** The accumulator of the inner loop only grows. *)
Lemma lane_units_acc (h : heap) (item dirs config : val) (lane_name : string)
    (units : list split_unit) :
  forall out,
    units_loop h item lane_name dirs config units out
    = let* rs := units_loop h item lane_name dirs config units [] in
      Ok (out ++ rs).
Proof.
  induction units as [|u units IH]; intros out; simpl.
  - rewrite app_nil_r. reflexivity.
  - destruct (record h item lane_name dirs config u) as [r|]; simpl; [| reflexivity].
    rewrite (IH (out ++ [r])), (IH [r]).
    destruct (units_loop h item lane_name dirs config units []) as [rs|]; simpl;
      [| reflexivity].
    rewrite <- app_assoc. reflexivity.
Qed.

(** The loop is its rounds: what it returns, and what it raises. *)
Lemma lane_loop_rounds_eq (bc : bc_map) (lane_name : string) (dirs : val)
    (items : list val) :
  forall (h : heap) (config : val) (out : list dispatch),
    loop bc lane_name dirs items h config out
    = let* '(h', rss) := rounds bc lane_name dirs items h config in
      Ok (h', out ++ concat rss).
Proof.
  induction items as [|item rest IH]; intros h config out; simpl.
  - rewrite app_nil_r. reflexivity.
  - destruct (_update_config_w_custom h config item) as [[h1 config1]|]; simpl;
      [| reflexivity].
    unfold sample_records.
    destruct (py_getitem h1 item (VStr "barcode_id")) as [b|]; simpl;
      [| reflexivity].
    destruct (bc_has_key bc b) as [[|]|]; simpl; [| | reflexivity].
    + destruct (prep h1 item bc dirs config1) as [units|]; simpl; [| reflexivity].
      rewrite lane_units_acc.
      destruct (units_loop h1 item lane_name dirs config1 units []) as [rs|]; simpl;
        [| reflexivity].
      rewrite IH.
      destruct (rounds bc lane_name dirs rest h1 config1) as [[h' rss]|]; simpl;
        [| reflexivity].
      rewrite app_assoc. reflexivity.
    + rewrite IH.
      destruct (rounds bc lane_name dirs rest h1 config1) as [[h' rss]|]; simpl;
        reflexivity.
Qed.

(** The lists the rounds return, sample by sample: the records of the split
    plan of a sample whose barcode id is a key of the barcode map, nothing
    for the others. *)
Lemma lane_rounds_lists (h0 : heap) (bc : bc_map) (lane_name : string) (dirs : val)
    (items : list val) :
  Forall (fun it => val_inb (length h0) it = true) items ->
  forall (h h' : heap) (config : val) (rss : list (list dispatch)),
    loop_inv h config ->
    (forall l, (l < length h0)%nat -> h !! l = h0 !! l) ->
    (length h0 <= length h)%nat ->
    rounds bc lane_name dirs items h config = Ok (h', rss) ->
    Forall2 (fun item rs =>
               Forall (fun r => d_info r = item) rs /\
               exists b, py_getitem h0 item (VStr "barcode_id") = Ok b /\
                 if bool_decide (is_Some (bc_lookup bc b))
                 then exists hi ci units,
                        prep hi item bc dirs ci = Ok units /\
                        units_loop hi item lane_name dirs ci units [] = Ok rs /\
                        length rs = length units
                 else rs = [])
            items rss.
Proof.
  intros Hit. induction Hit as [|item rest Hitem Hrest IH];
    intros h h' config rss Hinv Hold0 Hlen0; simpl.
  - intros [= <- <-]. constructor.
  - destruct Hinv as (Hwf & Hin & Hns).
    destruct (_update_config_w_custom h config item) as [[h1 config1]|] eqn:Em;
      simpl; [| discriminate].
    destruct (merge_effect _ _ _ _ _ Hwf Hin Hns Em)
      as (Hold & Hlen & Hwf1 & Hin1 & Hns1 & _).
    destruct (sample_recs bc lane_name dirs h1 item config1) as [rs|] eqn:Es;
      simpl; [| discriminate].
    destruct (rounds bc lane_name dirs rest h1 config1) as [[h2 rss']|] eqn:Er;
      simpl; [| discriminate].
    intros [= <- <-].
    assert (Hold1 : forall l, (l < length h0)%nat -> h1 !! l = h0 !! l).
    { intros l Hl. rewrite Hold by lia. apply Hold0. exact Hl. }
    constructor.
    + unfold sample_records in Es.
      destruct (py_getitem h1 item (VStr "barcode_id")) as [b|] eqn:Eb;
        simpl in Es; [| discriminate].
      rewrite (py_getitem_frame (length h0) h0 h1) in Eb by auto.
      destruct (bc_has_key bc b) as [present|] eqn:Ep; simpl in Es; [| discriminate].
      pose proof (bc_has_key_hashable _ _ _ Ep) as Hhb.
      unfold bc_has_key in Ep. rewrite Hhb in Ep. injection Ep as <-.
      destruct (bool_decide (is_Some (bc_lookup bc b))) eqn:Ebd.
      * destruct (prep h1 item bc dirs config1) as [units|] eqn:Eu; simpl in Es;
          [| discriminate].
        assert (Eb1 : py_getitem h1 item (VStr "barcode_id") = Ok b)
          by (rewrite (py_getitem_frame (length h0) h0 h1); auto).
        destruct (lane_units_shape _ _ _ _ _ _ _ Eb1 _ _ Es) as (rs1 & Hrs & Hrs1 & _).
        simpl in Hrs. subst rs1. split.
        -- eapply Forall_impl; [exact Hrs1 |]. simpl. tauto.
        -- exists b. split; [exact Eb |]. rewrite Ebd.
           exists h1, config1, units. splits; auto.
           destruct (lane_units_records _ _ _ _ _ _ _ _ Es) as (rs2 & Hrs2 & Hf2).
           simpl in Hrs2. subst rs2. apply Forall2_length in Hf2.
           rewrite length_map in Hf2. auto.
      * injection Es as <-. split; [constructor |]. exists b.
        rewrite Ebd. auto.
    + apply (IH h1 h2 config1 rss'); auto; [| lia].
      unfold loop_inv. auto.
Qed.

(** ** Samples without reads *)

(** C5: a sample whose barcode id is not a key of the barcode map adds no
    record and raises nothing: after its configuration merge the loop goes on
    with the rest of the list, the records so far as they were.  The call as
    a whole returns (or raises) what its rounds do, one round per sample in
    the order of the list, and the records are the lists of the rounds one
    after the other.  So when it returns, the records are, in input order,
    those that the split plan of each sample found in the map gives, one per
    split unit and all belonging to that sample, and none for a sample that
    is not in the map the demultiplexer returned. *)
Theorem process_lane_skips_absent :
  forall (h : heap) (lane_items : list val) (fc_name fc_date dirs config : val),
    wf_heap h = true -> val_inb (length h) config = true ->
    algorithm_not_selfb h config = true ->
    Forall (fun it => val_inb (length h) it = true) lane_items ->
    (forall (bc : bc_map) (lane_name : string) (item b : val) (rest : list val)
            (h0 : heap) (config0 : val) (out : list dispatch),
       loop_inv h0 config0 -> val_inb (length h0) item = true ->
       py_getitem h0 item (VStr "barcode_id") = Ok b ->
       bc_has_key bc b = Ok false ->
       loop bc lane_name dirs (item :: rest) h0 config0 out
       = let* '(h1, config1) := _update_config_w_custom h0 config0 item in
         loop bc lane_name dirs rest h1 config1 out) /\
    lane h lane_items fc_name fc_date dirs config
    = (let* item0 := list_index lane_items 0 in
       let* lane_id := py_getitem h item0 (VStr "lane") in
       let lane_name :=
         py_str repr_obj h lane_id +:+ "_" +:+ py_str repr_obj h fc_date
         +:+ "_" +:+ py_str repr_obj h fc_name in
       let* fastq_dir := py_getitem h dirs (VStr "fastq") in
       let* work_dir := py_getitem h dirs (VStr "work") in
       let* '(h1, config0) := _update_config_w_custom h config item0 in
       let* '(full_fastq1, full_fastq2) :=
         get_fastq_files h1 fastq_dir work_dir item0 fc_name dirs config0 in
       let* bc :=
         split_by_barcode h1 full_fastq1 full_fastq2 lane_items lane_name dirs
           config in
       let* '(h', rss) := rounds bc lane_name dirs lane_items h1 config in
       Ok (h', concat rss)) /\
    (forall (h' : heap) (recs : list dispatch),
       lane h lane_items fc_name fc_date dirs config = Ok (h', recs) ->
       exists h1 fastq1 fastq2 lane_name bc rss,
         split_by_barcode h1 fastq1 fastq2 lane_items lane_name dirs config = Ok bc /\
         recs = concat rss /\
         Forall2 (fun item rs =>
                    Forall (fun r => d_info r = item) rs /\
                    exists b, py_getitem h item (VStr "barcode_id") = Ok b /\
                      if bool_decide (is_Some (bc_lookup bc b))
                      then exists hi ci units,
                             prep hi item bc dirs ci = Ok units /\
                             units_loop hi item lane_name dirs ci units [] = Ok rs /\
                             length rs = length units
                      else rs = [])
                 lane_items rss).
Proof.
  intros * Hwf Hin Hns%algorithm_not_selfb_sound Hitems.
  assert (Heq : lane h lane_items fc_name fc_date dirs config
    = (let* item0 := list_index lane_items 0 in
       let* lane_id := py_getitem h item0 (VStr "lane") in
       let lane_name :=
         py_str repr_obj h lane_id +:+ "_" +:+ py_str repr_obj h fc_date
         +:+ "_" +:+ py_str repr_obj h fc_name in
       let* fastq_dir := py_getitem h dirs (VStr "fastq") in
       let* work_dir := py_getitem h dirs (VStr "work") in
       let* '(h1, config0) := _update_config_w_custom h config item0 in
       let* '(full_fastq1, full_fastq2) :=
         get_fastq_files h1 fastq_dir work_dir item0 fc_name dirs config0 in
       let* bc :=
         split_by_barcode h1 full_fastq1 full_fastq2 lane_items lane_name dirs
           config in
       let* '(h', rss) := rounds bc lane_name dirs lane_items h1 config in
       Ok (h', concat rss))).
  { unfold process_lane.
    destruct (list_index lane_items 0) as [item0|]; simpl; [| reflexivity].
    destruct (py_getitem h item0 (VStr "lane")) as [lane_id|]; simpl; [| reflexivity].
    destruct (py_getitem h dirs (VStr "fastq")) as [fastq_dir|]; simpl;
      [| reflexivity].
    destruct (py_getitem h dirs (VStr "work")) as [work_dir|]; simpl; [| reflexivity].
    destruct (_update_config_w_custom h config item0) as [[h1 config0]|]; simpl;
      [| reflexivity].
    destruct (get_fastq_files _ _ _ _ _ _ _) as [[fastq1 fastq2]|]; simpl;
      [| reflexivity].
    destruct (split_by_barcode _ _ _ _ _ _ _) as [bc|]; simpl; [| reflexivity].
    rewrite lane_loop_rounds_eq. reflexivity. }
  split; [| split; [exact Heq |]].
  - intros * (Hwf0 & Hin0 & Hns0) Hitem Hb Hp. simpl.
    destruct (_update_config_w_custom h0 config0 item) as [[h1 config1]|] eqn:Em;
      simpl; [| reflexivity].
    destruct (merge_effect _ _ _ _ _ Hwf0 Hin0 Hns0 Em) as (Hold & _).
    rewrite (py_getitem_frame (length h0) h0 h1), Hb by auto. simpl.
    rewrite Hp. reflexivity.
  - intros h' recs. rewrite Heq.
    destruct (list_index lane_items 0) as [item0|]; simpl; [| discriminate].
    destruct (py_getitem h item0 (VStr "lane")) as [lane_id|]; simpl; [| discriminate].
    destruct (py_getitem h dirs (VStr "fastq")) as [fastq_dir|]; simpl;
      [| discriminate].
    destruct (py_getitem h dirs (VStr "work")) as [work_dir|]; simpl; [| discriminate].
    destruct (_update_config_w_custom h config item0) as [[h1 config0]|] eqn:Em;
      simpl; [| discriminate].
    destruct (get_fastq_files _ _ _ _ _ _ _) as [[fastq1 fastq2]|]; simpl;
      [| discriminate].
    destruct (split_by_barcode _ _ _ _ _ _ _) as [bc|] eqn:Ebc; simpl;
      [| discriminate].
    destruct (rounds bc _ dirs lane_items h1 config) as [[h2 rss]|] eqn:Er; simpl;
      [| discriminate].
    intros [= <- <-].
    destruct (merge_effect _ _ _ _ _ Hwf Hin Hns Em) as (Hold & Hlen & Hwf1 & _).
    assert (Hinv1 : loop_inv h1 config).
    { apply (loop_inv_frame h); auto. unfold loop_inv. auto. }
    eexists h1, _, _, _, bc, rss. split; [exact Ebc |]. split; [reflexivity |].
    apply (lane_rounds_lists h bc _ dirs lane_items Hitems h1 h2 config rss Hinv1);
      auto.
Qed.

(** ** Lane names are told apart *)







End lane_properties.

(** * Evaluations on the sample stores *)

(** C1 fails on the code: with sample A (analysis [variant], own override
    [x = 3]) listed before sample B (no analysis, no override), the record
    for B carries [algorithm.x = 3], while merging the global configuration
    with B alone gives [algorithm.x = 1].  The loop rebinds [config], so B's
    merge starts from A's merged copy. *)
Theorem process_lane_config_leaks :
  exists (h' hB : heap) (r1 r2 : dispatch) (alg cfgB algB : val),
    process_lane Sample.repr_obj Sample.get_fastq_files Sample.split_by_barcode
      Sample.safe_makedir Sample.split_read_files Sample.store
      [Sample.sampleA; Sample.sampleB] (VStr "FC1") (VStr "2020-01-01")
      Sample.dirs Sample.config = Ok (h', [r1; r2]) /\
    d_info r2 = Sample.sampleB /\
    py_getitem h' (d_config r2) (VStr "algorithm") = Ok alg /\
    py_getitem h' alg (VStr "x") = Ok (VInt 3) /\
    _update_config_w_custom Sample.store Sample.config Sample.sampleB
    = Ok (hB, cfgB) /\
    py_getitem hB cfgB (VStr "algorithm") = Ok algB /\
    py_getitem hB algB (VStr "x") = Ok (VInt 1).
Proof.
  do 7 eexists. splits; vm_compute; reflexivity.
Qed.


(** C3 fails as stated: with [distributed.align_split_size] present but null
    and [algorithm.align_split_size = 1000], the specification's rule resolves
    1000, the code resolves null and plans the single unsplit unit without
    asking the splitting tool. *)
Lemma split_size_null_shadows :
  spec_split_size Sample.split_store (VRef 0%nat) = Ok (VInt 1000) /\
  resolve_split_size Sample.split_store (VRef 0%nat) = Ok VNone /\
  _prep_fastq_files Sample.safe_makedir Sample.split_read_files
    Sample.split_store (VRef 3%nat)
    [(VStr "A", (VStr "a1.fq", VStr "a2.fq"))] (VRef 4%nat) (VRef 0%nat)
  = Ok [(VStr "a1.fq", VStr "a2.fq", VNone)] /\
  Sample.split_read_files Sample.split_store (VStr "a1.fq") (VStr "a2.fq")
    (VRef 3%nat) (VInt 1000) "/work/align_splitprep/sampleA" (VRef 4%nat)
    (VRef 0%nat)
  <> Ok [(VStr "a1.fq", VStr "a2.fq", VNone)].
Proof.
  splits; try (vm_compute; reflexivity). discriminate.
Qed.

(** Only the mate may be missing.  With trimming on, a null [fastq1] next
    to a real [fastq2] is not kept null: the tool gets [fastq2] alone, its
    one output is taken for [fastq1], and reading a second output for
    [fastq2] raises IndexError. *)
Lemma trim_lane_null_fastq1 :
  trim_lane Sample.trim_tool Sample.trim_tool Sample.trim_store
    VNone (VStr "b.fq") (VRef 3%nat) (VStr "L") (VStr "d") (VRef 2%nat) (VRef 0%nat)
  = ([CallBrunTrim [VStr "b.fq"] (VRef 2%nat) (VRef 0%nat)], Raise IndexError).
Proof. vm_compute. reflexivity. Qed.

(** ** The theorems on the sample stores *)

Lemma trim_lane_passthrough_witness :
  trim_lane Sample.trim_tool Sample.trim_tool Sample.store
    (VStr "a.fq") VNone Sample.sampleA (VStr "L") (VStr "d") Sample.dirs
    Sample.config
  = ([], Ok [MkDispatch (VStr "a.fq") VNone Sample.sampleA (VStr "L") (VStr "d")
                        Sample.dirs Sample.config]).
Proof.
  apply (trim_lane_passthrough Sample.trim_tool Sample.trim_tool Sample.store
           (VStr "a.fq") VNone Sample.sampleA (VStr "L") (VStr "d") Sample.dirs
           Sample.config (VRef 1%nat)
           [(VStr "x", VInt 1); (VStr "aligner", VStr "bwa")]).
  - reflexivity.
  - reflexivity.
  - left. reflexivity.
Defined.

Lemma trim_lane_files_witness :
  trim_lane Sample.trim_tool Sample.trim_tool Sample.trim_store
    (VStr "a.fq") VNone (VRef 3%nat) (VStr "L") (VStr "d") (VRef 2%nat)
    (VRef 0%nat)
  = ([CallBrunTrim [VStr "a.fq"] (VRef 2%nat) (VRef 0%nat)],
     Ok [MkDispatch (VStr "a.fq.trimmed") VNone (VRef 3%nat) (VStr "L") (VStr "d")
                    (VRef 2%nat) (VRef 0%nat)]).
Proof.
  pose proof (trim_lane_files Sample.trim_tool Sample.trim_tool Sample.trim_store
                (VStr "a.fq") VNone (VRef 3%nat) (VStr "L") (VStr "d") (VRef 2%nat)
                (VRef 0%nat) (VRef 1%nat) (VBool true)
                eq_refl eq_refl eq_refl ltac:(discriminate)) as H.
  destruct H as (_ & _ & _ & _ & _ & H).
  destruct (H eq_refl) as [_ H2].
  apply (H2 (VStr "low_quality") "a.fq" (VStr "a.fq.trimmed") []
            (CallBrunTrim [VStr "a.fq"] (VRef 2%nat) (VRef 0%nat)) eq_refl eq_refl).
  left. repeat split.
Defined.

Lemma prep_fastq_files_split_rule_witness :
  resolve_split_size Sample.split_store (VRef 0%nat) = Ok VNone /\
  _prep_fastq_files Sample.safe_makedir Sample.split_read_files
    Sample.split_store (VRef 3%nat)
    [(VStr "A", (VStr "a1.fq", VStr "a2.fq"))] (VRef 4%nat) (VRef 0%nat)
  = Ok [(VStr "a1.fq", VStr "a2.fq", VNone)].
Proof.
  pose proof (prep_fastq_files_split_rule Sample.safe_makedir
                Sample.split_read_files Sample.split_store
                (VRef 3%nat) (VRef 4%nat) (VRef 0%nat) (VRef 1%nat) (VStr "A")
                (VStr "a1.fq") (VStr "a2.fq")
                [(VStr "A", (VStr "a1.fq", VStr "a2.fq"))]
                [(VStr "algorithm", VRef 1%nat); (VStr "distributed", VRef 2%nat)]
                [(VStr "align_split_size", VNone)]
                [(VStr "align_split_size", VInt 1000)]
                eq_refl eq_refl eq_refl eq_refl eq_refl eq_refl) as H.
  destruct H as (H1 & H2 & _).
  split; [exact H1 | exact (H2 eq_refl)].
Defined.

Lemma process_alignment_decision_order_witness :
  process_alignment Sample.fs_all Sample.align_tool unit Sample.runner_from_config
    Sample.run_picard_sort Sample.store (VStr "/fq/a.bam") VNone (VRef 4%nat)
    (VStr "L") (VStr "d") Sample.dirs Sample.config
  = Ok [MkAlignResult (VStr "/fq/a.bam", VNone) (VStr "/work/out.bam") (VRef 4%nat)
                      Sample.config].
Proof.
  pose proof (process_alignment_decision_order Sample.fs_all Sample.align_tool unit
                Sample.runner_from_config Sample.run_picard_sort Sample.store
                "/fq/a.bam" VNone (VRef 4%nat) (VStr "L") (VStr "d") Sample.dirs
                Sample.config (VRef 1%nat) (VStr "bwa") eq_refl eq_refl) as H.
  destruct H as (_ & H & _).
  exact (H eq_refl eq_refl).
Defined.

Lemma update_config_keeps_inputs_witness :
  exists (h' : heap) (cfg' : val),
    _update_config_w_custom Sample.store Sample.config Sample.sampleA
    = Ok (h', cfg') /\
    (forall l o, Sample.store !! l = Some o -> h' !! l = Some o) /\
    (forall l, cfg' = VRef l -> Sample.store !! l = None /\ is_Some (h' !! l)).
Proof.
  destruct (_update_config_w_custom Sample.store Sample.config Sample.sampleA)
    as [[h' cfg']|e] eqn:E; [| vm_compute in E; discriminate].
  exists h', cfg'. split; [reflexivity |].
  apply (update_config_keeps_inputs Sample.store h' Sample.config Sample.sampleA cfg').
  - vm_compute. reflexivity.
  - vm_compute. reflexivity.
  - vm_compute. reflexivity.
  - exact E.
Defined.

Lemma update_config_precedence_witness :
  (exists (h' : heap) (cfg' alg' : val),
     _update_config_w_custom Sample.store Sample.config Sample.sampleA
     = Ok (h', cfg') /\
     py_getitem h' cfg' (VStr "algorithm") = Ok alg' /\
     py_getitem h' alg' (VStr "x") = Ok (VInt 3)) /\
  (exists (h' : heap) (cfg' alg' : val),
     _update_config_w_custom Sample.store Sample.config Sample.sampleA
     = Ok (h', cfg') /\
     py_getitem h' cfg' (VStr "algorithm") = Ok alg' /\
     py_getitem h' alg' (VStr "y") = Ok (VInt 5)).
Proof.
  split.
  - apply (proj1 (update_config_precedence Sample.store Sample.config
                    Sample.sampleA (VStr "x") eq_refl)
             (VRef 5%nat) (VInt 3)); reflexivity.
  - apply (proj2 (update_config_precedence Sample.store Sample.config
                    Sample.sampleA (VStr "y") eq_refl)
             (VRef 2%nat) (VRef 3%nat) (VStr "variant") (VInt 5)
             [VStr "SNP calling"] [(VStr "x", VInt 3)]);
      try reflexivity.
    discriminate.
Defined.

Lemma process_lane_skips_absent_witness :
  exists (h' : heap) (recs : list dispatch),
    process_lane Sample.repr_obj Sample.get_fastq_files Sample.split_by_barcode_A
      Sample.safe_makedir Sample.split_read_files Sample.dup_store
      [Sample.sampleA; Sample.sampleB; Sample.sampleA2] (VStr "FC1")
      (VStr "2020-01-01") Sample.dirs Sample.config = Ok (h', recs) /\
    map d_info recs = [Sample.sampleA; Sample.sampleA2] /\
    exists h1 fastq1 fastq2 lane_name bc rss,
      Sample.split_by_barcode_A h1 fastq1 fastq2
        [Sample.sampleA; Sample.sampleB; Sample.sampleA2]
        lane_name Sample.dirs Sample.config = Ok bc /\
      recs = concat rss /\
      Forall2 (fun item rs =>
                 Forall (fun r => d_info r = item) rs /\
                 exists b, py_getitem Sample.dup_store item (VStr "barcode_id") = Ok b /\
                   if bool_decide (is_Some (bc_lookup bc b))
                   then exists hi ci units,
                          _prep_fastq_files Sample.safe_makedir
                            Sample.split_read_files hi item bc Sample.dirs ci
                          = Ok units /\
                          lane_units Sample.repr_obj hi item lane_name Sample.dirs ci
                            units [] = Ok rs /\
                          length rs = length units
                   else rs = [])
              [Sample.sampleA; Sample.sampleB; Sample.sampleA2] rss.
Proof.
  destruct (process_lane Sample.repr_obj Sample.get_fastq_files
              Sample.split_by_barcode_A Sample.safe_makedir Sample.split_read_files
              Sample.dup_store [Sample.sampleA; Sample.sampleB; Sample.sampleA2]
              (VStr "FC1") (VStr "2020-01-01") Sample.dirs Sample.config)
    as [[h' recs]|e] eqn:E; [| vm_compute in E; discriminate].
  exists h', recs. split; [reflexivity |]. split.
  - vm_compute in E. injection E as <- <-. reflexivity.
  - apply (proj2 (proj2 (process_lane_skips_absent Sample.repr_obj
                    Sample.get_fastq_files Sample.split_by_barcode_A
                    Sample.safe_makedir Sample.split_read_files Sample.dup_store
                    [Sample.sampleA; Sample.sampleB; Sample.sampleA2] (VStr "FC1")
                    (VStr "2020-01-01") Sample.dirs Sample.config eq_refl eq_refl
                    eq_refl ltac:(repeat constructor))) h' recs E).
Defined.


(** * Further properties of the stages *)

Section stage_further.
Variable fs_exists : string -> bool.
Variable brun_trim_fastq : heap -> list val -> val -> val -> res (list val).
Variable cutadapt_trim : heap -> list val -> val -> val -> res (list val).
Variable align_to_sort_bam :
  heap -> val -> val -> val -> val -> val -> val -> val -> val -> res val.
Variable runner : Type.
Variable runner_from_config : heap -> val -> res runner.
Variable run_picard_sort : runner -> val -> val -> string -> res val.

Local Notation trim := (trim_lane brun_trim_fastq cutadapt_trim).
Local Notation align :=
  (process_alignment fs_exists align_to_sort_bam runner runner_from_config
                     run_picard_sort).

(** X1: whatever branch [trim_lane] takes, a result is one record, and only
    its two file slots can differ from the arguments: sample, lane name,
    lane description, directories and configuration are handed on. *)
Theorem trim_lane_result_shape :
  forall (h : heap) (fastq1 fastq2 info lane_name lane_desc dirs config : val)
         (recs : list dispatch),
    snd (trim h fastq1 fastq2 info lane_name lane_desc dirs config) = Ok recs ->
    exists f1 f2, recs = [MkDispatch f1 f2 info lane_name lane_desc dirs config].
Proof.
  intros *. unfold trim_lane, tbind, lift, tret, tool.
  repeat case_match; simpl; intros; simplify_eq; eauto.
Qed.

(** X2: a trimmer other than ["low_quality"] and ["adapter"] switches
    trimming off: no tool is called and the record is the arguments as they
    came in (the files only have to be strings or null for the log line). *)
Theorem trim_lane_unknown_trimmer :
  forall (h : heap) (fastq1 fastq2 info lane_name lane_desc dirs config
          alg tr trimmer : val) (msg : string),
    py_getitem h config (VStr "algorithm") = Ok alg ->
    py_get h alg (VStr "trim_reads") (VBool false) = Ok tr ->
    truthy h tr = true ->
    py_get h alg (VStr "trimmer") (VStr "low_quality") = Ok trimmer ->
    trimmer <> VStr "low_quality" -> trimmer <> VStr "adapter" ->
    py_join ", " (List.filter is_not_none [fastq1; fastq2]) = Ok msg ->
    trim h fastq1 fastq2 info lane_name lane_desc dirs config
    = ([], Ok [MkDispatch fastq1 fastq2 info lane_name lane_desc dirs config]).
Proof.
  intros * Halg Htr Ht Htrim Hn1 Hn2 Hjoin. unfold trim_lane.
  rewrite Halg; simpl. rewrite Htr; simpl. rewrite Ht; simpl. rewrite Htrim; simpl.
  unfold val_is_str. rewrite !bool_decide_eq_false_2 by assumption.
  simpl in Hjoin |- *. rewrite Hjoin. simpl.
  destruct fastq2; reflexivity.
Qed.

(** X3: with trimming on and a trimmer that names a tool, that tool is
    called once, and [trim_lane] returns iff the tool returned enough files:
    one, or two when there is a mate.  The first output becomes [fastq1]
    and the second [fastq2]; a null [fastq2] stays; too few outputs raise
    IndexError, further outputs are ignored. *)
Theorem trim_lane_outputs :
  forall (h : heap) (fastq1 fastq2 info lane_name lane_desc dirs config
          alg tr trimmer : val) (msg : string) (outs : list val) (call : tool_call),
    py_getitem h config (VStr "algorithm") = Ok alg ->
    py_get h alg (VStr "trim_reads") (VBool false) = Ok tr ->
    truthy h tr = true ->
    py_get h alg (VStr "trimmer") (VStr "low_quality") = Ok trimmer ->
    let to_trim := List.filter is_not_none [fastq1; fastq2] in
    py_join ", " to_trim = Ok msg ->
    (trimmer = VStr "low_quality" /\
     brun_trim_fastq h to_trim dirs config = Ok outs /\
     call = CallBrunTrim to_trim dirs config) \/
    (trimmer = VStr "adapter" /\
     cutadapt_trim h to_trim dirs config = Ok outs /\
     call = CallCutadapt to_trim dirs config) ->
    trim h fastq1 fastq2 info lane_name lane_desc dirs config
    = ([call], trimmed_record outs fastq2 info lane_name lane_desc dirs config).
Proof.
  intros * Halg Htr Ht Htrim to_trim Hjoin Htool. unfold trim_lane.
  change (List.filter is_not_none [fastq1; fastq2]) with to_trim.
  clearbody to_trim.
  rewrite Halg; simpl. rewrite Htr; simpl. rewrite Ht; simpl. rewrite Htrim; simpl.
  unfold trimmed_record.
  destruct Htool as [(-> & Hout & ->) | (-> & Hout & ->)]; simpl;
    rewrite Hjoin; simpl; rewrite Hout; simpl;
    destruct outs as [|o1 [|o2 outs]]; destruct fastq2; reflexivity.
Qed.

(** X4: whatever branch [process_alignment] takes, a result is one entry
    that carries the two read files, the sample and the configuration it
    was given; only the output path is decided. *)
Theorem process_alignment_result_shape :
  forall (h : heap) (fastq1 fastq2 info lane_name lane_desc dirs config : val)
         (results : list align_result),
    align h fastq1 fastq2 info lane_name lane_desc dirs config = Ok results ->
    exists out_bam,
      results = [MkAlignResult (fastq1, fastq2) out_bam info config].
Proof.
  intros *. unfold process_alignment.
  destruct (py_getitem h config (VStr "algorithm")); simpl; [| discriminate].
  destruct (py_get _ _ _ _); simpl; [| discriminate].
  destruct (os_path_exists fs_exists fastq1); simpl; [| discriminate].
  match goal with |- (let* out_bam := ?m in _) = _ -> _ => destruct m end;
    simpl; [| discriminate].
  intros [= <-]. eauto.
Qed.

End stage_further.

(** * Further properties of _update_config_w_custom *)

Lemma as_dict_in_range (h : heap) (v : val) (e : exn) (d : list (val * val)) :
  as_dict h v e = Ok d -> val_inb (length h) v = true.
Proof.
  unfold as_dict. destruct v as [| | | | l]; try discriminate.
  destruct (h !! l) as [o|] eqn:El; [| discriminate]. intros _.
  simpl. apply Nat.ltb_lt. eapply lookup_lt_Some; eauto.
Qed.

Lemma py_get_frame (n : nat) (h h1 : heap) (v k dflt : val) :
  (forall l, (l < n)%nat -> h1 !! l = h !! l) -> val_inb n v = true ->
  py_get h1 v k dflt = py_get h v k dflt.
Proof.
  intros Hold Hv. unfold py_get. rewrite (as_dict_frame n h h1); auto.
Qed.

Lemma py_get_in_range (h : heap) (v k dflt x : val) :
  py_get h v k dflt = Ok x -> val_inb (length h) v = true.
Proof.
  unfold py_get. destruct (as_dict h v AttributeError) eqn:E; [| discriminate].
  intros _. eapply as_dict_in_range; eauto.
Qed.

Lemma truthy_atom (h h' : heap) (v : val) :
  hashable v = true -> truthy h' v = truthy h v.
Proof. destruct v; simpl; auto. discriminate. Qed.

(** The sample's own entries are read from objects of the input store. *)
Lemma lane_algorithm_items_frame (h h1 : heap) (lane_info : val) :
  wf_heap h = true ->
  (forall l, (l < length h)%nat -> h1 !! l = h !! l) ->
  val_inb (length h) lane_info = true ->
  lane_algorithm_items h1 lane_info = lane_algorithm_items h lane_info.
Proof.
  intros Hwf Hold Hin. unfold lane_algorithm_items.
  rewrite (as_dict_frame (length h) h h1) by auto.
  destruct (as_dict h lane_info AttributeError) as [d|] eqn:Ed; simpl;
    [| reflexivity].
  destruct (assoc_get d (VStr "algorithm")) as [a|] eqn:Ea; [| reflexivity].
  unfold py_iteritems. apply (as_dict_frame (length h)); [exact Hold |].
  unfold as_dict in Ed. destruct lane_info as [| | | | l]; try discriminate.
  destruct (h !! l) as [[d' | xs] |] eqn:El; try discriminate.
  injection Ed as ->.
  pose proof (wf_heap_lookup _ _ _ Hwf El) as Hd. simpl in Hd.
  apply dict_okb_entries in Hd. rewrite Forall_forall in Hd.
  destruct (assoc_get_In _ _ _ Ea) as [k' Hk'].
  apply (Hd (k', a)). apply list_elem_of_In. exact Hk'.
Qed.

(** Analysis types without a usable bundle leave the store as it is. *)
Lemma overlay_custom_silent (h : heap) (c ca : loc) (cd cad : list (val * val))
    (types : list val) :
  h !! c = Some (ODict cd) ->
  assoc_get cd (VStr "custom_algorithms") = Some (VRef ca) ->
  h !! ca = Some (ODict cad) ->
  Forall (fun t => hashable t = true /\
            match assoc_get cad t with
            | Some v => truthy h v = false
            | None => True
            end) types ->
  overlay_custom (VRef c) types h = Ok h.
Proof.
  intros Hc Hcus Hca Hty. induction Hty as [|t types [Ht Hb] _ IH]; simpl;
    [reflexivity |].
  unfold py_getitem, as_dict. rewrite Hc; simpl. rewrite Hcus; simpl.
  unfold py_get, as_dict. rewrite Hca; simpl. rewrite Ht.
  destruct (assoc_get cad t) as [v|]; simpl; [rewrite Hb |]; simpl; exact IH.
Qed.

(** X5: a sample that names no analysis type with a bundle and brings no
    entries of its own gets the plain deep copy of the configuration: an
    unknown or missing analysis type is no error, and the configuration
    need not even have an [algorithm] mapping. *)
Theorem update_config_without_overrides :
  forall (h : heap) (c : loc) (lane_info cav base : val)
         (cd cad : list (val * val)) (types : list val),
    wf_heap h = true ->
    h !! c = Some (ODict cd) ->
    assoc_get cd (VStr "custom_algorithms") = Some cav ->
    get_dict h cav = Some cad ->
    py_get h lane_info (VStr "analysis") VNone = Ok base ->
    name_remaps_get base = Ok types ->
    Forall (fun t => match assoc_get cad t with
                     | Some v => hashable v = true /\ truthy h v = false
                     | None => True
                     end) types ->
    lane_algorithm_items h lane_info = Ok [] ->
    _update_config_w_custom h (VRef c) lane_info = deepcopy h (VRef c).
Proof.
  intros * Hwf Hc Hcus Hcad Hbase Hty Hsilent Hitems.
  assert (Hin : val_inb (length h) (VRef c) = true).
  { simpl. apply Nat.ltb_lt. eapply lookup_lt_Some; eauto. }
  destruct (deepcopy_correct h Hwf (VRef c) Hin) as (h1 & m & E & Hinv & [c' Hc']).
  unfold _update_config_w_custom. rewrite E. simpl. rewrite Hc'.
  pose proof (py_get_in_range _ _ _ _ _ Hbase) as Hli.
  pose proof (ci_old _ _ _ _ Hinv) as Hold.
  rewrite (py_get_frame (length h) h h1) by auto. rewrite Hbase; simpl.
  rewrite Hty; simpl.
  apply get_dict_Some in Hcad as (ca & -> & Hca).
  destruct (ci_done _ _ _ _ Hinv c c' Hc') as (o & Ho & H1c & Hcdc); [tauto |].
  rewrite Hc in Ho. injection Ho as <-. simpl in H1c.
  destruct (copy_entry _ _ _ _ Hcdc Hcus) as (ca' & Hca' & Hcus').
  destruct (ci_done _ _ _ _ Hinv ca ca' Hca') as (o & Ho & H1ca & _); [tauto |].
  rewrite Hca in Ho. injection Ho as <-. simpl in H1ca.
  rewrite (overlay_custom_silent h1 c' ca' _ _ types H1c Hcus' H1ca).
  - simpl. rewrite (lane_algorithm_items_frame h h1) by auto.
    rewrite Hitems. reflexivity.
  - pose proof (name_remaps_get_hashable _ _ Hty) as Hhash.
    rewrite Forall_forall in Hsilent, Hhash. apply Forall_forall. intros t Ht.
    split; [auto |]. rewrite assoc_get_ren_entries.
    specialize (Hsilent t Ht). destruct (assoc_get cad t) as [v|]; simpl; [| exact I].
    destruct Hsilent as [Hv Hf]. rewrite (ren_hashable _ _ Hv).
    rewrite (truthy_atom h h1) by exact Hv. exact Hf.
Qed.

(** X6: without a [custom_algorithms] mapping the merge raises KeyError,
    also for a sample that names no analysis type: the mapping is
    subscripted once for every resolved type, and there is always one. *)
Theorem update_config_requires_custom_algorithms :
  forall (h : heap) (c : loc) (lane_info base : val) (cd : list (val * val)),
    wf_heap h = true ->
    h !! c = Some (ODict cd) ->
    assoc_get cd (VStr "custom_algorithms") = None ->
    py_get h lane_info (VStr "analysis") VNone = Ok base ->
    hashable base = true ->
    _update_config_w_custom h (VRef c) lane_info = Raise KeyError.
Proof.
  intros * Hwf Hc Hcus Hbase Hhb.
  assert (Hin : val_inb (length h) (VRef c) = true).
  { simpl. apply Nat.ltb_lt. eapply lookup_lt_Some; eauto. }
  destruct (deepcopy_correct h Hwf (VRef c) Hin) as (h1 & m & E & Hinv & [c' Hc']).
  unfold _update_config_w_custom. rewrite E. simpl. rewrite Hc'.
  pose proof (py_get_in_range _ _ _ _ _ Hbase) as Hli.
  rewrite (py_get_frame (length h) h h1) by (auto; apply (ci_old _ _ _ _ Hinv)).
  rewrite Hbase; simpl.
  destruct (ci_done _ _ _ _ Hinv c c' Hc') as (o & Ho & H1c & _); [tauto |].
  rewrite Hc in Ho. injection Ho as <-. simpl in H1c.
  destruct (name_remaps_get base) as [types|] eqn:Et.
  2:{ unfold name_remaps_get in Et. rewrite Hhb in Et.
      repeat destruct (key_eqb _ _); discriminate. }
  pose proof (name_remaps_get_nonempty _ _ Et) as Hne.
  destruct types as [|t types]; [congruence |]. simpl.
  unfold py_getitem, as_dict. rewrite H1c. simpl.
  rewrite assoc_get_ren_entries, Hcus. reflexivity.
Qed.

(** A key that no bundle in use sets keeps its entry in the configuration's
    [algorithm] through the bundle overlays. *)
Lemma overlay_custom_keep (c a ca : loc) (cd cad : list (val * val)) (x : val)
    (types : list val) :
  assoc_get cd (VStr "algorithm") = Some (VRef a) -> a <> c ->
  assoc_get cd (VStr "custom_algorithms") = Some (VRef ca) -> ca <> a ->
  forall h ad h',
    wf_heap h = true ->
    h !! c = Some (ODict cd) -> h !! ca = Some (ODict cad) ->
    h !! a = Some (ODict ad) ->
    Forall (fun t => forall b bd, assoc_get cad t = Some (VRef b) ->
                       h !! b = Some (ODict bd) -> assoc_get bd x = None) types ->
    overlay_custom (VRef c) types h = Ok h' ->
    exists ad', h' !! a = Some (ODict ad') /\ assoc_get ad' x = assoc_get ad x.
Proof.
  intros Halg Hac Hcus Hca.
  induction types as [|t types IH]; intros h ad h' Hwf Hc Hcad Ha Hty; simpl.
  { intros [= <-]. eauto. }
  inversion Hty as [|? ? Ht Hrest]; subst.
  unfold py_getitem at 1. unfold as_dict. rewrite Hc; simpl. rewrite Hcus; simpl.
  unfold py_get, as_dict. rewrite Hcad; simpl.
  destruct (hashable t); simpl; [| discriminate].
  assert (Hskip : overlay_custom (VRef c) types h = Ok h' ->
            exists ad', h' !! a = Some (ODict ad') /\ assoc_get ad' x = assoc_get ad x).
  { apply IH; auto. }
  destruct (assoc_get cad t) as [custom|] eqn:Et; simpl; [| exact Hskip].
  destruct (truthy h custom) eqn:Etr; simpl; [| exact Hskip].
  clear Hskip.
  destruct (py_iteritems h custom) as [items|] eqn:Eit; simpl; [| discriminate].
  unfold py_iteritems, as_dict in Eit.
  destruct custom as [| | | | b]; try discriminate.
  destruct (h !! b) as [[bd | xs] |] eqn:Eb; try discriminate.
  injection Eit as <-.
  pose proof (wf_heap_lookup _ _ _ Hwf Eb) as Hbd. simpl in Hbd.
  rewrite (overlay_items_run h c a cd ad bd Hc Halg Hac Ha).
  2:{ eapply Forall_impl; [apply (dict_okb_entries _ _ Hbd) |]. simpl. tauto. }
  simpl. intros Hrun.
  pose proof (lookup_lt_Some _ _ _ Ha) as Hlt.
  assert (Hkeep : assoc_get (fold_left set_entry bd ad) x = assoc_get ad x)
    by (apply fold_set_entry_keep; eauto).
  assert (U : alg_update cd h (<[a := ODict (fold_left set_entry bd ad)]> h)).
  { right. exists a, (ODict ad), (ODict (fold_left set_entry bd ad)).
    splits; simpl; auto.
    intros Hok. apply fold_set_entry_okb; auto. apply dict_okb_entries. exact Hbd. }
  destruct (IH (<[a := ODict (fold_left set_entry bd ad)]> h)
              (fold_left set_entry bd ad) h') as (ad' & Ha' & Hx'); auto.
  - eapply alg_update_wf; eauto.
  - rewrite list_lookup_insert_ne; auto.
  - rewrite list_lookup_insert_ne; auto.
  - rewrite list_lookup_insert_eq; auto.
  - eapply Forall_impl; [exact Hrest |]. simpl. intros t' Ht' b' bd' Hb' Hl'.
    destruct (decide (a = b')) as [<- | Hn].
    + rewrite list_lookup_insert_eq in Hl' by exact Hlt. injection Hl' as <-.
      rewrite Hkeep. eapply Ht'; eauto.
    + rewrite list_lookup_insert_ne in Hl' by exact Hn. eapply Ht'; eauto.
  - exists ad'. split; [exact Ha' | congruence].
Qed.

(** An entry that neither a bundle in use nor the sample sets comes out of
    the merge as the configuration passed in has it. *)
Lemma merge_global_survives :
  forall (h : heap) (config lane_info alg cav x v : val)
         (items : list (val * val)),
    merge_okb h config lane_info = true ->
    py_getitem h config (VStr "algorithm") = Ok alg ->
    py_getitem h alg x = Ok v -> hashable v = true ->
    py_getitem h config (VStr "custom_algorithms") = Ok cav ->
    Forall (fun t => forall bv w, py_getitem h cav t = Ok bv ->
                       py_getitem h bv x <> Ok w)
           (sample_types h lane_info) ->
    lane_algorithm_items h lane_info = Ok items ->
    assoc_get items x = None ->
    exists h' cfg' alg',
      _update_config_w_custom h config lane_info = Ok (h', cfg') /\
      py_getitem h' cfg' (VStr "algorithm") = Ok alg' /\
      py_getitem h' alg' x = Ok v.
Proof.
  intros * Hok Halg Hx Hv Hcav Hsil Hitems Hsilent.
  destruct (merge_run _ _ _ Hok)
    as (c & c' & a' & cd' & ad2 & items0 & h1 & h2 & m & -> & Hinv & Hc' & E2
        & E & H2c & Halg' & Hne & H2a & Hit & Hdok).
  rewrite Hitems in Hit. injection Hit as <-.
  apply py_getitem_dict in Hcav as (c0 & cd & [= <-] & Hc & Hcus & _).
  apply py_getitem_dict in Halg as (c0 & cd0 & [= <-] & Hc0 & Halg & _).
  rewrite Hc in Hc0. injection Hc0 as <-.
  apply py_getitem_dict in Hx as (a & ad & -> & Ha & Hax & Hhx).
  unfold merge_okb in Hok. rewrite !andb_true_iff in Hok.
  destruct Hok as [[Hwf Hcfg] _].
  pose proof (copy_inv_wf _ _ _ Hwf Hinv) as Hwf1.
  apply config_okb_inv in Hcfg
    as (c0 & cd0 & a0 & ca & ad0 & cad & [= <-] & Hc0 & Halg0 & Hcus0 & Hac & Hcaa
        & Ha0 & Hcad & _).
  rewrite Hc in Hc0. injection Hc0 as <-.
  assert (a0 = a) by congruence. subst a0.
  rewrite Ha in Ha0. injection Ha0 as <-.
  rewrite Hcus in Hcus0. injection Hcus0 as ->.
  (* the copies *)
  destruct (ci_done _ _ _ _ Hinv c c' Hc') as (o & Ho & H1c & Hcdc); [tauto |].
  rewrite Hc in Ho. injection Ho as <-. simpl in H1c.
  destruct (copy_entry _ _ _ _ Hcdc Hcus) as (ca' & Hca' & Hcus').
  destruct (copy_entry _ _ _ _ Hcdc Halg) as (a1 & Ha1 & Halg1).
  destruct (ci_done _ _ _ _ Hinv ca ca' Hca') as (o & Ho & H1ca & Hcadc); [tauto |].
  rewrite Hcad in Ho. injection Ho as <-. simpl in H1ca.
  destruct (ci_done _ _ _ _ Hinv a a1 Ha1) as (o & Ho & H1a & _); [tauto |].
  rewrite Ha in Ho. injection Ho as <-. simpl in H1a.
  assert (Hac1 : a1 <> c').
  { intros ->. apply Hac. eapply (ci_inj _ _ _ _ Hinv); eauto. }
  assert (Hca1 : ca' <> a1).
  { intros ->. apply Hcaa. eapply (ci_inj _ _ _ _ Hinv); eauto. }
  assert (Hfresh : forall a2, assoc_get (ren_entries m cd) (VStr "algorithm")
                              = Some (VRef a2) -> a2 <> c')
    by (intros a2 Ha2; congruence).
  pose proof (overlay_custom_update _ _ _ _ _ Hwf1 H1c Hfresh E2) as U.
  assert (a' = a1).
  { rewrite (alg_update_other _ _ _ c' U) in H2c by auto.
    rewrite H1c in H2c. injection H2c as <-. congruence. }
  subst a'.
  destruct (overlay_custom_keep c' a1 ca' _ _ x (sample_types h lane_info)
              Halg1 Hac1 Hcus' Hca1
              h1 (ren_entries m ad) h2 Hwf1 H1c H1ca H1a) as (ad' & H2a' & Hkeep);
    [| exact E2 |].
  { rewrite Forall_forall in Hsil. apply Forall_forall. intros t Ht b' bd' Hb' Hl'.
    destruct (assoc_get cad t) as [bv|] eqn:Ebv;
      [| rewrite assoc_get_ren_entries, Ebv in Hb'; discriminate].
    destruct bv as [| | | | b];
      try (rewrite assoc_get_ren_entries, Ebv in Hb'; discriminate).
    destruct (copy_entry _ _ _ _ Hcadc Ebv) as (b1 & Eb1 & Hbt').
    rewrite Hbt' in Hb'. injection Hb' as ->.
    destruct (ci_done _ _ _ _ Hinv b b' Eb1) as (o & Ho & H1b & _); [tauto |].
    rewrite Hl' in H1b. destruct o as [bd | xs]; [| discriminate].
    injection H1b as ->. rewrite assoc_get_ren_entries.
    destruct (assoc_get bd x) as [w|] eqn:Ew; [| reflexivity].
    exfalso. apply (Hsil t Ht (VRef b) w).
    - unfold py_getitem, as_dict. rewrite Hcad. simpl.
      destruct (hashable t) eqn:Hht; [rewrite Ebv; reflexivity |].
      exfalso. pose proof (wf_heap_lookup _ _ _ Hwf Hcad) as Hd. simpl in Hd.
      apply dict_okb_entries in Hd. rewrite Forall_forall in Hd.
      pose proof (name_remaps_get_hashable) as Hn.
      unfold sample_types in Ht.
      destruct (py_get h lane_info (VStr "analysis") VNone) as [base|]; simpl in Ht;
        [| inversion Ht].
      destruct (name_remaps_get base) as [ts|] eqn:Ets; simpl in Ht; [| inversion Ht].
      specialize (Hn _ _ Ets). rewrite Forall_forall in Hn.
      specialize (Hn t Ht). congruence.
    - unfold py_getitem, as_dict. rewrite Ho. simpl. rewrite Hhx, Ew. reflexivity. }
  rewrite H2a in H2a'. injection H2a' as <-.
  pose proof (lookup_lt_Some _ _ _ H2a) as Hlt.
  eexists _, _, (VRef a1). split; [exact E |]. split.
  - unfold py_getitem, as_dict. rewrite list_lookup_insert_ne by exact Hne.
    rewrite H2c; simpl. rewrite Halg'. reflexivity.
  - unfold py_getitem, as_dict. rewrite list_lookup_insert_eq by exact Hlt.
    simpl. rewrite Hhx. rewrite fold_set_entry_keep by exact Hsilent.
    rewrite Hkeep, assoc_get_ren_entries, Hax. simpl.
    rewrite (ren_hashable _ _ Hv). reflexivity.
Qed.

(** X7: the global [algorithm] is the baseline of the merge: an entry that
    neither a bundle of a resolved analysis type nor the sample's own
    [algorithm] mapping sets is, in the configuration returned, what the
    global configuration says. *)
Theorem update_config_global_survives :
  forall (h : heap) (config lane_info alg cav x v : val)
         (items : list (val * val)),
    merge_okb h config lane_info = true ->
    py_getitem h config (VStr "algorithm") = Ok alg ->
    py_getitem h alg x = Ok v -> hashable v = true ->
    py_getitem h config (VStr "custom_algorithms") = Ok cav ->
    Forall (fun t => forall bv w, py_getitem h cav t = Ok bv ->
                       py_getitem h bv x <> Ok w)
           (sample_types h lane_info) ->
    lane_algorithm_items h lane_info = Ok items ->
    assoc_get items x = None ->
    exists h' cfg' alg',
      _update_config_w_custom h config lane_info = Ok (h', cfg') /\
      py_getitem h' cfg' (VStr "algorithm") = Ok alg' /\
      py_getitem h' alg' x = Ok v.
Proof. intros. eapply merge_global_survives; eauto. Qed.

(** X15: what one sample sets, the next inherits.  When the merge for a
    sample that sets [algorithm.x] is followed by the merge for a sample
    that is silent about [x], from the configuration the first returned (as
    the loop of [process_lane] does), the second configuration holds the
    first sample's value under [algorithm.x], unless a bundle the second
    sample uses sets [x]. *)
Theorem update_config_carries_over :
  forall (h h1 : heap) (config config1 itemA itemB la cav x v : val)
         (items : list (val * val)),
    merge_okb h config itemA = true ->
    py_getitem h itemA (VStr "algorithm") = Ok la ->
    py_getitem h la x = Ok v -> hashable v = true ->
    _update_config_w_custom h config itemA = Ok (h1, config1) ->
    merge_okb h1 config1 itemB = true ->
    py_getitem h1 config1 (VStr "custom_algorithms") = Ok cav ->
    Forall (fun t => forall bv w, py_getitem h1 cav t = Ok bv ->
                       py_getitem h1 bv x <> Ok w)
           (sample_types h1 itemB) ->
    lane_algorithm_items h1 itemB = Ok items ->
    assoc_get items x = None ->
    exists h2 config2 alg2,
      _update_config_w_custom h1 config1 itemB = Ok (h2, config2) /\
      py_getitem h2 config2 (VStr "algorithm") = Ok alg2 /\
      py_getitem h2 alg2 x = Ok v.
Proof.
  intros * HokA Hla Hx Hv EA HokB Hcav Hsil Hitems Hsilent.
  destruct (update_config_sample_wins _ _ _ _ _ _ HokA Hla Hx)
    as (h' & cfg' & alg' & E & Halg' & Hx').
  rewrite EA in E. injection E as <- <-.
  eapply merge_global_survives; eauto.
Qed.

(** A merge that returns, returns an object: the copy's
    [custom_algorithms] was subscripted at least once. *)
Lemma merge_returns_ref (h h' : heap) (config lane_info cfg' : val) :
  _update_config_w_custom h config lane_info = Ok (h', cfg') ->
  exists l, cfg' = VRef l.
Proof.
  unfold _update_config_w_custom.
  destruct (deepcopy h config) as [[h1 c1]|]; simpl; [| discriminate].
  destruct (py_get h1 lane_info (VStr "analysis") VNone) as [base|]; simpl;
    [| discriminate].
  destruct (name_remaps_get base) as [types|] eqn:Et; simpl; [| discriminate].
  pose proof (name_remaps_get_nonempty _ _ Et) as Hne.
  destruct types as [|t types]; [congruence |].
  destruct (overlay_custom c1 (t :: types) h1) as [h2|] eqn:E2; simpl;
    [| discriminate].
  destruct (lane_algorithm_items h2 lane_info) as [items|]; simpl; [| discriminate].
  destruct (overlay_items c1 items h2) as [h3|]; simpl; [| discriminate].
  intros [= _ <-]. simpl in E2.
  destruct (py_getitem h1 c1 (VStr "custom_algorithms")) as [ca|] eqn:Eca;
    [| discriminate].
  apply py_getitem_dict in Eca as (l & d & -> & _). eauto.
Qed.

(** * Further properties of process_lane *)

Section lane_further.
Variable repr_obj : heap -> loc -> string.
Variable get_fastq_files :
  heap -> val -> val -> val -> val -> val -> val -> res (val * val).
Variable split_by_barcode :
  heap -> val -> val -> list val -> string -> val -> val -> res bc_map.
Variable safe_makedir : string -> res string.
Variable split_read_files :
  heap -> val -> val -> val -> val -> string -> val -> val -> res (list split_unit).

Local Notation prep := (_prep_fastq_files safe_makedir split_read_files).
Local Notation record := (lane_record repr_obj).
Local Notation units_loop := (lane_units repr_obj).
Local Notation loop := (lane_loop repr_obj safe_makedir split_read_files).
Local Notation lane :=
  (process_lane repr_obj get_fastq_files split_by_barcode safe_makedir split_read_files).

(** What a call that returns went through before its loop. *)
Lemma process_lane_run (h h' : heap) (lane_items : list val)
    (fc_name fc_date dirs config : val) (recs : list dispatch) :
  lane h lane_items fc_name fc_date dirs config = Ok (h', recs) ->
  exists item0 rest lane_id fastq_dir work_dir h1 config0 bc,
    lane_items = item0 :: rest /\
    py_getitem h item0 (VStr "lane") = Ok lane_id /\
    py_getitem h dirs (VStr "fastq") = Ok fastq_dir /\
    py_getitem h dirs (VStr "work") = Ok work_dir /\
    _update_config_w_custom h config item0 = Ok (h1, config0) /\
    loop bc (py_str repr_obj h lane_id +:+ "_" +:+ py_str repr_obj h fc_date
             +:+ "_" +:+ py_str repr_obj h fc_name)
         dirs lane_items h1 config [] = Ok (h', recs).
Proof.
  unfold process_lane.
  destruct lane_items as [|item0 rest]; simpl; [discriminate |].
  destruct (py_getitem h item0 (VStr "lane")) as [lane_id|] eqn:El; simpl;
    [| discriminate].
  destruct (py_getitem h dirs (VStr "fastq")) as [fastq_dir|] eqn:Ef; simpl;
    [| discriminate].
  destruct (py_getitem h dirs (VStr "work")) as [work_dir|] eqn:Ew; simpl;
    [| discriminate].
  destruct (_update_config_w_custom h config item0) as [[h1 config0]|] eqn:Em;
    simpl; [| discriminate].
  destruct (get_fastq_files _ _ _ _ _ _ _) as [[fastq1 fastq2]|]; simpl;
    [| discriminate].
  destruct (split_by_barcode _ _ _ _ _ _ _) as [bc|] eqn:Ebc; simpl; [| discriminate].
  intros Hrun. exists item0, rest, lane_id, fastq_dir, work_dir, h1, config0, bc.
  splits; auto.
Qed.

(** The loop, round by round: its merges are those of [merge_chain], the
    split units of a round are the plan made after the round's merge, and
    its records are, in order, one per split unit of each round. *)
Lemma lane_loop_rounds (bc : bc_map) (lane_name : string) (dirs : val)
    (items : list val) :
  forall (h h' : heap) (config : val) (out out' : list dispatch),
    loop bc lane_name dirs items h config out = Ok (h', out') ->
    exists rounds rs,
      map round_item rounds = items /\
      rounds_from safe_makedir split_read_files bc dirs h config rounds h' /\
      merge_chain h config items = Ok (h', map round_config rounds) /\
      out' = out ++ rs /\
      Forall2 (record_of lane_name dirs) (flat_map round_work rounds) rs.
Proof.
  induction items as [|item rest IH]; intros h h' config out out'; simpl.
  - intros [= <- <-]. exists [], []. rewrite app_nil_r. splits; auto.
    reflexivity.
  - destruct (_update_config_w_custom h config item) as [[h1 config1]|] eqn:Em;
      simpl; [| discriminate].
    destruct (py_getitem h1 item (VStr "barcode_id")) as [b|] eqn:Eb; simpl;
      [| discriminate].
    destruct (bc_has_key bc b) as [present|] eqn:Ep; simpl; [| discriminate].
    pose proof (bc_has_key_hashable _ _ _ Ep) as Hhb.
    unfold bc_has_key in Ep. rewrite Hhb in Ep. injection Ep as <-.
    destruct (bool_decide (is_Some (bc_lookup bc b))) eqn:Ebd.
    + destruct (prep h1 item bc dirs config1) as [units|] eqn:Eu; simpl;
        [| discriminate].
      destruct (units_loop h1 item lane_name dirs config1 units out) as [out1|] eqn:El;
        simpl; [| discriminate].
      intros Hrun.
      destruct (IH _ _ _ _ _ Hrun) as (rounds & rs & Hit & Hfrom & Hch & -> & Hrs).
      destruct (lane_units_records _ _ _ _ _ _ _ _ _ El) as (rs1 & -> & Hrs1).
      exists ((item, config1, units) :: rounds), (rs1 ++ rs).
      simpl. rewrite Hit, Hch, app_assoc. simpl. splits; auto.
      * exists h1. splits; auto. exists b. rewrite Ebd. auto.
      * apply Forall2_app; assumption.
    + simpl. intros Hrun.
      destruct (IH _ _ _ _ _ Hrun) as (rounds & rs & Hit & Hfrom & Hch & -> & Hrs).
      exists ((item, config1, []) :: rounds), rs.
      simpl. rewrite Hit, Hch. simpl. splits; auto.
      exists h1. splits; auto. exists b. rewrite Ebd. auto.
Qed.

(** X8: the records of a call, read as rounds.  There is one round per
    sample, in the order of the list, each with the configuration its merge
    returned; the merges form a chain, each starting from the configuration
    of the round before, the first from the configuration passed in (the
    merge done before the loop for the first sample only serves the file
    discovery).  The split units of a round are the plan
    [_prep_fastq_files] makes for the sample, with the round's
    configuration and the barcode map the demultiplexer returned, or none
    when the barcode id of the sample is no key of that map.  The records
    are, in order, one per split unit of each round, with the round's sample
    and configuration, the unit's files, the directories passed in, and a
    lane name that extends [lane_date_flowcell] of the first sample. *)
Theorem process_lane_rounds :
  forall (h h' : heap) (lane_items : list val) (fc_name fc_date dirs config : val)
         (recs : list dispatch),
    lane h lane_items fc_name fc_date dirs config = Ok (h', recs) ->
    exists item0 h1 config0 lane_id fastq_dir work_dir fastq1 fastq2 bc rounds,
      let base := py_str repr_obj h lane_id +:+ "_" +:+ py_str repr_obj h fc_date
                  +:+ "_" +:+ py_str repr_obj h fc_name in
      head lane_items = Some item0 /\
      py_getitem h item0 (VStr "lane") = Ok lane_id /\
      py_getitem h dirs (VStr "fastq") = Ok fastq_dir /\
      py_getitem h dirs (VStr "work") = Ok work_dir /\
      _update_config_w_custom h config item0 = Ok (h1, config0) /\
      get_fastq_files h1 fastq_dir work_dir item0 fc_name dirs config0
      = Ok (fastq1, fastq2) /\
      split_by_barcode h1 fastq1 fastq2 lane_items base dirs config = Ok bc /\
      map round_item rounds = lane_items /\
      rounds_from safe_makedir split_read_files bc dirs h1 config rounds h' /\
      merge_chain h1 config lane_items = Ok (h', map round_config rounds) /\
      Forall2 (record_of base dirs) (flat_map round_work rounds) recs.
Proof.
  intros * Hrun. unfold process_lane in Hrun.
  destruct lane_items as [|item0 rest]; [discriminate |].
  change (list_index (item0 :: rest) 0) with (@Ok val item0) in Hrun.
  cbn [bind] in Hrun.
  destruct (py_getitem h item0 (VStr "lane")) as [lane_id|] eqn:El;
    cbn [bind] in Hrun; [| discriminate].
  destruct (py_getitem h dirs (VStr "fastq")) as [fastq_dir|] eqn:Ef;
    cbn [bind] in Hrun; [| discriminate].
  destruct (py_getitem h dirs (VStr "work")) as [work_dir|] eqn:Ew;
    cbn [bind] in Hrun; [| discriminate].
  destruct (_update_config_w_custom h config item0) as [[h1 config0]|] eqn:Em;
    cbn [bind] in Hrun; [| discriminate].
  destruct (get_fastq_files h1 fastq_dir work_dir item0 fc_name dirs config0)
    as [[fastq1 fastq2]|] eqn:Eg; cbn [bind] in Hrun; [| discriminate].
  destruct (split_by_barcode h1 fastq1 fastq2 (item0 :: rest) _ dirs config)
    as [bc|] eqn:Ebc; cbn [bind] in Hrun; [| discriminate].
  apply lane_loop_rounds in Hrun as (rounds & rs & Hit & Hfrom & Hch & -> & Hrs).
  exists item0, h1, config0, lane_id, fastq_dir, work_dir, fastq1, fastq2, bc, rounds.
  cbv zeta. splits; auto.
Qed.

(** The loop leaves the objects it started with as they were, and the
    configurations of its records are objects it created. *)
Lemma lane_loop_frame (bc : bc_map) (lane_name : string) (dirs : val)
    (items : list val) :
  forall (h h' : heap) (config : val) (out out' : list dispatch),
    loop_inv h config ->
    Forall (fun it => val_inb (length h) it = true) items ->
    loop bc lane_name dirs items h config out = Ok (h', out') ->
    (forall l, (l < length h)%nat -> h' !! l = h !! l) /\
    (length h <= length h')%nat /\ wf_heap h' = true /\
    exists rs, out' = out ++ rs /\
      Forall (fun r => exists l, d_config r = VRef l /\
                         (length h <= l < length h')%nat) rs.
Proof.
  induction items as [|item rest IH]; intros h h' config out out' Hinv Hit.
  - simpl. intros [= <- <-]. destruct Hinv as (Hwf & _). splits; auto.
    exists []. rewrite app_nil_r. auto.
  - inversion Hit as [|? ? Hitem Hrest]; subst. intros Hrun.
    destruct (lane_loop_step _ _ _ _ _ _ _ _ _ _ _ _ _ Hinv Hitem Hrun)
      as (h1 & config1 & b & out1 & Em & Hinv1 & Hold & Hlen & Hb & Hb1 & Hhb
          & Hstep & Hnext).
    assert (Hrest1 : Forall (fun it => val_inb (length h1) it = true) rest).
    { eapply Forall_impl; [exact Hrest |]. simpl. eauto using val_inb_mono. }
    destruct (IH _ _ _ _ _ Hinv1 Hrest1 Hnext)
      as (Hold' & Hlen' & Hwf' & rs & -> & Hrs).
    destruct Hinv as (Hwf & Hin & Hns).
    destruct (merge_effect _ _ _ _ _ Hwf Hin Hns Em)
      as (_ & _ & _ & Hin1 & _ & Hnew).
    destruct (merge_returns_ref _ _ _ _ _ Em) as [l1 ->].
    simpl in Hin1. apply Nat.ltb_lt in Hin1. specialize (Hnew l1 eq_refl).
    splits.
    + intros l Hl. rewrite Hold' by lia. apply Hold. exact Hl.
    + lia.
    + exact Hwf'.
    + assert (Hrs' : Forall (fun r => exists l, d_config r = VRef l /\
                            (length h <= l < length h')%nat) rs).
      { eapply Forall_impl; [exact Hrs |]. simpl. intros r (l & Hl & Hr).
        exists l. split; [exact Hl | lia]. }
      destruct (bool_decide (is_Some (bc_lookup bc b))).
      * destruct Hstep as (units & Eu & El).
        destruct (lane_units_shape _ _ _ _ _ _ _ _ Hb1 _ _ El) as (rs1 & -> & Hrs1 & _).
        exists (rs1 ++ rs). rewrite app_assoc. split; [reflexivity |].
        apply Forall_app. split; [| exact Hrs'].
        eapply Forall_impl; [exact Hrs1 |]. simpl. intros r [_ ->].
        exists l1. split; [reflexivity | lia].
      * subst out1. exists rs. auto.
Qed.

(** X9: a call that returns has changed no object of the store it was
    called on: not the global configuration, not a sample descriptor, not
    the directories.  What it adds are the configurations it built, and
    every record carries one of those, never the configuration passed in.
    The store is a Python store and the configuration's [algorithm] is not
    the configuration itself. *)
Theorem process_lane_keeps_store :
  forall (h h' : heap) (lane_items : list val) (fc_name fc_date dirs config : val)
         (recs : list dispatch),
    wf_heap h = true -> val_inb (length h) config = true ->
    algorithm_not_selfb h config = true ->
    Forall (fun it => val_inb (length h) it = true) lane_items ->
    lane h lane_items fc_name fc_date dirs config = Ok (h', recs) ->
    (forall l o, h !! l = Some o -> h' !! l = Some o) /\
    wf_heap h' = true /\
    Forall (fun r => exists l, d_config r = VRef l /\
                       h !! l = None /\ is_Some (h' !! l)) recs.
Proof.
  intros * Hwf Hin Hns%algorithm_not_selfb_sound Hitems Hrun.
  apply process_lane_run in Hrun
    as (item0 & rest & lane_id & fastq_dir & work_dir & h1 & config0 & bc
        & -> & _ & _ & _ & Em & Hloop).
  destruct (merge_effect _ _ _ _ _ Hwf Hin Hns Em) as (Hold & Hlen & Hwf1 & _).
  assert (Hinv1 : loop_inv h1 config).
  { apply (loop_inv_frame h); auto. unfold loop_inv. auto. }
  assert (Hitems1 : Forall (fun it => val_inb (length h1) it = true) (item0 :: rest)).
  { eapply Forall_impl; [exact Hitems |]. simpl. eauto using val_inb_mono. }
  destruct (lane_loop_frame _ _ _ _ _ _ _ _ _ Hinv1 Hitems1 Hloop)
    as (Hold' & Hlen' & Hwf' & rs & -> & Hrs).
  splits.
  - intros l o Hl. pose proof (lookup_lt_Some _ _ _ Hl) as Hlt.
    rewrite Hold' by lia. rewrite Hold by exact Hlt. exact Hl.
  - exact Hwf'.
  - simpl. eapply Forall_impl; [exact Hrs |]. simpl. intros r (l & Hl & Hr).
    exists l. splits; auto.
    + apply lookup_ge_None. lia.
    + apply lookup_lt_is_Some. lia.
Qed.

(** X10: a call returns only when every sample descriptor has a
    [barcode_id] entry with a hashable value, the samples that are not
    barcoded included (theirs is null); the first has a [lane] entry and
    the directories name [fastq] and [work]. *)
Theorem process_lane_required_keys :
  forall (h h' : heap) (lane_items : list val) (fc_name fc_date dirs config : val)
         (recs : list dispatch),
    wf_heap h = true -> val_inb (length h) config = true ->
    algorithm_not_selfb h config = true ->
    Forall (fun it => val_inb (length h) it = true) lane_items ->
    lane h lane_items fc_name fc_date dirs config = Ok (h', recs) ->
    Forall (fun it => exists b, py_getitem h it (VStr "barcode_id") = Ok b /\
                        hashable b = true) lane_items /\
    (exists item0 lane_id, head lane_items = Some item0 /\
       py_getitem h item0 (VStr "lane") = Ok lane_id) /\
    (exists fastq_dir work_dir,
       py_getitem h dirs (VStr "fastq") = Ok fastq_dir /\
       py_getitem h dirs (VStr "work") = Ok work_dir).
Proof.
  intros * Hwf Hin Hns%algorithm_not_selfb_sound Hitems Hrun.
  apply process_lane_run in Hrun
    as (item0 & rest & lane_id & fastq_dir & work_dir & h1 & config0 & bc
        & -> & Hlane & Hfq & Hwk & Em & Hloop).
  splits; eauto.
  destruct (merge_effect _ _ _ _ _ Hwf Hin Hns Em) as (Hold & Hlen & Hwf1 & _).
  assert (Hinv1 : loop_inv h1 config).
  { apply (loop_inv_frame h); auto. unfold loop_inv. auto. }
  assert (Hitems1 : Forall (fun it => val_inb (length h1) it = true) (item0 :: rest)).
  { eapply Forall_impl; [exact Hitems |]. simpl. eauto using val_inb_mono. }
  assert (Hall : Forall (fun it => exists b,
                   py_getitem h1 it (VStr "barcode_id") = Ok b /\ hashable b = true)
                 (item0 :: rest)).
  { clear Hitems Em Hlane. revert Hinv1 Hitems1 Hloop.
    generalize (@nil dispatch) as out. generalize config as cfg.
    generalize h1 as h0. generalize (item0 :: rest) as items.
    induction items as [|item items IH]; intros h0 cfg out Hinv0 Hit0 Hrun;
      [constructor |].
    inversion Hit0 as [|? ? Hitem Hrest]; subst.
    destruct (lane_loop_step _ _ _ _ _ _ _ _ _ _ _ _ _ Hinv0 Hitem Hrun)
      as (h2 & config1 & b & out1 & _ & Hinv2 & Hold2 & Hlen2 & Hb & _ & Hhb
          & _ & Hnext).
    assert (Hrest2 : Forall (fun it => val_inb (length h2) it = true) items).
    { eapply Forall_impl; [exact Hrest |]. simpl. eauto using val_inb_mono. }
    constructor; [eauto |].
    specialize (IH _ _ _ Hinv2 Hrest2 Hnext).
    rewrite Forall_forall in IH, Hrest. apply Forall_forall. intros it Hin0.
    destruct (IH it Hin0) as (b' & Hb' & Hhb'). exists b'. split; [| exact Hhb'].
    rewrite <- (py_getitem_frame (length h0) h0 h2); auto. }
  rewrite Forall_forall in Hall, Hitems. apply Forall_forall. intros it Hin0.
  destruct (Hall it Hin0) as (b & Hb & Hhb). exists b. split; [| exact Hhb].
  rewrite <- (py_getitem_frame (length h) h h1); auto.
Qed.

End lane_further.

(** * What the merge reads of a sample *)

(** X11: the merge reads a sample descriptor only through the analysis
    types its [analysis] entry resolves to and through the entries of its
    own [algorithm] mapping.  Two samples that agree on both get the same
    configuration, in the same store: so do the synonyms [variant] and
    [SNP calling]. *)
Theorem update_config_sample_view :
  forall (h : heap) (config lane_info1 lane_info2 base1 base2 : val),
    wf_heap h = true -> val_inb (length h) config = true ->
    algorithm_not_selfb h config = true ->
    py_get h lane_info1 (VStr "analysis") VNone = Ok base1 ->
    py_get h lane_info2 (VStr "analysis") VNone = Ok base2 ->
    name_remaps_get base1 = name_remaps_get base2 ->
    lane_algorithm_items h lane_info1 = lane_algorithm_items h lane_info2 ->
    _update_config_w_custom h config lane_info1
    = _update_config_w_custom h config lane_info2.
Proof.
  intros * Hwf Hin Hns%algorithm_not_selfb_sound Hb1 Hb2 Hrem Hitems.
  pose proof (py_get_in_range _ _ _ _ _ Hb1) as Hin1.
  pose proof (py_get_in_range _ _ _ _ _ Hb2) as Hin2.
  unfold _update_config_w_custom.
  destruct (deepcopy_correct h Hwf config Hin) as (h1 & m & E & Hinv & Hcov).
  rewrite E; simpl.
  pose proof (ci_old _ _ _ _ Hinv) as Hold.
  rewrite !(py_get_frame (length h) h h1) by auto.
  rewrite Hb1, Hb2; simpl. rewrite Hrem.
  destruct (name_remaps_get base2) as [types|] eqn:Et; simpl; [| reflexivity].
  destruct (overlay_custom (ren m config) types h1) as [h2|] eqn:E2; simpl;
    [| reflexivity].
  assert (Hold2 : forall l, (l < length h)%nat -> h2 !! l = h !! l).
  { apply name_remaps_get_nonempty in Et.
    destruct types as [|t types]; [congruence |].
    destruct config as [| | | | c]; try (simpl in E2; discriminate).
    destruct Hcov as [c' Hc']. unfold ren in E2. rewrite Hc' in E2.
    destruct (ci_done _ _ _ _ Hinv c c' Hc') as (o & Ho & H1c & Hoc); [tauto |].
    destruct o as [cd | xs].
    2:{ simpl in E2. unfold py_getitem, as_dict in E2. rewrite H1c in E2.
        discriminate. }
    simpl in H1c.
    pose proof (copied_algorithm_fresh _ _ _ _ _ _ Hinv Hc' Ho Hoc
                  (Hns c cd eq_refl Ho)) as Hfresh.
    assert (Hne : forall a, assoc_get (ren_entries m cd) (VStr "algorithm")
                            = Some (VRef a) -> a <> c')
      by (intros a Ha; apply (Hfresh a Ha)).
    pose proof (copy_inv_wf _ _ _ Hwf Hinv) as Hwf1.
    pose proof (overlay_custom_update _ _ _ _ _ Hwf1 H1c Hne E2) as U2.
    intros l Hl. rewrite (alg_update_other _ _ _ l U2).
    - apply Hold. exact Hl.
    - intros a Ha. destruct (Hfresh a Ha). lia. }
  rewrite !(lane_algorithm_items_frame h h2) by auto.
  rewrite Hitems. reflexivity.
Qed.

(** * Further properties of the records *)

Section record_further.
Variable repr_obj : heap -> loc -> string.
Variable fs_exists : string -> bool.
Variable align_to_sort_bam :
  heap -> val -> val -> val -> val -> val -> val -> val -> val -> res val.
Variable runner : Type.
Variable runner_from_config : heap -> val -> res runner.
Variable run_picard_sort : runner -> val -> val -> string -> res val.

Local Notation record := (lane_record repr_obj).
Local Notation align :=
  (process_alignment fs_exists align_to_sort_bam runner runner_from_config
     run_picard_sort).

(** X12: the description of a record, for a sample with a [description]
    and a [barcode_id].  A sample without a [name], or with one that is
    false in a condition, is described by its [description], and the
    configuration is not consulted: the record is built whatever the
    configuration is, and only carries it.  For a named sample the
    configuration's [algorithm] mapping is read, and the description is
    [name : description] unless [include_short_name], which defaults to
    true, is false in a condition.  The lane name is the same in all
    cases. *)
Theorem lane_record_description :
  forall (h : heap) (item dirs desc name b fastq1 fastq2 lane_ext : val)
         (lane_name : string),
    py_getitem h item (VStr "description") = Ok desc ->
    py_get h item (VStr "name") (VStr "") = Ok name ->
    py_getitem h item (VStr "barcode_id") = Ok b ->
    exists cur_lane_name,
      (truthy h name = false ->
       forall config,
         record h item lane_name dirs config (fastq1, fastq2, lane_ext)
         = Ok (MkDispatch fastq1 fastq2 item cur_lane_name desc dirs config)) /\
      (truthy h name = true ->
       forall config,
         record h item lane_name dirs config (fastq1, fastq2, lane_ext)
         = let* alg := py_getitem h config (VStr "algorithm") in
           let* inc := py_get h alg (VStr "include_short_name") (VBool true) in
           Ok (MkDispatch fastq1 fastq2 item cur_lane_name
                 (if truthy h inc
                  then VStr (py_str repr_obj h name +:+ " : " +:+ py_str repr_obj h desc)
                  else desc)
                 dirs config)).
Proof.
  intros * Hdesc Hname Hb.
  eexists. split; intros Htr config; unfold lane_record;
    rewrite Hdesc, Hname; simpl; rewrite Htr; simpl.
  - rewrite Hb. simpl. reflexivity.
  - destruct (py_getitem h config (VStr "algorithm")) as [alg|]; simpl;
      [| reflexivity].
    destruct (py_get h alg (VStr "include_short_name") (VBool true)) as [inc|];
      simpl; [| reflexivity].
    assert (Hnm : py_getitem h item (VStr "name") = Ok name).
    { unfold py_get in Hname. unfold py_getitem.
      destruct (as_dict h item AttributeError) as [d|] eqn:Ed; [| discriminate].
      rewrite (as_dict_exn _ _ _ TypeError _ Ed). simpl in *.
      destruct (assoc_get d (VStr "name")) as [x|]; [exact Hname |].
      injection Hname as <-. discriminate. }
    destruct (truthy h inc); simpl; rewrite ?Hnm; simpl; rewrite Hb; reflexivity.
Qed.

(** X13: [process_alignment] wants a path.  With a first read file that is
    not a string (null, as [trim_lane] can hand on) it raises TypeError,
    whatever the aligner and the file system. *)
Theorem process_alignment_wants_path :
  forall (h : heap)
         (fastq1 fastq2 info lane_name lane_desc dirs config alg aligner : val),
    py_getitem h config (VStr "algorithm") = Ok alg ->
    py_get h alg (VStr "aligner") VNone = Ok aligner ->
    (forall s, fastq1 <> VStr s) ->
    align h fastq1 fastq2 info lane_name lane_desc dirs config = Raise TypeError.
Proof.
  intros * Halg Hal Hns. unfold process_alignment.
  rewrite Halg; simpl. rewrite Hal; simpl.
  destruct fastq1; try reflexivity. exfalso. eapply Hns. reflexivity.
Qed.

End record_further.

(** * Paths *)

Lemma str_length_app (s t : string) :
  String.length (s +:+ t) = (String.length s + String.length t)%nat.
Proof.
  induction s as [|a s IH]; [reflexivity |].
  rewrite str_app_cons. simpl. rewrite IH. reflexivity.
Qed.

Lemma substring_full (s : string) : String.substring 0 (String.length s) s = s.
Proof. induction s as [|a s IH]; simpl; [reflexivity | rewrite IH; reflexivity]. Qed.

Lemma substring_skip (pre s : string) (m : nat) :
  String.substring (String.length pre) m (pre +:+ s) = String.substring 0 m s.
Proof.
  induction pre as [|a pre IH]; [reflexivity |].
  rewrite str_app_cons. simpl. exact IH.
Qed.

Lemma substring_take (pre s : string) :
  String.substring 0 (String.length pre) (pre +:+ s) = pre.
Proof.
  induction pre as [|a pre IH]; [destruct s; reflexivity |].
  rewrite str_app_cons. simpl. rewrite IH. reflexivity.
Qed.

Lemma str_contains_app (c : ascii) (s t : string) :
  str_contains c (s +:+ t) = str_contains c s || str_contains c t.
Proof.
  induction s as [|a s IH]; [reflexivity |].
  rewrite str_app_cons. simpl. rewrite IH. apply orb_assoc.
Qed.

(** ** Prefixes and suffixes *)

Lemma prefix_spec (a b : string) :
  String.prefix a b = true <-> exists c, b = a +:+ c.
Proof.
  revert b. induction a as [|x a IH]; intros b.
  - split; [exists b; reflexivity | destruct b; reflexivity].
  - destruct b as [|y b]; cbn [String.prefix].
    + split; [discriminate | intros [c Hc]; rewrite str_app_cons in Hc; discriminate].
    + destruct (ascii_dec x y) as [<- | Hne].
      * rewrite IH. split; intros [c Hc]; exists c.
        -- rewrite str_app_cons, Hc. reflexivity.
        -- rewrite str_app_cons in Hc. congruence.
      * split; [discriminate |]. intros [c Hc]. rewrite str_app_cons in Hc.
        congruence.
Qed.

Lemma rev_app_spec (s acc : string) :
  String.rev_app s acc = String.rev s +:+ acc.
Proof.
  unfold String.rev. revert acc. induction s as [|a s IH]; intros acc; simpl.
  - reflexivity.
  - rewrite (IH (String a acc)), (IH (String a "")).
    rewrite str_app_assoc. reflexivity.
Qed.

Lemma rev_cons (a : ascii) (s : string) :
  String.rev (String a s) = String.rev s +:+ String a "".
Proof. unfold String.rev at 1. simpl. apply rev_app_spec. Qed.

Lemma rev_app_distr (s t : string) :
  String.rev (s +:+ t) = String.rev t +:+ String.rev s.
Proof.
  induction s as [|a s IH].
  - rewrite str_app_nil_l, str_app_nil_r. reflexivity.
  - rewrite str_app_cons, !rev_cons, IH, str_app_assoc. reflexivity.
Qed.

Lemma rev_involutive (s : string) : String.rev (String.rev s) = s.
Proof.
  induction s as [|a s IH]; [reflexivity |].
  rewrite rev_cons, rev_app_distr, IH. reflexivity.
Qed.

(** [s.endswith(t)] says that [s] ends with [t]. *)
Lemma str_endswith_spec (s t : string) :
  str_endswith s t = true <-> exists x, s = x +:+ t.
Proof.
  unfold str_endswith. rewrite prefix_spec. split.
  - intros [c Hc]. exists (String.rev c).
    rewrite <- (rev_involutive s), Hc, rev_app_distr, rev_involutive. reflexivity.
  - intros [x ->]. exists (String.rev x). apply rev_app_distr.
Qed.

(** Two ways to cut one string: one of the cuts comes first. *)
Lemma str_app_cuts (a b c d : string) :
  a +:+ b = c +:+ d ->
  (exists e, a = c +:+ e /\ d = e +:+ b) \/ (exists e, c = a +:+ e /\ b = e +:+ d).
Proof.
  revert c. induction a as [|x a IH]; intros c.
  - rewrite str_app_nil_l. intros ->. right. exists c. auto.
  - destruct c as [|y c].
    + rewrite str_app_nil_l. intros <-. left. exists (String x a). auto.
    + rewrite !str_app_cons. intros [= <- H].
      destruct (IH c H) as [(e & -> & ->) | (e & -> & ->)]; [left | right];
        exists e; rewrite str_app_cons; auto.
Qed.

Lemma str_last_char (c : ascii) (x e d : string) :
  x +:+ e = d +:+ String c "" -> e <> "" -> str_contains c e = true.
Proof.
  revert d. induction x as [|a x IH]; intros d.
  - rewrite str_app_nil_l. intros -> _. rewrite str_contains_app. simpl.
    rewrite Ascii.eqb_refl. apply orb_true_r.
  - destruct d as [|a' d].
    + rewrite str_app_cons, str_app_nil_l. intros [= _ H] He.
      destruct x; [rewrite str_app_nil_l in H; congruence | discriminate].
    + rewrite !str_app_cons. intros [= _ H]. eauto.
Qed.

(** The last occurrence of a character cuts a string in one way only. *)
Lemma str_last_cut_unique (c : ascii) (a a' b b' : string) :
  a +:+ String c b = a' +:+ String c b' ->
  str_contains c b = false -> str_contains c b' = false ->
  a = a' /\ b = b'.
Proof.
  revert a'. induction a as [|x a IH]; intros [|y a'];
    rewrite ?str_app_cons, ?str_app_nil_l.
  - intros [= ->]. auto.
  - intros [= <- ->] Hb _. rewrite str_contains_app in Hb. simpl in Hb.
    rewrite Ascii.eqb_refl, orb_true_r in Hb. discriminate.
  - intros [= -> <-] _ Hb. rewrite str_contains_app in Hb. simpl in Hb.
    rewrite Ascii.eqb_refl, orb_true_r in Hb. discriminate.
  - intros [= <- H] Hb Hb'. destruct (IH a' H Hb Hb') as [-> ->]. auto.
Qed.

(** ** [rfind], [basename] and [splitext] *)

(** [rfind] finds the last occurrence. *)
Lemma rfind_go_spec (c : ascii) (s : string) :
  forall i last,
    (str_contains c s = false /\ rfind_go c s i last = last) \/
    (exists pre post, s = pre +:+ String c post /\ str_contains c post = false /\
       rfind_go c s i last = (i + Z.of_nat (String.length pre))%Z).
Proof.
  induction s as [|a s IH]; intros i last; simpl; [left; auto |].
  destruct (IH (i + 1)%Z (if Ascii.eqb a c then i else last))
    as [[Hno Hr] | (pre & post & -> & Hpost & Hr)].
  - destruct (Ascii.eqb a c) eqn:Eac.
    + right. apply Ascii.eqb_eq in Eac. subst a. exists "", s.
      rewrite Hr. simpl. splits; auto. lia.
    + left. simpl. auto.
  - right. exists (String a pre), post. rewrite Hr. splits; auto.
    simpl String.length. lia.
Qed.

(** [basename] is what follows the last slash. *)
Lemma basename_spec (s : string) :
  exists dir, s = dir +:+ os_path_basename s /\
              (dir = "" \/ exists d, dir = d +:+ "/") /\
              str_contains "/"%char (os_path_basename s) = false.
Proof.
  unfold os_path_basename, str_rfind.
  destruct (rfind_go_spec "/"%char s 0 (-1))
    as [[Hno ->] | (pre & post & -> & Hpost & ->)].
  - simpl. rewrite Nat.sub_0_r, substring_full. exists "". auto.
  - replace (Z.to_nat (0 + Z.of_nat (String.length pre) + 1))
      with (String.length (pre +:+ "/")) by (rewrite str_length_app; simpl; lia).
    replace (pre +:+ String "/" post) with ((pre +:+ "/") +:+ post)
      by (rewrite str_app_assoc; reflexivity).
    rewrite substring_skip, str_length_app.
    replace (String.length (pre +:+ "/") + String.length post
             - String.length (pre +:+ "/"))%nat with (String.length post) by lia.
    rewrite substring_full. exists (pre +:+ "/"). eauto.
Qed.

(** The file name of a path that ends with [t], a string without slash,
    ends with [t]. *)
Lemma basename_suffix (s x t : string) :
  s = x +:+ t -> str_contains "/"%char t = false ->
  exists dir stem,
    os_path_basename s = stem +:+ t /\ s = dir +:+ stem +:+ t /\
    (dir = "" \/ exists d, dir = d +:+ "/") /\
    str_contains "/"%char stem = false.
Proof.
  intros Hs Ht. destruct (basename_spec s) as (dir & Hdir & Hshape & Hbase).
  assert (Hstem : exists stem, os_path_basename s = stem +:+ t).
  { rewrite Hs in Hdir at 1. symmetry in Hdir.
    destruct (str_app_cuts _ _ _ _ Hdir) as [(e & Hd & He) | (e & Hx & He)].
    - destruct e as [|c e].
      + exists "". rewrite He. reflexivity.
      + exfalso. destruct Hshape as [-> | [d ->]].
        * destruct x; discriminate.
        * assert (Hc : str_contains "/"%char (String c e) = true)
            by (eapply str_last_char; [symmetry; exact Hd | discriminate]).
          rewrite He, str_contains_app, Hc in Ht. discriminate.
    - exists e. exact He. }
  destruct Hstem as [stem Hstem]. exists dir, stem. splits; auto.
  - rewrite <- Hstem. exact Hdir.
  - rewrite Hstem, str_contains_app in Hbase. apply orb_false_iff in Hbase. tauto.
Qed.

(** [splitext] of a file name that ends with [.bam]: the extension goes,
    unless nothing but dots precedes it. *)
Lemma splitext_root_bam (stem : string) :
  str_contains "/"%char stem = false ->
  os_path_splitext_root (stem +:+ ".bam")
  = if existsb (fun ch => negb (Ascii.eqb ch "."%char))
         (String.list_ascii_of_string stem)
    then stem else stem +:+ ".bam".
Proof.
  intros Hstem. unfold os_path_splitext_root, str_rfind.
  destruct (rfind_go_spec "/"%char (stem +:+ ".bam") 0 (-1))
    as [[_ ->] | (pre & post & Hcut & _ & _)].
  2:{ exfalso. assert (Hc : str_contains "/"%char (stem +:+ ".bam") = true).
      { rewrite Hcut, str_contains_app. simpl. rewrite orb_true_r. reflexivity. }
      rewrite str_contains_app, Hstem in Hc. discriminate. }
  destruct (rfind_go_spec "."%char (stem +:+ ".bam") 0 (-1))
    as [[Hno _] | (pre & post & Hcut & Hpost & ->)].
  { rewrite str_contains_app in Hno. simpl in Hno. rewrite orb_true_r in Hno.
    discriminate. }
  destruct (str_last_cut_unique "."%char stem pre "bam" post Hcut eq_refl Hpost)
    as [<- <-].
  replace (-1 <? 0 + Z.of_nat (String.length stem))%Z with true
    by (symmetry; apply Z.ltb_lt; lia).
  replace (Z.to_nat (0 + Z.of_nat (String.length stem))) with (String.length stem)
    by lia.
  simpl Z.to_nat. rewrite Nat.sub_0_r, !substring_take. reflexivity.
Qed.

(** ** [os.path.join] *)

Lemma prefix_slash_app (name t : string) :
  str_contains "/"%char name = false -> String.prefix "/" t = false ->
  String.prefix "/" (name +:+ t) = false.
Proof.
  destruct name as [|a name]; [auto |]. rewrite str_app_cons.
  intros Hn _. simpl in Hn. apply orb_false_iff in Hn as [Hn _].
  cbn [String.prefix].
  destruct (ascii_dec "/" a) as [<- | _]; [discriminate | reflexivity].
Qed.

(** Joining a relative name to a directory: one separator, unless the
    directory is empty or brings its own. *)
Lemma join_step_relative (path b : string) :
  String.prefix "/" b = false ->
  exists sep,
    join_step path b = path +:+ sep +:+ b /\
    (((path = "" \/ exists d, path = d +:+ "/") /\ sep = "") \/
     (path <> "" /\ (forall d, path <> d +:+ "/") /\ sep = "/")).
Proof.
  intros Hb. unfold join_step. rewrite Hb.
  destruct (bool_decide (path = "")) eqn:E1; simpl.
  - apply bool_decide_eq_true in E1. exists "". split; [reflexivity |]. auto.
  - apply bool_decide_eq_false in E1.
    destruct (str_endswith path "/") eqn:E2.
    + apply str_endswith_spec in E2. exists "". split; [reflexivity |]. auto.
    + exists "/". split; [reflexivity |]. right. splits; auto.
      intros d Hd. assert (str_endswith path "/" = true)
        by (apply str_endswith_spec; eauto). congruence.
Qed.

Section sort_path.
Variable fs_exists : string -> bool.
Variable align_to_sort_bam :
  heap -> val -> val -> val -> val -> val -> val -> val -> val -> res val.
Variable runner : Type.
Variable runner_from_config : heap -> val -> res runner.
Variable run_picard_sort : runner -> val -> val -> string -> res val.

Local Notation align :=
  (process_alignment fs_exists align_to_sort_bam runner runner_from_config
     run_picard_sort).

(** X14: where a sorted BAM goes.  The input ends with [.bam]: it is
    [dir] (empty, or ending with a slash), then [stem] (without slash), then
    [.bam].  When it exists and is sorted (no aligner, [bam_sort] set), the
    sort tool is asked to write [name-sort.bam] in the work directory [w],
    whatever [dir] is: [name] is [stem], or [stem.bam] when [stem] is empty
    or made of dots only, and the path is [w], a slash unless [w] is empty
    or ends with one, and [name-sort.bam]. *)
Theorem process_alignment_sort_path :
  forall (h : heap) (s w : string)
         (fastq2 info lane_name lane_desc dirs config alg aligner sort_method : val)
         (r : runner),
    py_getitem h config (VStr "algorithm") = Ok alg ->
    py_get h alg (VStr "aligner") VNone = Ok aligner ->
    fs_exists s = true -> truthy h aligner = false ->
    str_endswith s ".bam" = true ->
    py_get h alg (VStr "bam_sort") VNone = Ok sort_method ->
    truthy h sort_method = true ->
    runner_from_config h config = Ok r ->
    py_getitem h dirs (VStr "work") = Ok (VStr w) ->
    exists dir stem name sep,
      s = dir +:+ stem +:+ ".bam" /\
      (dir = "" \/ exists d, dir = d +:+ "/") /\
      str_contains "/"%char stem = false /\
      name = (if existsb (fun ch => negb (Ascii.eqb ch "."%char))
                   (String.list_ascii_of_string stem)
              then stem else stem +:+ ".bam") /\
      (((w = "" \/ exists d, w = d +:+ "/") /\ sep = "") \/
       (w <> "" /\ (forall d, w <> d +:+ "/") /\ sep = "/")) /\
      align h (VStr s) fastq2 info lane_name lane_desc dirs config
      = let* out := run_picard_sort r (VStr s) sort_method
                      (w +:+ sep +:+ name +:+ "-sort.bam") in
        Ok [MkAlignResult (VStr s, fastq2) out info config].
Proof.
  intros * Halg Hal Hex Htr Hbam Hsort Hstr Hr Hw.
  pose proof Hbam as Hend. apply str_endswith_spec in Hend as [x Hx].
  destruct (basename_suffix s x ".bam" Hx eq_refl)
    as (dir & stem & Hbase & Hs & Hdir & Hstem).
  unfold process_alignment. rewrite Hbase, (splitext_root_bam stem Hstem).
  remember (if existsb (fun ch => negb (Ascii.eqb ch "."%char))
                 (String.list_ascii_of_string stem)
            then stem else stem +:+ ".bam") as name eqn:Hname.
  assert (Hn : str_contains "/"%char name = false).
  { subst name. destruct (existsb _ _); [exact Hstem |].
    rewrite str_contains_app, Hstem. reflexivity. }
  destruct (join_step_relative w (name +:+ "-sort.bam")) as (sep & Hjoin & Hsep).
  { apply prefix_slash_app; auto. }
  exists dir, stem, name, sep. splits; auto.
  rewrite Halg; simpl. rewrite Hal; simpl. rewrite Hex, Htr; simpl.
  rewrite Hbam; simpl. rewrite Hsort; simpl.
  rewrite Hstr, Hr; simpl. rewrite Hw; simpl.
  unfold os_path_join. simpl. rewrite Hjoin. reflexivity.
Qed.

End sort_path.

(** * Evaluations of the further properties *)

Lemma trim_lane_result_shape_witness :
  exists f1 f2,
    [MkDispatch (VStr "a.fq.trimmed") VNone (VRef 3%nat) (VStr "L") (VStr "d")
                (VRef 2%nat) (VRef 0%nat)]
    = [MkDispatch f1 f2 (VRef 3%nat) (VStr "L") (VStr "d") (VRef 2%nat) (VRef 0%nat)].
Proof.
  apply (trim_lane_result_shape Sample.trim_tool Sample.trim_tool Sample.trim_store
           (VStr "a.fq") VNone (VRef 3%nat) (VStr "L") (VStr "d") (VRef 2%nat)
           (VRef 0%nat)).
  reflexivity.
Defined.

Lemma trim_lane_unknown_trimmer_witness :
  trim_lane Sample.trim_tool Sample.trim_tool (Cases.trimmer_store "polyA")
    (VStr "a.fq") (VStr "b.fq") (VRef 3%nat) (VStr "L") (VStr "d") (VRef 2%nat)
    (VRef 0%nat)
  = ([], Ok [MkDispatch (VStr "a.fq") (VStr "b.fq") (VRef 3%nat) (VStr "L")
                        (VStr "d") (VRef 2%nat) (VRef 0%nat)]).
Proof.
  apply (trim_lane_unknown_trimmer Sample.trim_tool Sample.trim_tool
           (Cases.trimmer_store "polyA") (VStr "a.fq") (VStr "b.fq") (VRef 3%nat)
           (VStr "L") (VStr "d") (VRef 2%nat) (VRef 0%nat) (VRef 1%nat) (VBool true)
           (VStr "polyA") "a.fq, b.fq");
    try reflexivity; discriminate.
Defined.

Lemma trim_lane_outputs_witness :
  trim_lane Sample.trim_tool Sample.trim_tool (Cases.trimmer_store "adapter")
    (VStr "a.fq") (VStr "b.fq") (VRef 3%nat) (VStr "L") (VStr "d") (VRef 2%nat)
    (VRef 0%nat)
  = ([CallCutadapt [VStr "a.fq"; VStr "b.fq"] (VRef 2%nat) (VRef 0%nat)],
     trimmed_record [VStr "a.fq.trimmed"; VStr "b.fq.trimmed"] (VStr "b.fq")
       (VRef 3%nat) (VStr "L") (VStr "d") (VRef 2%nat) (VRef 0%nat)).
Proof.
  apply (trim_lane_outputs Sample.trim_tool Sample.trim_tool
           (Cases.trimmer_store "adapter") (VStr "a.fq") (VStr "b.fq") (VRef 3%nat)
           (VStr "L") (VStr "d") (VRef 2%nat) (VRef 0%nat) (VRef 1%nat) (VBool true)
           (VStr "adapter") "a.fq, b.fq");
    try reflexivity.
  right. splits; reflexivity.
Defined.

Lemma process_alignment_result_shape_witness :
  exists out_bam,
    [MkAlignResult (VStr "/fq/a.bam", VNone) (VStr "/work/out.bam") (VRef 4%nat)
                   Sample.config]
    = [MkAlignResult (VStr "/fq/a.bam", VNone) out_bam (VRef 4%nat) Sample.config].
Proof.
  apply (process_alignment_result_shape Sample.fs_all Sample.align_tool unit
           Sample.runner_from_config Sample.run_picard_sort Sample.store
           (VStr "/fq/a.bam") VNone (VRef 4%nat) (VStr "L") (VStr "d") Sample.dirs
           Sample.config).
  reflexivity.
Defined.

Lemma update_config_without_overrides_witness :
  _update_config_w_custom Sample.store Sample.config Sample.sampleB
  = deepcopy Sample.store Sample.config.
Proof.
  apply (update_config_without_overrides Sample.store 0%nat Sample.sampleB
           (VRef 2%nat) VNone
           [(VStr "algorithm", VRef 1%nat); (VStr "custom_algorithms", VRef 2%nat)]
           [(VStr "variant", VRef 3%nat)] [VNone]);
    try reflexivity.
  repeat constructor.
Defined.

Lemma update_config_requires_custom_algorithms_witness :
  _update_config_w_custom Sample.trim_store (VRef 0%nat) (VRef 3%nat)
  = Raise KeyError.
Proof.
  apply (update_config_requires_custom_algorithms Sample.trim_store 0%nat
           (VRef 3%nat) VNone [(VStr "algorithm", VRef 1%nat)]);
    reflexivity.
Defined.

Lemma update_config_global_survives_witness :
  exists (h' : heap) (cfg' alg' : val),
    _update_config_w_custom Sample.store Sample.config Sample.sampleA
    = Ok (h', cfg') /\
    py_getitem h' cfg' (VStr "algorithm") = Ok alg' /\
    py_getitem h' alg' (VStr "aligner") = Ok (VStr "bwa").
Proof.
  apply (update_config_global_survives Sample.store Sample.config Sample.sampleA
           (VRef 1%nat) (VRef 2%nat) (VStr "aligner") (VStr "bwa")
           [(VStr "x", VInt 3)]);
    try reflexivity.
  repeat constructor; intros bv w Hbv; vm_compute in Hbv; try discriminate.
  injection Hbv as <-. vm_compute. discriminate.
Defined.

Lemma update_config_sample_view_witness :
  _update_config_w_custom Cases.more_store Sample.config Sample.sampleA
  = _update_config_w_custom Cases.more_store Sample.config Cases.sampleS.
Proof.
  apply (update_config_sample_view Cases.more_store Sample.config Sample.sampleA
           Cases.sampleS (VStr "variant") (VStr "SNP calling"));
    reflexivity.
Defined.

Lemma process_lane_rounds_witness :
  exists (h' : heap) (recs : list dispatch),
    process_lane Sample.repr_obj Sample.get_fastq_files Sample.split_by_barcode_A
      Sample.safe_makedir Sample.split_read_files Sample.store
      [Sample.sampleA; Sample.sampleB] (VStr "FC1") (VStr "2020-01-01")
      Sample.dirs Sample.config = Ok (h', recs) /\
    exists item0 h1 config0 lane_id fastq_dir work_dir fastq1 fastq2 bc rounds,
      let base := py_str Sample.repr_obj Sample.store lane_id +:+ "_"
                  +:+ py_str Sample.repr_obj Sample.store (VStr "2020-01-01")
                  +:+ "_" +:+ py_str Sample.repr_obj Sample.store (VStr "FC1") in
      head [Sample.sampleA; Sample.sampleB] = Some item0 /\
      py_getitem Sample.store item0 (VStr "lane") = Ok lane_id /\
      py_getitem Sample.store Sample.dirs (VStr "fastq") = Ok fastq_dir /\
      py_getitem Sample.store Sample.dirs (VStr "work") = Ok work_dir /\
      _update_config_w_custom Sample.store Sample.config item0 = Ok (h1, config0) /\
      Sample.get_fastq_files h1 fastq_dir work_dir item0 (VStr "FC1") Sample.dirs
        config0 = Ok (fastq1, fastq2) /\
      Sample.split_by_barcode_A h1 fastq1 fastq2 [Sample.sampleA; Sample.sampleB]
        base Sample.dirs Sample.config = Ok bc /\
      map round_item rounds = [Sample.sampleA; Sample.sampleB] /\
      rounds_from Sample.safe_makedir Sample.split_read_files bc Sample.dirs h1
        Sample.config rounds h' /\
      merge_chain h1 Sample.config [Sample.sampleA; Sample.sampleB]
      = Ok (h', map round_config rounds) /\
      Forall2 (record_of base Sample.dirs) (flat_map round_work rounds) recs.
Proof.
  destruct (process_lane Sample.repr_obj Sample.get_fastq_files
              Sample.split_by_barcode_A Sample.safe_makedir Sample.split_read_files
              Sample.store [Sample.sampleA; Sample.sampleB] (VStr "FC1")
              (VStr "2020-01-01") Sample.dirs Sample.config)
    as [[h' recs]|e] eqn:E; [| vm_compute in E; discriminate].
  exists h', recs. split; [reflexivity |].
  apply (process_lane_rounds Sample.repr_obj Sample.get_fastq_files
           Sample.split_by_barcode_A Sample.safe_makedir Sample.split_read_files
           Sample.store h' [Sample.sampleA; Sample.sampleB] (VStr "FC1")
           (VStr "2020-01-01") Sample.dirs Sample.config recs E).
Defined.

Lemma process_lane_keeps_store_witness :
  exists (h' : heap) (recs : list dispatch),
    process_lane Sample.repr_obj Sample.get_fastq_files Sample.split_by_barcode
      Sample.safe_makedir Sample.split_read_files Sample.store
      [Sample.sampleA; Sample.sampleB] (VStr "FC1") (VStr "2020-01-01")
      Sample.dirs Sample.config = Ok (h', recs) /\
    (forall l o, Sample.store !! l = Some o -> h' !! l = Some o) /\
    wf_heap h' = true /\
    Forall (fun r => exists l, d_config r = VRef l /\
                       Sample.store !! l = None /\ is_Some (h' !! l)) recs.
Proof.
  destruct (process_lane Sample.repr_obj Sample.get_fastq_files
              Sample.split_by_barcode Sample.safe_makedir Sample.split_read_files
              Sample.store [Sample.sampleA; Sample.sampleB] (VStr "FC1")
              (VStr "2020-01-01") Sample.dirs Sample.config)
    as [[h' recs]|e] eqn:E; [| vm_compute in E; discriminate].
  exists h', recs. split; [reflexivity |].
  apply (process_lane_keeps_store Sample.repr_obj Sample.get_fastq_files
           Sample.split_by_barcode Sample.safe_makedir Sample.split_read_files
           Sample.store h' [Sample.sampleA; Sample.sampleB] (VStr "FC1")
           (VStr "2020-01-01") Sample.dirs Sample.config recs eq_refl eq_refl eq_refl
           ltac:(repeat constructor) E).
Defined.

Lemma process_lane_required_keys_witness :
  Forall (fun it => exists b, py_getitem Sample.store it (VStr "barcode_id") = Ok b /\
                      hashable b = true) [Sample.sampleA; Sample.sampleB] /\
  (exists item0 lane_id, head [Sample.sampleA; Sample.sampleB] = Some item0 /\
     py_getitem Sample.store item0 (VStr "lane") = Ok lane_id) /\
  (exists fastq_dir work_dir,
     py_getitem Sample.store Sample.dirs (VStr "fastq") = Ok fastq_dir /\
     py_getitem Sample.store Sample.dirs (VStr "work") = Ok work_dir).
Proof.
  destruct (process_lane Sample.repr_obj Sample.get_fastq_files
              Sample.split_by_barcode Sample.safe_makedir Sample.split_read_files
              Sample.store [Sample.sampleA; Sample.sampleB] (VStr "FC1")
              (VStr "2020-01-01") Sample.dirs Sample.config)
    as [[h' recs]|e] eqn:E; [| vm_compute in E; discriminate].
  apply (process_lane_required_keys Sample.repr_obj Sample.get_fastq_files
           Sample.split_by_barcode Sample.safe_makedir Sample.split_read_files
           Sample.store h' [Sample.sampleA; Sample.sampleB] (VStr "FC1")
           (VStr "2020-01-01") Sample.dirs Sample.config recs eq_refl eq_refl eq_refl
           ltac:(repeat constructor) E).
Defined.

Lemma lane_record_description_witness :
  exists cur_lane_name,
    (truthy Cases.more_store (VStr "C1") = false ->
     forall config,
       lane_record Sample.repr_obj Cases.more_store Cases.sampleC "1_d_FC1"
         Sample.dirs config (VStr "c1.fq", VNone, VNone)
       = Ok (MkDispatch (VStr "c1.fq") VNone Cases.sampleC cur_lane_name
               (VStr "sampleC") Sample.dirs config)) /\
    (truthy Cases.more_store (VStr "C1") = true ->
     forall config,
       lane_record Sample.repr_obj Cases.more_store Cases.sampleC "1_d_FC1"
         Sample.dirs config (VStr "c1.fq", VNone, VNone)
       = let* alg := py_getitem Cases.more_store config (VStr "algorithm") in
         let* inc := py_get Cases.more_store alg (VStr "include_short_name")
                       (VBool true) in
         Ok (MkDispatch (VStr "c1.fq") VNone Cases.sampleC cur_lane_name
               (if truthy Cases.more_store inc
                then VStr (py_str Sample.repr_obj Cases.more_store (VStr "C1")
                           +:+ " : "
                           +:+ py_str Sample.repr_obj Cases.more_store (VStr "sampleC"))
                else VStr "sampleC")
               Sample.dirs config)).
Proof.
  apply (lane_record_description Sample.repr_obj Cases.more_store Cases.sampleC
           Sample.dirs (VStr "sampleC") (VStr "C1") (VStr "C") (VStr "c1.fq") VNone
           VNone "1_d_FC1");
    reflexivity.
Defined.

Lemma process_alignment_wants_path_witness :
  process_alignment Sample.fs_all Sample.align_tool unit Sample.runner_from_config
    Sample.run_picard_sort Sample.store VNone VNone (VRef 4%nat)
    (VStr "L") (VStr "d") Sample.dirs Sample.config
  = Raise TypeError.
Proof.
  apply (process_alignment_wants_path Sample.fs_all Sample.align_tool unit
           Sample.runner_from_config Sample.run_picard_sort Sample.store
           VNone VNone (VRef 4%nat) (VStr "L") (VStr "d") Sample.dirs Sample.config
           (VRef 1%nat) (VStr "bwa"));
    try reflexivity.
  discriminate.
Defined.

Lemma process_alignment_sort_path_witness :
  exists dir stem name sep,
    "/fq/a.bam" = dir +:+ stem +:+ ".bam" /\
    (dir = "" \/ exists d, dir = d +:+ "/") /\
    str_contains "/"%char stem = false /\
    name = (if existsb (fun ch => negb (Ascii.eqb ch "."%char))
                 (String.list_ascii_of_string stem)
            then stem else stem +:+ ".bam") /\
    ((("/work" = "" \/ exists d, "/work" = d +:+ "/") /\ sep = "") \/
     ("/work" <> "" /\ (forall d, "/work" <> d +:+ "/") /\ sep = "/")) /\
    process_alignment Sample.fs_all Sample.align_tool unit Sample.runner_from_config
      Sample.run_picard_sort Cases.sort_store (VStr "/fq/a.bam") VNone (VRef 3%nat)
      (VStr "L") (VStr "d") (VRef 2%nat) (VRef 0%nat)
    = let* out := Sample.run_picard_sort tt (VStr "/fq/a.bam") (VStr "coordinate")
                    ("/work" +:+ sep +:+ name +:+ "-sort.bam") in
      Ok [MkAlignResult (VStr "/fq/a.bam", VNone) out (VRef 3%nat) (VRef 0%nat)].
Proof.
  apply (process_alignment_sort_path Sample.fs_all Sample.align_tool unit
           Sample.runner_from_config Sample.run_picard_sort Cases.sort_store
           "/fq/a.bam" "/work" VNone (VRef 3%nat) (VStr "L") (VStr "d") (VRef 2%nat)
           (VRef 0%nat) (VRef 1%nat) VNone (VStr "coordinate") tt);
    reflexivity.
Defined.

Lemma update_config_carries_over_witness :
  exists (h1 h2 : heap) (config1 config2 alg2 : val),
    _update_config_w_custom Sample.store Sample.config Sample.sampleA
    = Ok (h1, config1) /\
    _update_config_w_custom h1 config1 Sample.sampleB = Ok (h2, config2) /\
    py_getitem h2 config2 (VStr "algorithm") = Ok alg2 /\
    py_getitem h2 alg2 (VStr "x") = Ok (VInt 3).
Proof.
  destruct (_update_config_w_custom Sample.store Sample.config Sample.sampleA)
    as [[h1 config1]|e] eqn:E; [| vm_compute in E; discriminate].
  pose proof E as E'. vm_compute in E'. injection E' as <- <-.
  destruct (update_config_carries_over Sample.store _ Sample.config _ Sample.sampleA
              Sample.sampleB (VRef 5%nat) (VRef 10%nat) (VStr "x") (VInt 3) []
              eq_refl eq_refl eq_refl eq_refl E)
    as (h2 & config2 & alg2 & E2 & Halg2 & Hx2); try reflexivity.
  - repeat constructor. intros bv w Hbv. vm_compute in Hbv. discriminate.
  - eexists _, h2, _, config2, alg2. splits; eauto.
Defined.
